(** * linear-mcp: the request/response normalisation layer

    A shallow embedding of

    - [src/linear/types.py]   (result records),
    - [src/linear/request.py] (GraphQL dispatch and the coercion helpers),
    - [src/tools/issues.py]   (issue parser, create/update tools),
    - [src/tools/compound.py] (issue/comment/state parsers, issue context),

    followed by the properties of section 8 of the specification.

    Python values decoded from a JSON body are the inductive [value];
    exceptions are an explicit [result]; the single outbound effect
    ([ctx.dispatch]) is threaded through a state monad [IO] whose state
    records every request handed to the transport. *)

From Stdlib Require Import ZArith List String Ascii Bool Lia.
From Stdlib Require Import Floats.SpecFloat DecimalString.
Import ListNotations.

#[local] Set Warnings "-register-all".
#[local] Open Scope string_scope.
#[local] Open Scope Z_scope.

(* ================================================================== *)
(** * Python values *)
(* ================================================================== *)

(** What [json]-decoding can produce: [None], [bool], [int] (unbounded),
    [float] (IEEE binary64, kept as sign/mantissa/exponent), [str],
    [list] and [dict].  A [dict] keeps insertion order, which its textual
    rendering depends on, so it is an association list. *)
Inductive value : Type :=
| VNone
| VBool (b : bool)
| VInt (z : Z)
| VFloat (f : spec_float)
| VStr (s : string)
| VList (l : list value)
| VDict (d : list (string * value)).

Definition dict : Type := list (string * value).

(** Exceptions the modelled code can meet. *)
Inductive exn : Type := TypeError | ValueError | OverflowError.

Inductive result (A : Type) : Type :=
| Ok (a : A)
| Raise (e : exn).
Arguments Ok {A} a.
Arguments Raise {A} e.

Definition rbind {A B : Type} (r : result A) (k : A -> result B) : result B :=
  match r with
  | Ok a => k a
  | Raise e => Raise e
  end.

Notation "'let*' x ':=' r 'in' k" := (rbind r (fun x => k))
  (at level 61, x name, r at next level, right associativity).

(** [try: r except (handled): fallback]. *)
Definition try_except {A : Type} (r : result A) (handled : exn -> bool)
    (fallback : A) : result A :=
  match r with
  | Ok a => Ok a
  | Raise e => if handled e then Ok fallback else Raise e
  end.

(** ** Dictionaries *)

Fixpoint lookup (d : dict) (key : string) : option value :=
  match d with
  | [] => None
  | (k, v) :: rest => if String.eqb k key then Some v else lookup rest key
  end.

(** [d.get(key, default)] and [d.get(key)]. *)
Definition get_or (d : dict) (key : string) (default : value) : value :=
  match lookup d key with
  | Some v => v
  | None => default
  end.

Definition get (d : dict) (key : string) : value := get_or d key VNone.

(** [d[key] = v]: overwrite in place, else append. *)
Fixpoint setitem (d : dict) (key : string) (v : value) : dict :=
  match d with
  | [] => [(key, v)]
  | (k, w) :: rest =>
      if String.eqb k key then (k, v) :: rest else (k, w) :: setitem rest key v
  end.

(** ** Floats: IEEE binary64 *)

Definition prec : Z := 53.
Definition emax : Z := 1024.

Definition float_zero : spec_float := S754_zero false.
Definition float_one : spec_float := binary_normalize prec emax 1 0 false.
Definition float_inf : spec_float := S754_infinity false.

(** ** Truthiness: [bool(v)] *)

Definition truthy (v : value) : bool :=
  match v with
  | VNone => false
  | VBool b => b
  | VInt z => negb (z =? 0)
  | VFloat (S754_zero _) => false
  | VFloat _ => true
  | VStr s => negb (String.eqb s "")
  | VList l => match l with [] => false | _ => true end
  | VDict d => match d with [] => false | _ => true end
  end.

(** ** Text primitives of the runtime

    [repr] of a float and of text, and the parsing of numeric text, are
    the interpreter's; the code only relies on them being functions. *)
Class PyText : Type := {
  float_repr : spec_float -> string;
  str_repr : string -> string;
  int_of_text : string -> option Z;
  float_of_text : string -> option spec_float
}.

(** [repr(n)] for an int: decimal, with a leading minus sign. *)
Definition int_repr (z : Z) : string := NilZero.string_of_int (Z.to_int z).

(** A runtime for closed examples.  It reads plain decimal integers,
    quotes text in single quotes without escaping, and writes a finite
    non-zero float exactly, as mantissa and binary exponent, rather than
    in Python's shortest decimal form. *)
Definition digit_of (c : ascii) : option Z :=
  let n := Z.of_nat (nat_of_ascii c) in
  if (48 <=? n) && (n <=? 57) then Some (n - 48) else None.

Fixpoint digits_value (s : string) (acc : Z) : option Z :=
  match s with
  | EmptyString => Some acc
  | String c rest =>
      match digit_of c with
      | Some n => digits_value rest (10 * acc + n)
      | None => None
      end
  end.

Definition decimal_of_text (s : string) : option Z :=
  match s with
  | EmptyString => None
  | String "-" (String c rest) => option_map Z.opp (digits_value (String c rest) 0)
  | String "+" (String c rest) => digits_value (String c rest) 0
  | _ => digits_value s 0
  end.

Definition sample_float_repr (f : spec_float) : string :=
  match f with
  | S754_zero false => "0.0"
  | S754_zero true => "-0.0"
  | S754_infinity false => "inf"
  | S754_infinity true => "-inf"
  | S754_nan => "nan"
  | S754_finite sign m e =>
      (if sign then "-" else "") ++ int_repr (Zpos m) ++ "*2**" ++ int_repr e
  end.

Definition sample_float_of_text (s : string) : option spec_float :=
  if String.eqb s "inf" then Some float_inf
  else if String.eqb s "nan" then Some S754_nan
  else option_map (fun z => binary_normalize prec emax z 0 false) (decimal_of_text s).

Definition sample_text : PyText := {|
  float_repr := sample_float_repr;
  str_repr := fun s => "'" ++ s ++ "'";
  int_of_text := decimal_of_text;
  float_of_text := sample_float_of_text
|}.

Section Builtins.
Context {T : PyText}.

(** [repr(v)]. *)
Fixpoint py_repr (v : value) : string :=
  match v with
  | VNone => "None"
  | VBool b => if b then "True" else "False"
  | VInt z => int_repr z
  | VFloat f => float_repr f
  | VStr s => str_repr s
  | VList l => "[" ++ String.concat ", " (map py_repr l) ++ "]"
  | VDict d =>
      "{" ++ String.concat ", "
               (map (fun '(k, x) => str_repr k ++ ": " ++ py_repr x) d) ++ "}"
  end.

(** [str(v)]: text is itself, everything else is its [repr]. *)
Definition py_str (v : value) : string :=
  match v with
  | VStr s => s
  | _ => py_repr v
  end.

(** [int(x)] for a float: truncation toward zero. *)
Definition int_of_float (f : spec_float) : result Z :=
  match f with
  | S754_zero _ => Ok 0
  | S754_infinity _ => Raise OverflowError
  | S754_nan => Raise ValueError
  | S754_finite s m e =>
      let magnitude := Z.shiftl (Zpos m) e in
      Ok (if s then - magnitude else magnitude)
  end.

(** [float(n)] for an int: nearest-even, [OverflowError] past the range. *)
Definition float_of_int (z : Z) : result spec_float :=
  match binary_normalize prec emax z 0 false with
  | S754_infinity _ => Raise OverflowError
  | f => Ok f
  end.

(** [int(v)]. *)
Definition py_int (v : value) : result Z :=
  match v with
  | VNone => Raise TypeError
  | VBool b => Ok (if b then 1 else 0)
  | VInt z => Ok z
  | VFloat f => int_of_float f
  | VStr s => match int_of_text s with Some z => Ok z | None => Raise ValueError end
  | VList _ => Raise TypeError
  | VDict _ => Raise TypeError
  end.

(** [float(v)]. *)
Definition py_float (v : value) : result spec_float :=
  match v with
  | VNone => Raise TypeError
  | VBool b => Ok (if b then float_one else float_zero)
  | VInt z => float_of_int z
  | VFloat f => Ok f
  | VStr s => match float_of_text s with Some f => Ok f | None => Raise ValueError end
  | VList _ => Raise TypeError
  | VDict _ => Raise TypeError
  end.

(** [for n in v]: the elements a [for] visits, or [TypeError]. *)
Definition py_iter (v : value) : result (list value) :=
  match v with
  | VList l => Ok l
  | VDict d => Ok (map (fun kv => VStr (fst kv)) d)
  | VStr s => Ok (map (fun c => VStr (String c EmptyString)) (list_ascii_of_string s))
  | VNone | VBool _ | VInt _ | VFloat _ => Raise TypeError
  end.
End Builtins.

(* ================================================================== *)
(** * Result records ([linear/types.py]) *)
(* ================================================================== *)

Module LinearResult.
Record t : Type := mk {
  success : bool;
  data : value;               (* JSONValue | None, with None as VNone *)
  error : option string
}.
End LinearResult.

Module IssueInfo.
Record t : Type := mk {
  id : string;
  identifier : string;
  title : string;
  description : option string;
  state : option string;
  priority : Z;
  assignee : option string;
  labels : list string;
  created_at : option string;
  updated_at : option string
}.
End IssueInfo.

Module CommentInfo.
Record t : Type := mk {
  id : string;
  body : string;
  user : option string;
  created_at : option string
}.
End CommentInfo.

Module WorkflowStateInfo.
Record t : Type := mk {
  id : string;
  name : string;
  type : string;
  color : option string;
  position : spec_float
}.
End WorkflowStateInfo.

Module IssueContextInfo.
Record t : Type := mk {
  issue : IssueInfo.t;
  comments : list CommentInfo.t;
  states : list WorkflowStateInfo.t
}.
End IssueContextInfo.

Module TeamInfo.
Record t : Type := mk {
  id : string;
  name : string;
  key : string
}.
End TeamInfo.

Module UserInfo.
Record t : Type := mk {
  id : string;
  name : string;
  email : option string
}.
End UserInfo.

Module LabelInfo.
Record t : Type := mk {
  id : string;
  name : string;
  color : option string
}.
End LabelInfo.

Module ProjectInfo.
Record t : Type := mk {
  id : string;
  name : string;
  state : option string;
  progress : spec_float;
  target_date : option string
}.
End ProjectInfo.

Module CycleInfo.
Record t : Type := mk {
  id : string;
  number : Z;
  name : option string;
  starts_at : option string;
  ends_at : option string;
  progress : spec_float
}.
End CycleInfo.

Module AttachmentInfo.
Record t : Type := mk {
  id : string;
  url : string;
  title : option string;
  subtitle : option string
}.
End AttachmentInfo.

(** A tool returns either its record or a plain diagnostic text. *)
Inductive reply (A : Type) : Type :=
| Record_ (a : A)
| Text (s : string).
Arguments Record_ {A} a.
Arguments Text {A} s.

(* ================================================================== *)
(** * The transport collaborator ([dedalus_mcp]) *)
(* ================================================================== *)

(** The interface of section 6 of the specification:
    [send(connection, request) ->
       { success, response: { body } or null, error: { message } or null }]. *)

Inductive HttpMethod : Type := GET | POST.

Record HttpRequest : Type := {
  method : HttpMethod;
  path : string;
  body : dict;
  headers : option (list (string * string))
}.

Record Connection : Type := {
  conn_name : string;
  secrets : list (string * string);
  base_url : string;
  auth_header_format : string
}.

Module HttpResponse.
Record t : Type := mk { body : value }.
End HttpResponse.

Module DispatchError.
Record t : Type := mk { message : string }.
End DispatchError.

Module DispatchResponse.
Record t : Type := mk {
  success : bool;
  response : option HttpResponse.t;
  error : option DispatchError.t
}.
End DispatchResponse.

(** The world outside: what the transport answers to a request, and the
    requests it has been handed so far, oldest first. *)
Record World : Type := {
  transport : Connection -> HttpRequest -> DispatchResponse.t;
  sent : list (Connection * HttpRequest)
}.

(** Effectful code: may raise, and threads the world. *)
Definition IO (A : Type) : Type := World -> result A * World.

Definition ret {A : Type} (a : A) : IO A := fun w => (Ok a, w).

Definition bind {A B : Type} (m : IO A) (k : A -> IO B) : IO B :=
  fun w =>
    match m w with
    | (Ok a, w') => k a w'
    | (Raise e, w') => (Raise e, w')
    end.

Definition lift {A : Type} (r : result A) : IO A := fun w => (r, w).

Notation "x <- m ;; k" := (bind m (fun x => k))
  (at level 61, m at next level, right associativity).

(** [await ctx.dispatch(conn, req)]. *)
Definition dispatch (conn : Connection) (req : HttpRequest) : IO DispatchResponse.t :=
  fun w =>
    (Ok (transport w conn req),
     {| transport := transport w; sent := sent w ++ [(conn, req)] |}).

(* ================================================================== *)
(** * [linear/config.py] *)
(* ================================================================== *)

Definition linear : Connection := {|
  conn_name := "linear-mcp";
  secrets := [("token", "LINEAR_ACCESS_TOKEN")];
  base_url := "https://api.linear.app";
  auth_header_format := "Bearer {api_key}"
|}.

(* ================================================================== *)
(** * [linear/request.py] *)
(* ================================================================== *)

Section Request.
Context {T : PyText}.

(** Lines 57-70 of [graphql]: the request that is built. *)
Definition graphql_request (query : string) (variables : option dict)
    (signed_url_ttl : option Z) : HttpRequest :=
  let body0 : dict := [("query", VStr query)] in
  let body1 :=
    match variables with
    | Some vars => if truthy (VDict vars) then setitem body0 "variables" (VDict vars) else body0
    | None => body0
    end in
  let headers :=
    match signed_url_ttl with
    | Some ttl => Some [("public-file-urls-expire-in", py_str (VInt ttl))]
    | None => None
    end in
  {| method := POST; path := "/graphql"; body := body1; headers := headers |}.

(** Lines 72-91 of [graphql]: the classification of the answer. *)
Definition graphql_result (resp : DispatchResponse.t) : LinearResult.t :=
  match DispatchResponse.success resp, DispatchResponse.response resp with
  | true, Some r =>
      let resp_body := HttpResponse.body r in
      match resp_body with
      | VDict b =>
          let errors := get b "errors" in
          match errors with
          | VList (first :: _) =>
              let msg :=
                match first with
                | VDict e => get_or e "message" (VStr "GraphQL error")
                | _ => VStr "GraphQL error"
                end in
              LinearResult.mk false VNone (Some (py_str msg))
          | _ => LinearResult.mk true (get b "data") None
          end
      | _ => LinearResult.mk true resp_body None
      end
  | _, _ =>
      let error :=
        match DispatchResponse.error resp with
        | Some e => DispatchError.message e
        | None => "Request failed"
        end in
      LinearResult.mk false VNone (Some error)
  end.

Definition graphql (query : string) (variables : option dict)
    (signed_url_ttl : option Z) : IO LinearResult.t :=
  resp <- dispatch linear (graphql_request query variables signed_url_ttl) ;;
  ret (graphql_result resp).

(** ** Coercion helpers *)

Definition _str (val : value) (default : string) : string :=
  match val with
  | VNone => default
  | _ => py_str val
  end.

Definition numeric_error (e : exn) : bool :=
  match e with
  | TypeError | ValueError => true
  | OverflowError => false
  end.

Definition _int (val : value) (default : Z) : result Z :=
  match val with
  | VNone => Ok default
  | _ => try_except (py_int val) numeric_error default
  end.

Definition _float (val : value) (default : spec_float) : result spec_float :=
  match val with
  | VNone => Ok default
  | _ => try_except (py_float val) numeric_error default
  end.

Definition _opt_str (val : value) : option string :=
  match val with
  | VNone => None
  | _ => Some (py_str val)
  end.

Definition _bool (val : value) (default : bool) : bool :=
  match val with
  | VNone => default
  | _ => truthy val
  end.

Definition _nested_str (obj : value) (key : string) : option string :=
  match obj with
  | VDict d => _opt_str (get d key)
  | _ => None
  end.
End Request.

(** [response.error or fallback]. *)
Definition or_text (o : option string) (fallback : string) : string :=
  match o with
  | Some s => if String.eqb s "" then fallback else s
  | None => fallback
  end.

(** [if x is not None: d[key] = x]. *)
Definition set_opt (d : dict) (key : string) (o : option value) : dict :=
  match o with
  | Some v => setitem d key v
  | None => d
  end.

Definition text_arg (o : option string) : option value := option_map VStr o.
Definition int_arg (o : option Z) : option value := option_map VInt o.
Definition texts_arg (o : option (list string)) : option value :=
  option_map (fun l => VList (map VStr l)) o.

Definition dict_arg (o : option dict) : option value := option_map VDict o.

(** An optional argument as the value a dict literal holds for it. *)
Definition text_value (o : option string) : value :=
  match o with
  | Some s => VStr s
  | None => VNone
  end.

Definition dict_value (o : option dict) : value :=
  match o with
  | Some d => VDict d
  | None => VNone
  end.

(** [[parse(node) for node in nodes if isinstance(node, dict)]]. *)
Fixpoint parse_mappings {A : Type} (parse : dict -> result A)
    (nodes : list value) : result (list A) :=
  match nodes with
  | [] => Ok []
  | VDict node :: rest =>
      let* x := parse node in
      let* xs := parse_mappings parse rest in
      Ok (x :: xs)
  | _ :: rest => parse_mappings parse rest
  end.

(* ================================================================== *)
(** * [tools/issues.py] *)
(* ================================================================== *)

Module Issues.
Section Issues.
Context {T : PyText}.

Definition _ISSUE_FIELDS : string := "
    id identifier title priority createdAt updatedAt
    state { name }
    assignee { name }
    labels { nodes { name } }
".

(** [[_str(node.get("name")) for node in nodes
      if isinstance(node, dict) and node.get("name")]]. *)
Fixpoint label_names (nodes : list value) : list string :=
  match nodes with
  | [] => []
  | VDict node :: rest =>
      if truthy (get node "name")
      then _str (get node "name") "" :: label_names rest
      else label_names rest
  | _ :: rest => label_names rest
  end.

Definition _parse_issue (raw : dict) : result IssueInfo.t :=
  let state_node := get raw "state" in
  let assignee_node := get raw "assignee" in
  let label_nodes := get_or raw "labels" (VDict []) in
  let labels :=
    match label_nodes with
    | VDict ln =>
        match get_or ln "nodes" (VList []) with
        | VList nodes => label_names nodes
        | _ => []
        end
    | _ => []
    end in
  let* priority := _int (get raw "priority") 0 in
  Ok {| IssueInfo.id := _str (get raw "id") "";
        IssueInfo.identifier := _str (get raw "identifier") "";
        IssueInfo.title := _str (get raw "title") "";
        IssueInfo.description := _opt_str (get raw "description");
        IssueInfo.state := _nested_str state_node "name";
        IssueInfo.priority := priority;
        IssueInfo.assignee := _nested_str assignee_node "name";
        IssueInfo.labels := labels;
        IssueInfo.created_at := _opt_str (get raw "createdAt");
        IssueInfo.updated_at := _opt_str (get raw "updatedAt") |}.

Definition create_query : string := "
    mutation IssueCreate($input: IssueCreateInput!) {
        issueCreate(input: $input) {
            success
            issue { " ++ _ISSUE_FIELDS ++ " }
        }
    }
    ".

Definition linear_create_issue (team_id title : string)
    (description assignee_id state_id : option string)
    (priority : option Z) (label_ids : option (list string))
    (cycle_id project_id : option string) (estimate : option Z)
    (create_as_user display_icon_url : option string)
    : IO (reply IssueInfo.t) :=
  let input_data : dict := [("teamId", VStr team_id); ("title", VStr title)] in
  let input_data := set_opt input_data "description" (text_arg description) in
  let input_data := set_opt input_data "assigneeId" (text_arg assignee_id) in
  let input_data := set_opt input_data "stateId" (text_arg state_id) in
  let input_data := set_opt input_data "priority" (int_arg priority) in
  let input_data := set_opt input_data "labelIds" (texts_arg label_ids) in
  let input_data := set_opt input_data "cycleId" (text_arg cycle_id) in
  let input_data := set_opt input_data "projectId" (text_arg project_id) in
  let input_data := set_opt input_data "estimate" (int_arg estimate) in
  let input_data := set_opt input_data "createAsUser" (text_arg create_as_user) in
  let input_data := set_opt input_data "displayIconUrl" (text_arg display_icon_url) in
  response <- graphql create_query (Some [("input", VDict input_data)]) None ;;
  if negb (LinearResult.success response)
  then ret (Text (or_text (LinearResult.error response) "Failed to create issue"))
  else
    match LinearResult.data response with
    | VDict data =>
        match get data "issueCreate" with
        | VDict payload =>
            if negb (truthy (get payload "success"))
            then ret (Text "Issue creation failed")
            else
              match get payload "issue" with
              | VDict issue_data =>
                  result <- lift (_parse_issue issue_data) ;;
                  ret (Record_ result)
              | _ => ret (Text "No issue in response")
              end
        | _ => ret (Text "Issue creation failed")
        end
    | _ => ret (Text "Unexpected response")
    end.

Definition update_query : string := "
    mutation IssueUpdate($id: String!, $input: IssueUpdateInput!) {
        issueUpdate(id: $id, input: $input) {
            success
            issue { " ++ _ISSUE_FIELDS ++ " }
        }
    }
    ".

Definition linear_update_issue (issue_id : string)
    (title description state_id assignee_id : option string)
    (priority : option Z) (label_ids : option (list string))
    (cycle_id project_id : option string) (estimate : option Z)
    : IO (reply IssueInfo.t) :=
  let input_data : dict := [] in
  let input_data := set_opt input_data "title" (text_arg title) in
  let input_data := set_opt input_data "description" (text_arg description) in
  let input_data := set_opt input_data "stateId" (text_arg state_id) in
  let input_data := set_opt input_data "assigneeId" (text_arg assignee_id) in
  let input_data := set_opt input_data "priority" (int_arg priority) in
  let input_data := set_opt input_data "labelIds" (texts_arg label_ids) in
  let input_data := set_opt input_data "cycleId" (text_arg cycle_id) in
  let input_data := set_opt input_data "projectId" (text_arg project_id) in
  let input_data := set_opt input_data "estimate" (int_arg estimate) in
  if negb (truthy (VDict input_data))
  then ret (Text "No fields to update")
  else
    response <- graphql update_query
                  (Some [("id", VStr issue_id); ("input", VDict input_data)]) None ;;
    if negb (LinearResult.success response)
    then ret (Text (or_text (LinearResult.error response) "Failed to update issue"))
    else
      match LinearResult.data response with
      | VDict data =>
          match get data "issueUpdate" with
          | VDict payload =>
              if negb (truthy (get payload "success"))
              then ret (Text "Issue update failed")
              else
                match get payload "issue" with
                | VDict issue_data =>
                    result <- lift (_parse_issue issue_data) ;;
                    ret (Record_ result)
                | _ => ret (Text "No issue in response")
                end
          | _ => ret (Text "Issue update failed")
          end
      | _ => ret (Text "Unexpected response")
      end.

Definition get_issue_query : string := "
    query GetIssue($id: String!) {
        issue(id: $id) { " ++ _ISSUE_FIELDS ++ " description }
    }
    ".

Definition linear_get_issue (issue_id : string)
    : IO (reply IssueInfo.t) :=
  response <- graphql get_issue_query (Some [("id", VStr issue_id)]) None ;;
  if negb (LinearResult.success response)
  then ret (Text (or_text (LinearResult.error response) "Failed to fetch issue"))
  else
    match LinearResult.data response with
    | VDict data =>
        match get data "issue" with
        | VDict issue_data =>
            result <- lift (_parse_issue issue_data) ;;
            ret (Record_ result)
        | _ => ret (Text "Issue not found")
        end
    | _ => ret (Text "Unexpected response")
    end.

Definition list_issues_query : string := "
    query Issues(
        $filter: IssueFilter,
        $first: Int,
        $after: String,
        $orderBy: PaginationOrderBy,
        $includeArchived: Boolean
    ) {
        issues(
            filter: $filter,
            first: $first,
            after: $after,
            orderBy: $orderBy,
            includeArchived: $includeArchived
        ) {
            nodes { " ++ _ISSUE_FIELDS ++ " }
            pageInfo { hasNextPage endCursor }
        }
    }
    ".

Definition linear_list_issues (filter : option dict) (first : Z)
    (after : option string) (order_by : string) (include_archived : bool)
    : IO (reply (list IssueInfo.t)) :=
  let variables : dict :=
    [("filter", dict_value filter); ("first", VInt first);
     ("after", text_value after); ("orderBy", VStr order_by);
     ("includeArchived", VBool include_archived)] in
  response <- graphql list_issues_query (Some variables) None ;;
  if negb (LinearResult.success response)
  then ret (Text (or_text (LinearResult.error response) "Failed to list issues"))
  else
    match LinearResult.data response with
    | VDict data =>
        match get data "issues" with
        | VDict issues_data =>
            match get_or issues_data "nodes" (VList []) with
            | VList nodes =>
                result <- lift (parse_mappings _parse_issue nodes) ;;
                ret (Record_ result)
            | _ => ret (Text "Unexpected nodes format")
            end
        | _ => ret (Text "No issues data")
        end
    | _ => ret (Text "Unexpected response")
    end.
End Issues.
End Issues.

(* ================================================================== *)
(** * [tools/compound.py] *)
(* ================================================================== *)

Module Compound.
Section Compound.
Context {T : PyText}.

Fixpoint label_names (nodes : list value) : list string :=
  match nodes with
  | [] => []
  | VDict node :: rest =>
      if truthy (get node "name")
      then _str (get node "name") "" :: label_names rest
      else label_names rest
  | _ :: rest => label_names rest
  end.

Definition _parse_issue (raw : dict) : result IssueInfo.t :=
  let state_node := get raw "state" in
  let assignee_node := get raw "assignee" in
  let label_nodes := get_or raw "labels" (VDict []) in
  let labels :=
    match label_nodes with
    | VDict ln =>
        match get_or ln "nodes" (VList []) with
        | VList nodes => label_names nodes
        | _ => []
        end
    | _ => []
    end in
  let* priority := _int (get raw "priority") 0 in
  Ok {| IssueInfo.id := _str (get raw "id") "";
        IssueInfo.identifier := _str (get raw "identifier") "";
        IssueInfo.title := _str (get raw "title") "";
        IssueInfo.description := _opt_str (get raw "description");
        IssueInfo.state := _nested_str state_node "name";
        IssueInfo.priority := priority;
        IssueInfo.assignee := _nested_str assignee_node "name";
        IssueInfo.labels := labels;
        IssueInfo.created_at := _opt_str (get raw "createdAt");
        IssueInfo.updated_at := _opt_str (get raw "updatedAt") |}.

Definition _parse_comment (raw : dict) : result CommentInfo.t :=
  Ok {| CommentInfo.id := _str (get raw "id") "";
        CommentInfo.body := _str (get raw "body") "";
        CommentInfo.user := _nested_str (get raw "user") "name";
        CommentInfo.created_at := _opt_str (get raw "createdAt") |}.

Definition _parse_state (raw : dict) : result WorkflowStateInfo.t :=
  let* position := _float (get raw "position") float_zero in
  Ok {| WorkflowStateInfo.id := _str (get raw "id") "";
        WorkflowStateInfo.name := _str (get raw "name") "";
        WorkflowStateInfo.type := _str (get raw "type") "";
        WorkflowStateInfo.color := _opt_str (get raw "color");
        WorkflowStateInfo.position := position |}.

(** [[parse(n) for n in nodes if isinstance(n, dict)]], over the
    elements the [for] visits. *)
Fixpoint parse_each {A : Type} (parse : dict -> result A)
    (nodes : list value) : result (list A) :=
  match nodes with
  | [] => Ok []
  | VDict n :: rest =>
      let* x := parse n in
      let* xs := parse_each parse rest in
      Ok (x :: xs)
  | _ :: rest => parse_each parse rest
  end.

Definition parse_nodes {A : Type} (parse : dict -> result A)
    (nodes : value) : result (list A) :=
  let* elements := py_iter nodes in
  parse_each parse elements.

Definition context_query : string := "
    query IssueContext($id: String!) {
        issue(id: $id) {
            id identifier title description priority createdAt updatedAt
            state { name }
            assignee { name }
            labels { nodes { name } }
            comments(first: 50) {
                nodes {
                    id body createdAt
                    user { name }
                }
            }
            team {
                states {
                    nodes { id name type color position }
                }
            }
        }
    }
    ".

(** Lines 164-181: the compound parse of one issue branch. *)
Definition parse_context (issue_data : dict) : result IssueContextInfo.t :=
  let* issue := _parse_issue issue_data in
  let comments_data := get_or issue_data "comments" (VDict []) in
  let comment_nodes :=
    match comments_data with
    | VDict c => get_or c "nodes" (VList [])
    | _ => VList []
    end in
  let* comments := parse_nodes _parse_comment comment_nodes in
  let team_data := get_or issue_data "team" (VDict []) in
  let states_data :=
    match team_data with
    | VDict t => get_or t "states" (VDict [])
    | _ => VDict []
    end in
  let state_nodes :=
    match states_data with
    | VDict s => get_or s "nodes" (VList [])
    | _ => VList []
    end in
  let* states := parse_nodes _parse_state state_nodes in
  Ok {| IssueContextInfo.issue := issue;
        IssueContextInfo.comments := comments;
        IssueContextInfo.states := states |}.

Definition linear_issue_context (issue_id : string)
    : IO (reply IssueContextInfo.t) :=
  response <- graphql context_query (Some [("id", VStr issue_id)]) None ;;
  if negb (LinearResult.success response)
  then ret (Text (or_text (LinearResult.error response)
                    "Failed to fetch issue context"))
  else
    match LinearResult.data response with
    | VDict data =>
        match get data "issue" with
        | VDict issue_data =>
            result <- lift (parse_context issue_data) ;;
            ret (Record_ result)
        | _ => ret (Text "Issue not found")
        end
    | _ => ret (Text "Unexpected response")
    end.

Definition my_issues_query : string := "
    query MyIssues($first: Int, $after: String, $includeArchived: Boolean) {
        viewer {
            assignedIssues(
                first: $first,
                after: $after,
                includeArchived: $includeArchived
            ) {
                nodes {
                    id identifier title priority createdAt updatedAt
                    state { name }
                    assignee { name }
                    labels { nodes { name } }
                }
                pageInfo { hasNextPage endCursor }
            }
        }
    }
    ".

Definition linear_my_issues (first : Z) (after : option string)
    (include_archived : bool)
    : IO (reply (list IssueInfo.t)) :=
  let variables : dict :=
    [("first", VInt first); ("after", text_value after);
     ("includeArchived", VBool include_archived)] in
  response <- graphql my_issues_query (Some variables) None ;;
  if negb (LinearResult.success response)
  then ret (Text (or_text (LinearResult.error response) "Failed to fetch assigned issues"))
  else
    match LinearResult.data response with
    | VDict data =>
        match get data "viewer" with
        | VDict viewer =>
            match get viewer "assignedIssues" with
            | VDict assigned =>
                match get_or assigned "nodes" (VList []) with
                | VList nodes =>
                    result <- lift (parse_each _parse_issue nodes) ;;
                    ret (Record_ result)
                | _ => ret (Text "Unexpected nodes format")
                end
            | _ => ret (Text "No assigned issues data")
            end
        | _ => ret (Text "Viewer not found")
        end
    | _ => ret (Text "Unexpected response")
    end.
End Compound.
End Compound.

(* ================================================================== *)
(** * [tools/comments.py] *)
(* ================================================================== *)

Module Comments.
Section Comments.
Context {T : PyText}.

Definition _parse_comment (raw : dict) : result CommentInfo.t :=
  Ok {| CommentInfo.id := _str (get raw "id") "";
        CommentInfo.body := _str (get raw "body") "";
        CommentInfo.user := _nested_str (get raw "user") "name";
        CommentInfo.created_at := _opt_str (get raw "createdAt") |}.

Definition list_comments_query : string := "
    query IssueComments($id: String!, $first: Int, $after: String) {
        issue(id: $id) {
            comments(first: $first, after: $after) {
                nodes {
                    id body createdAt
                    user { name }
                }
                pageInfo { hasNextPage endCursor }
            }
        }
    }
    ".

Definition linear_list_comments (issue_id : string) (first : Z)
    (after : option string)
    : IO (reply (list CommentInfo.t)) :=
  let variables : dict :=
    [("id", VStr issue_id); ("first", VInt first); ("after", text_value after)] in
  response <- graphql list_comments_query (Some variables) None ;;
  if negb (LinearResult.success response)
  then ret (Text (or_text (LinearResult.error response) "Failed to list comments"))
  else
    match LinearResult.data response with
    | VDict data =>
        match get data "issue" with
        | VDict issue_data =>
            match get issue_data "comments" with
            | VDict comments_data =>
                match get_or comments_data "nodes" (VList []) with
                | VList nodes =>
                    result <- lift (parse_mappings _parse_comment nodes) ;;
                    ret (Record_ result)
                | _ => ret (Text "Unexpected nodes format")
                end
            | _ => ret (Text "No comments data")
            end
        | _ => ret (Text "Issue not found")
        end
    | _ => ret (Text "Unexpected response")
    end.

Definition create_comment_query : string := "
    mutation CommentCreate($input: CommentCreateInput!) {
        commentCreate(input: $input) {
            success
            comment {
                id body createdAt
                user { name }
            }
        }
    }
    ".

Definition linear_create_comment (issue_id body : string)
    (create_as_user display_icon_url : option string)
    : IO (reply CommentInfo.t) :=
  let input_data : dict := [("issueId", VStr issue_id); ("body", VStr body)] in
  let input_data := set_opt input_data "createAsUser" (text_arg create_as_user) in
  let input_data := set_opt input_data "displayIconUrl" (text_arg display_icon_url) in
  response <- graphql create_comment_query (Some [("input", VDict input_data)]) None ;;
  if negb (LinearResult.success response)
  then ret (Text (or_text (LinearResult.error response) "Failed to create comment"))
  else
    match LinearResult.data response with
    | VDict data =>
        match get data "commentCreate" with
        | VDict payload =>
            if negb (truthy (get payload "success"))
            then ret (Text "Comment creation failed")
            else
              match get payload "comment" with
              | VDict comment_data =>
                  result <- lift (_parse_comment comment_data) ;;
                  ret (Record_ result)
              | _ => ret (Text "No comment in response")
              end
        | _ => ret (Text "Comment creation failed")
        end
    | _ => ret (Text "Unexpected response")
    end.

End Comments.
End Comments.

(* ================================================================== *)
(** * [tools/teams.py] *)
(* ================================================================== *)

Module Teams.
Section Teams.
Context {T : PyText}.

Definition _parse_team (raw : dict) : result TeamInfo.t :=
  Ok {| TeamInfo.id := _str (get raw "id") "";
        TeamInfo.name := _str (get raw "name") "";
        TeamInfo.key := _str (get raw "key") "" |}.

Definition _parse_state (raw : dict) : result WorkflowStateInfo.t :=
  let* position := _float (get raw "position") float_zero in
  Ok {| WorkflowStateInfo.id := _str (get raw "id") "";
        WorkflowStateInfo.name := _str (get raw "name") "";
        WorkflowStateInfo.type := _str (get raw "type") "";
        WorkflowStateInfo.color := _opt_str (get raw "color");
        WorkflowStateInfo.position := position |}.

Definition list_teams_query : string := "
    query Teams($first: Int, $after: String) {
        teams(first: $first, after: $after) {
            nodes { id name key }
            pageInfo { hasNextPage endCursor }
        }
    }
    ".

Definition linear_list_teams (first : Z) (after : option string)
    : IO (reply (list TeamInfo.t)) :=
  response <- graphql list_teams_query
                (Some [("first", VInt first); ("after", text_value after)])
                None ;;
  if negb (LinearResult.success response)
  then ret (Text (or_text (LinearResult.error response) "Failed to list teams"))
  else
    match LinearResult.data response with
    | VDict data =>
        match get data "teams" with
        | VDict teams_data =>
            match get_or teams_data "nodes" (VList []) with
            | VList nodes =>
                result <- lift (parse_mappings _parse_team nodes) ;;
                ret (Record_ result)
            | _ => ret (Text "Unexpected nodes format")
            end
        | _ => ret (Text "No teams data")
        end
    | _ => ret (Text "Unexpected response")
    end.

Definition get_team_query : string := "
    query Team($id: String!) {
        team(id: $id) { id name key }
    }
    ".

Definition linear_get_team (team_id : string)
    : IO (reply TeamInfo.t) :=
  response <- graphql get_team_query (Some [("id", VStr team_id)]) None ;;
  if negb (LinearResult.success response)
  then ret (Text (or_text (LinearResult.error response) "Failed to fetch team"))
  else
    match LinearResult.data response with
    | VDict data =>
        match get data "team" with
        | VDict team_data =>
            result <- lift (_parse_team team_data) ;;
            ret (Record_ result)
        | _ => ret (Text "Team not found")
        end
    | _ => ret (Text "Unexpected response")
    end.

Definition list_team_states_query : string := "
    query TeamStates($id: String!) {
        team(id: $id) {
            states {
                nodes { id name type color position }
            }
        }
    }
    ".

Definition linear_list_team_states (team_id : string)
    : IO (reply (list WorkflowStateInfo.t)) :=
  response <- graphql list_team_states_query (Some [("id", VStr team_id)]) None ;;
  if negb (LinearResult.success response)
  then ret (Text (or_text (LinearResult.error response) "Failed to fetch team states"))
  else
    match LinearResult.data response with
    | VDict data =>
        match get data "team" with
        | VDict team_data =>
            match get team_data "states" with
            | VDict states_data =>
                match get_or states_data "nodes" (VList []) with
                | VList nodes =>
                    result <- lift (parse_mappings _parse_state nodes) ;;
                    ret (Record_ result)
                | _ => ret (Text "Unexpected nodes format")
                end
            | _ => ret (Text "No states data")
            end
        | _ => ret (Text "Team not found")
        end
    | _ => ret (Text "Unexpected response")
    end.

End Teams.
End Teams.

(* ================================================================== *)
(** * [tools/users.py] *)
(* ================================================================== *)

Module Users.
Section Users.
Context {T : PyText}.

Definition _parse_user (raw : dict) : result UserInfo.t :=
  Ok {| UserInfo.id := _str (get raw "id") "";
        UserInfo.name := _str (get raw "name") "";
        UserInfo.email := _opt_str (get raw "email") |}.

Definition whoami_query : string := "
    query Viewer {
        viewer { id name email }
    }
    ".

Definition linear_whoami : IO (reply UserInfo.t) :=
  response <- graphql whoami_query None None ;;
  if negb (LinearResult.success response)
  then ret (Text (or_text (LinearResult.error response) "Failed to fetch viewer"))
  else
    match LinearResult.data response with
    | VDict data =>
        match get data "viewer" with
        | VDict viewer =>
            result <- lift (_parse_user viewer) ;;
            ret (Record_ result)
        | _ => ret (Text "Viewer not found")
        end
    | _ => ret (Text "Unexpected response")
    end.

Definition list_users_query : string := "
    query Users($first: Int, $after: String, $includeArchived: Boolean) {
        users(first: $first, after: $after, includeArchived: $includeArchived) {
            nodes { id name email }
            pageInfo { hasNextPage endCursor }
        }
    }
    ".

Definition linear_list_users (first : Z) (after : option string)
    (include_archived : bool)
    : IO (reply (list UserInfo.t)) :=
  let variables : dict :=
    [("first", VInt first); ("after", text_value after);
     ("includeArchived", VBool include_archived)] in
  response <- graphql list_users_query (Some variables) None ;;
  if negb (LinearResult.success response)
  then ret (Text (or_text (LinearResult.error response) "Failed to list users"))
  else
    match LinearResult.data response with
    | VDict data =>
        match get data "users" with
        | VDict users_data =>
            match get_or users_data "nodes" (VList []) with
            | VList nodes =>
                result <- lift (parse_mappings _parse_user nodes) ;;
                ret (Record_ result)
            | _ => ret (Text "Unexpected nodes format")
            end
        | _ => ret (Text "No users data")
        end
    | _ => ret (Text "Unexpected response")
    end.

End Users.
End Users.

(* ================================================================== *)
(** * [tools/labels.py] *)
(* ================================================================== *)

Module Labels.
Section Labels.
Context {T : PyText}.

Definition _parse_label (raw : dict) : result LabelInfo.t :=
  Ok {| LabelInfo.id := _str (get raw "id") "";
        LabelInfo.name := _str (get raw "name") "";
        LabelInfo.color := _opt_str (get raw "color") |}.

Definition team_labels_query : string := "
        query TeamLabels($id: String!, $first: Int, $after: String) {
            team(id: $id) {
                labels(first: $first, after: $after) {
                    nodes { id name color }
                    pageInfo { hasNextPage endCursor }
                }
            }
        }
        ".

Definition labels_query : string := "
        query Labels($first: Int, $after: String) {
            issueLabels(first: $first, after: $after) {
                nodes { id name color }
                pageInfo { hasNextPage endCursor }
            }
        }
        ".

(** Lines after the two branches of [linear_list_labels] meet. *)
Definition labels_of (labels_data : value) : IO (reply (list LabelInfo.t)) :=
  match labels_data with
  | VDict labels =>
      match get_or labels "nodes" (VList []) with
      | VList nodes =>
          result <- lift (parse_mappings _parse_label nodes) ;;
          ret (Record_ result)
      | _ => ret (Text "Unexpected nodes format")
      end
  | _ => ret (Text "No labels data")
  end.

Definition linear_list_labels (team_id : option string) (first : Z)
    (after : option string) : IO (reply (list LabelInfo.t)) :=
  if truthy (text_value team_id)
  then
    let variables : dict :=
      [("id", text_value team_id); ("first", VInt first);
       ("after", text_value after)] in
    response <- graphql team_labels_query (Some variables) None ;;
    if negb (LinearResult.success response)
    then ret (Text (or_text (LinearResult.error response) "Failed to list labels"))
    else
      match LinearResult.data response with
      | VDict data =>
          match get data "team" with
          | VDict team_data => labels_of (get team_data "labels")
          | _ => ret (Text "Team not found")
          end
      | _ => ret (Text "Unexpected response")
      end
  else
    let variables : dict :=
      [("first", VInt first); ("after", text_value after)] in
    response <- graphql labels_query (Some variables) None ;;
    if negb (LinearResult.success response)
    then ret (Text (or_text (LinearResult.error response) "Failed to list labels"))
    else
      match LinearResult.data response with
      | VDict data => labels_of (get data "issueLabels")
      | _ => ret (Text "Unexpected response")
      end.

Definition create_label_query : string := "
    mutation LabelCreate($input: IssueLabelCreateInput!) {
        issueLabelCreate(input: $input) {
            success
            issueLabel { id name color }
        }
    }
    ".

Definition linear_create_label (name : string)
    (team_id color : option string)
    : IO (reply LabelInfo.t) :=
  let input_data : dict := [("name", VStr name)] in
  let input_data := set_opt input_data "teamId" (text_arg team_id) in
  let input_data := set_opt input_data "color" (text_arg color) in
  response <- graphql create_label_query (Some [("input", VDict input_data)]) None ;;
  if negb (LinearResult.success response)
  then ret (Text (or_text (LinearResult.error response) "Failed to create label"))
  else
    match LinearResult.data response with
    | VDict data =>
        match get data "issueLabelCreate" with
        | VDict payload =>
            if negb (truthy (get payload "success"))
            then ret (Text "Label creation failed")
            else
              match get payload "issueLabel" with
              | VDict label_data =>
                  result <- lift (_parse_label label_data) ;;
                  ret (Record_ result)
              | _ => ret (Text "No label in response")
              end
        | _ => ret (Text "Label creation failed")
        end
    | _ => ret (Text "Unexpected response")
    end.

End Labels.
End Labels.

(* ================================================================== *)
(** * [tools/cycles.py] *)
(* ================================================================== *)

Module Cycles.
Section Cycles.
Context {T : PyText}.

Definition _CYCLE_FIELDS : string := "
    id number name startsAt endsAt progress
".

Definition _parse_cycle (raw : dict) : result CycleInfo.t :=
  let* number := _int (get raw "number") 0 in
  let* progress := _float (get raw "progress") float_zero in
  Ok {| CycleInfo.id := _str (get raw "id") "";
        CycleInfo.number := number;
        CycleInfo.name := _opt_str (get raw "name");
        CycleInfo.starts_at := _opt_str (get raw "startsAt");
        CycleInfo.ends_at := _opt_str (get raw "endsAt");
        CycleInfo.progress := progress |}.

Definition list_cycles_query : string := "
    query TeamCycles($id: String!, $first: Int, $after: String, $includeArchived: Boolean) {
        team(id: $id) {
            cycles(first: $first, after: $after, includeArchived: $includeArchived) {
                nodes { " ++ _CYCLE_FIELDS ++ " }
                pageInfo { hasNextPage endCursor }
            }
        }
    }
    ".

Definition linear_list_cycles (team_id : string) (first : Z)
    (after : option string) (include_archived : bool)
    : IO (reply (list CycleInfo.t)) :=
  let variables : dict :=
    [("id", VStr team_id); ("first", VInt first); ("after", text_value after);
     ("includeArchived", VBool include_archived)] in
  response <- graphql list_cycles_query (Some variables) None ;;
  if negb (LinearResult.success response)
  then ret (Text (or_text (LinearResult.error response) "Failed to list cycles"))
  else
    match LinearResult.data response with
    | VDict data =>
        match get data "team" with
        | VDict team_data =>
            match get team_data "cycles" with
            | VDict cycles_data =>
                match get_or cycles_data "nodes" (VList []) with
                | VList nodes =>
                    result <- lift (parse_mappings _parse_cycle nodes) ;;
                    ret (Record_ result)
                | _ => ret (Text "Unexpected nodes format")
                end
            | _ => ret (Text "No cycles data")
            end
        | _ => ret (Text "Team not found")
        end
    | _ => ret (Text "Unexpected response")
    end.

Definition get_cycle_query : string := "
    query Cycle($id: String!) {
        cycle(id: $id) { " ++ _CYCLE_FIELDS ++ " }
    }
    ".

Definition linear_get_cycle (cycle_id : string)
    : IO (reply CycleInfo.t) :=
  response <- graphql get_cycle_query (Some [("id", VStr cycle_id)]) None ;;
  if negb (LinearResult.success response)
  then ret (Text (or_text (LinearResult.error response) "Failed to fetch cycle"))
  else
    match LinearResult.data response with
    | VDict data =>
        match get data "cycle" with
        | VDict cycle_data =>
            result <- lift (_parse_cycle cycle_data) ;;
            ret (Record_ result)
        | _ => ret (Text "Cycle not found")
        end
    | _ => ret (Text "Unexpected response")
    end.

Definition active_cycle_query : string := "
    query ActiveCycle($id: String!) {
        team(id: $id) {
            activeCycle { " ++ _CYCLE_FIELDS ++ " }
        }
    }
    ".

Definition linear_active_cycle (team_id : string)
    : IO (reply CycleInfo.t) :=
  response <- graphql active_cycle_query (Some [("id", VStr team_id)]) None ;;
  if negb (LinearResult.success response)
  then ret (Text (or_text (LinearResult.error response) "Failed to fetch active cycle"))
  else
    match LinearResult.data response with
    | VDict data =>
        match get data "team" with
        | VDict team_data =>
            match get team_data "activeCycle" with
            | VDict cycle_data =>
                result <- lift (_parse_cycle cycle_data) ;;
                ret (Record_ result)
            | _ => ret (Text "No active cycle")
            end
        | _ => ret (Text "Team not found")
        end
    | _ => ret (Text "Unexpected response")
    end.

End Cycles.
End Cycles.

(* ================================================================== *)
(** * [tools/projects.py] *)
(* ================================================================== *)

Module Projects.
Section Projects.
Context {T : PyText}.

Definition _PROJECT_FIELDS : string := "
    id name state progress targetDate
".

Definition _parse_project (raw : dict) : result ProjectInfo.t :=
  let* progress := _float (get raw "progress") float_zero in
  Ok {| ProjectInfo.id := _str (get raw "id") "";
        ProjectInfo.name := _str (get raw "name") "";
        ProjectInfo.state := _opt_str (get raw "state");
        ProjectInfo.progress := progress;
        ProjectInfo.target_date := _opt_str (get raw "targetDate") |}.

Definition get_project_query : string := "
    query Project($id: String!) {
        project(id: $id) { " ++ _PROJECT_FIELDS ++ " }
    }
    ".

Definition linear_get_project (project_id : string)
    : IO (reply ProjectInfo.t) :=
  response <- graphql get_project_query (Some [("id", VStr project_id)]) None ;;
  if negb (LinearResult.success response)
  then ret (Text (or_text (LinearResult.error response) "Failed to fetch project"))
  else
    match LinearResult.data response with
    | VDict data =>
        match get data "project" with
        | VDict project_data =>
            result <- lift (_parse_project project_data) ;;
            ret (Record_ result)
        | _ => ret (Text "Project not found")
        end
    | _ => ret (Text "Unexpected response")
    end.

Definition list_projects_query : string := "
    query Projects(
        $filter: ProjectFilter,
        $first: Int,
        $after: String,
        $includeArchived: Boolean
    ) {
        projects(
            filter: $filter,
            first: $first,
            after: $after,
            includeArchived: $includeArchived
        ) {
            nodes { " ++ _PROJECT_FIELDS ++ " }
            pageInfo { hasNextPage endCursor }
        }
    }
    ".

Definition linear_list_projects (filter : option dict) (first : Z)
    (after : option string) (include_archived : bool)
    : IO (reply (list ProjectInfo.t)) :=
  let variables : dict :=
    [("filter", dict_value filter); ("first", VInt first);
     ("after", text_value after); ("includeArchived", VBool include_archived)] in
  response <- graphql list_projects_query (Some variables) None ;;
  if negb (LinearResult.success response)
  then ret (Text (or_text (LinearResult.error response) "Failed to list projects"))
  else
    match LinearResult.data response with
    | VDict data =>
        match get data "projects" with
        | VDict projects_data =>
            match get_or projects_data "nodes" (VList []) with
            | VList nodes =>
                result <- lift (parse_mappings _parse_project nodes) ;;
                ret (Record_ result)
            | _ => ret (Text "Unexpected nodes format")
            end
        | _ => ret (Text "No projects data")
        end
    | _ => ret (Text "Unexpected response")
    end.

Definition create_project_query : string := "
    mutation ProjectCreate($input: ProjectCreateInput!) {
        projectCreate(input: $input) {
            success
            project { " ++ _PROJECT_FIELDS ++ " }
        }
    }
    ".

Definition linear_create_project (name : string)
    (team_ids : option (list string))
    (description state target_date : option string)
    : IO (reply ProjectInfo.t) :=
  let input_data : dict := [("name", VStr name)] in
  let input_data := set_opt input_data "teamIds" (texts_arg team_ids) in
  let input_data := set_opt input_data "description" (text_arg description) in
  let input_data := set_opt input_data "state" (text_arg state) in
  let input_data := set_opt input_data "targetDate" (text_arg target_date) in
  response <- graphql create_project_query (Some [("input", VDict input_data)]) None ;;
  if negb (LinearResult.success response)
  then ret (Text (or_text (LinearResult.error response) "Failed to create project"))
  else
    match LinearResult.data response with
    | VDict data =>
        match get data "projectCreate" with
        | VDict payload =>
            if negb (truthy (get payload "success"))
            then ret (Text "Project creation failed")
            else
              match get payload "project" with
              | VDict project_data =>
                  result <- lift (_parse_project project_data) ;;
                  ret (Record_ result)
              | _ => ret (Text "No project in response")
              end
        | _ => ret (Text "Project creation failed")
        end
    | _ => ret (Text "Unexpected response")
    end.

Definition update_project_query : string := "
    mutation ProjectUpdate($id: String!, $input: ProjectUpdateInput!) {
        projectUpdate(id: $id, input: $input) {
            success
            project { " ++ _PROJECT_FIELDS ++ " }
        }
    }
    ".

Definition linear_update_project (project_id : string)
    (name description state target_date : option string)
    : IO (reply ProjectInfo.t) :=
  let input_data : dict := [] in
  let input_data := set_opt input_data "name" (text_arg name) in
  let input_data := set_opt input_data "description" (text_arg description) in
  let input_data := set_opt input_data "state" (text_arg state) in
  let input_data := set_opt input_data "targetDate" (text_arg target_date) in
  if negb (truthy (VDict input_data))
  then ret (Text "No fields to update")
  else
    response <- graphql update_project_query 
          (Some [("id", VStr project_id); ("input", VDict input_data)]) None ;;
    if negb (LinearResult.success response)
    then ret (Text (or_text (LinearResult.error response) "Failed to update project"))
    else
      match LinearResult.data response with
      | VDict data =>
          match get data "projectUpdate" with
          | VDict payload =>
              if negb (truthy (get payload "success"))
              then ret (Text "Project update failed")
              else
                match get payload "project" with
                | VDict project_data =>
                    result <- lift (_parse_project project_data) ;;
                    ret (Record_ result)
                | _ => ret (Text "No project in response")
                end
          | _ => ret (Text "Project update failed")
          end
      | _ => ret (Text "Unexpected response")
      end.

End Projects.
End Projects.

(* ================================================================== *)
(** * [tools/attachments.py] *)
(* ================================================================== *)

Module Attachments.
Section Attachments.
Context {T : PyText}.

Definition _ATTACHMENT_FIELDS : string := "id url title subtitle".

Definition _parse_attachment (raw : dict) : result AttachmentInfo.t :=
  Ok {| AttachmentInfo.id := _str (get raw "id") "";
        AttachmentInfo.url := _str (get raw "url") "";
        AttachmentInfo.title := _opt_str (get raw "title");
        AttachmentInfo.subtitle := _opt_str (get raw "subtitle") |}.

Definition get_attachment_query : string := "
    query Attachment($id: String!) {
        attachment(id: $id) { " ++ _ATTACHMENT_FIELDS ++ " }
    }
    ".

Definition linear_get_attachment (attachment_id : string)
    : IO (reply AttachmentInfo.t) :=
  response <- graphql get_attachment_query (Some [("id", VStr attachment_id)]) None ;;
  if negb (LinearResult.success response)
  then ret (Text (or_text (LinearResult.error response) "Failed to fetch attachment"))
  else
    match LinearResult.data response with
    | VDict data =>
        match get data "attachment" with
        | VDict attachment =>
            result <- lift (_parse_attachment attachment) ;;
            ret (Record_ result)
        | _ => ret (Text "Attachment not found")
        end
    | _ => ret (Text "Unexpected response")
    end.

Definition get_attachment_by_url_query : string := "
    query AttachmentsByURL($url: String!) {
        attachmentsForURL(url: $url) {
            nodes { " ++ _ATTACHMENT_FIELDS ++ " }
        }
    }
    ".

Definition linear_get_attachment_by_url (url : string)
    : IO (reply (list AttachmentInfo.t)) :=
  response <- graphql get_attachment_by_url_query (Some [("url", VStr url)]) None ;;
  if negb (LinearResult.success response)
  then ret (Text (or_text (LinearResult.error response) "Failed to fetch attachments"))
  else
    match LinearResult.data response with
    | VDict data =>
        match get data "attachmentsForURL" with
        | VDict container =>
            match get_or container "nodes" (VList []) with
            | VList nodes =>
                result <- lift (parse_mappings _parse_attachment nodes) ;;
                ret (Record_ result)
            | _ => ret (Text "Unexpected nodes format")
            end
        | _ => ret (Text "No attachment data")
        end
    | _ => ret (Text "Unexpected response")
    end.

Definition create_attachment_query : string := "
    mutation AttachmentCreate($input: AttachmentCreateInput!) {
        attachmentCreate(input: $input) {
            success
            attachment { " ++ _ATTACHMENT_FIELDS ++ " }
        }
    }
    ".

Definition linear_create_attachment (issue_id url : string)
    (title subtitle icon_url : option string) (metadata : option dict)
    (create_as_user display_icon_url : option string)
    : IO (reply AttachmentInfo.t) :=
  let input_data : dict := [("issueId", VStr issue_id); ("url", VStr url)] in
  let input_data := set_opt input_data "title" (text_arg title) in
  let input_data := set_opt input_data "subtitle" (text_arg subtitle) in
  let input_data := set_opt input_data "iconUrl" (text_arg icon_url) in
  let input_data := set_opt input_data "metadata" (dict_arg metadata) in
  let input_data := set_opt input_data "createAsUser" (text_arg create_as_user) in
  let input_data := set_opt input_data "displayIconUrl" (text_arg display_icon_url) in
  response <- graphql create_attachment_query (Some [("input", VDict input_data)]) None ;;
  if negb (LinearResult.success response)
  then ret (Text (or_text (LinearResult.error response) "Failed to create attachment"))
  else
    match LinearResult.data response with
    | VDict data =>
        match get data "attachmentCreate" with
        | VDict payload =>
            if negb (truthy (get payload "success"))
            then ret (Text "Attachment creation failed")
            else
              match get payload "attachment" with
              | VDict attachment =>
                  result <- lift (_parse_attachment attachment) ;;
                  ret (Record_ result)
              | _ => ret (Text "No attachment in response")
              end
        | _ => ret (Text "Attachment creation failed")
        end
    | _ => ret (Text "Unexpected response")
    end.

Definition update_attachment_query : string := "
    mutation AttachmentUpdate($id: String!, $input: AttachmentUpdateInput!) {
        attachmentUpdate(id: $id, input: $input) {
            success
            attachment { " ++ _ATTACHMENT_FIELDS ++ " }
        }
    }
    ".

Definition linear_update_attachment (attachment_id : string)
    (title subtitle : option string) (metadata : option dict)
    : IO (reply AttachmentInfo.t) :=
  let input_data : dict := [] in
  let input_data := set_opt input_data "title" (text_arg title) in
  let input_data := set_opt input_data "subtitle" (text_arg subtitle) in
  let input_data := set_opt input_data "metadata" (dict_arg metadata) in
  response <- graphql update_attachment_query 
      (Some [("id", VStr attachment_id); ("input", VDict input_data)]) None ;;
  if negb (LinearResult.success response)
  then ret (Text (or_text (LinearResult.error response) "Failed to update attachment"))
  else
    match LinearResult.data response with
    | VDict data =>
        match get data "attachmentUpdate" with
        | VDict payload =>
            if negb (truthy (get payload "success"))
            then ret (Text "Attachment update failed")
            else
              match get payload "attachment" with
              | VDict attachment =>
                  result <- lift (_parse_attachment attachment) ;;
                  ret (Record_ result)
              | _ => ret (Text "No attachment in response")
              end
        | _ => ret (Text "Attachment update failed")
        end
    | _ => ret (Text "Unexpected response")
    end.

End Attachments.
End Attachments.

(* ================================================================== *)
(** * [tools/search.py] *)
(* ================================================================== *)

Module Search.
Section Search.
Context {T : PyText}.

Fixpoint label_names (nodes : list value) : list string :=
  match nodes with
  | [] => []
  | VDict node :: rest =>
      if truthy (get node "name")
      then _str (get node "name") "" :: label_names rest
      else label_names rest
  | _ :: rest => label_names rest
  end.

Definition _parse_search_issue (raw : dict) : result IssueInfo.t :=
  let state_node := get raw "state" in
  let assignee_node := get raw "assignee" in
  let label_nodes := get_or raw "labels" (VDict []) in
  let labels :=
    match label_nodes with
    | VDict ln =>
        match get_or ln "nodes" (VList []) with
        | VList nodes => label_names nodes
        | _ => []
        end
    | _ => []
    end in
  let* priority := _int (get raw "priority") 0 in
  Ok {| IssueInfo.id := _str (get raw "id") "";
        IssueInfo.identifier := _str (get raw "identifier") "";
        IssueInfo.title := _str (get raw "title") "";
        IssueInfo.description := None;
        IssueInfo.state := _nested_str state_node "name";
        IssueInfo.priority := priority;
        IssueInfo.assignee := _nested_str assignee_node "name";
        IssueInfo.labels := labels;
        IssueInfo.created_at := _opt_str (get raw "createdAt");
        IssueInfo.updated_at := _opt_str (get raw "updatedAt") |}.

Definition search_issues_query : string := "
    query SearchIssues(
        $query: String!,
        $first: Int,
        $after: String,
        $includeArchived: Boolean
    ) {
        issueSearch(
            query: $query,
            first: $first,
            after: $after,
            includeArchived: $includeArchived
        ) {
            nodes {
                id identifier title priority createdAt updatedAt
                state { name }
                assignee { name }
                labels { nodes { name } }
            }
            pageInfo { hasNextPage endCursor }
        }
    }
    ".

Definition linear_search_issues (query : string) (first : Z)
    (after : option string) (include_archived : bool)
    : IO (reply (list IssueInfo.t)) :=
  let variables : dict :=
    [("query", VStr query); ("first", VInt first); ("after", text_value after);
     ("includeArchived", VBool include_archived)] in
  response <- graphql search_issues_query (Some variables) None ;;
  if negb (LinearResult.success response)
  then ret (Text (or_text (LinearResult.error response) "Failed to search issues"))
  else
    match LinearResult.data response with
    | VDict data =>
        match get data "issueSearch" with
        | VDict search_data =>
            match get_or search_data "nodes" (VList []) with
            | VList nodes =>
                result <- lift (parse_mappings _parse_search_issue nodes) ;;
                ret (Record_ result)
            | _ => ret (Text "Unexpected nodes format")
            end
        | _ => ret (Text "No search results")
        end
    | _ => ret (Text "Unexpected response")
    end.

End Search.
End Search.


(* ================================================================== *)
(** * Vocabulary of the specification *)
(* ================================================================== *)

Definition is_dict (v : value) : bool :=
  match v with VDict _ => true | _ => false end.

Definition is_list (v : value) : bool :=
  match v with VList _ => true | _ => false end.

(** The world once [req] has been handed to the transport. *)
Definition after_dispatch (w : World) (req : HttpRequest) : World :=
  {| transport := transport w; sent := sent w ++ [(linear, req)] |}.

(** The transport reported success and handed back a response with [body]. *)
Definition delivered (resp : DispatchResponse.t) (body : value) : Prop :=
  DispatchResponse.success resp = true /\
  DispatchResponse.response resp = Some (HttpResponse.mk body).

Definition transport_failed (resp : DispatchResponse.t) : Prop :=
  DispatchResponse.success resp = false \/ DispatchResponse.response resp = None.

(** Section 4.2, class 1: the collaborator's message or the fixed text. *)
Definition transport_message (resp : DispatchResponse.t) : string :=
  match DispatchResponse.error resp with
  | Some e => DispatchError.message e
  | None => "Request failed"
  end.

(** The four outcome classes of section 4.2. *)
Inductive dispatch_class : Type :=
| TransportFailure
| ProtocolFailure
| MappingSuccess
| RawSuccess.

Definition failure (text : string) : LinearResult.t :=
  LinearResult.mk false VNone (Some text).

Section Vocabulary.
Context {T : PyText}.

(** Section 4.2, class 2: the first error's message, or the fixed text
    when the entry is unstructured. *)
Definition first_error_text (first : value) : string :=
  match first with
  | VDict e =>
      match lookup e "message" with
      | Some m => py_str m
      | None => "GraphQL error"
      end
  | _ => "GraphQL error"
  end.

Definition in_class (resp : DispatchResponse.t) (res : LinearResult.t)
    (c : dispatch_class) : Prop :=
  match c with
  | TransportFailure =>
      transport_failed resp /\ res = failure (transport_message resp)
  | ProtocolFailure =>
      exists b first rest,
        delivered resp (VDict b) /\ get b "errors" = VList (first :: rest) /\
        res = failure (first_error_text first)
  | MappingSuccess =>
      exists b,
        delivered resp (VDict b) /\
        res = LinearResult.mk true (get b "data") None
  | RawSuccess =>
      exists raw,
        delivered resp raw /\ is_dict raw = false /\
        res = LinearResult.mk true raw None
  end.
End Vocabulary.

(** The invariant of section 3 as the specification words it: a failure
    carries a non-empty error text and no data, a success carries no
    error. *)
Definition claimed_invariant (res : LinearResult.t) : Prop :=
  (LinearResult.success res = false ->
     LinearResult.data res = VNone /\
     exists text, LinearResult.error res = Some text /\ text <> "") /\
  (LinearResult.success res = true -> LinearResult.error res = None).

(** A world whose transport delivers [body] whatever it is asked. *)
Definition answering (body : value) : World :=
  {| transport := fun _ _ =>
       DispatchResponse.mk true (Some (HttpResponse.mk body)) None;
     sent := [] |}.

(** A world whose transport fails with [text] whatever it is asked. *)
Definition failing (text : string) : World :=
  {| transport := fun _ _ =>
       DispatchResponse.mk false None (Some (DispatchError.mk text));
     sent := [] |}.

Definition empty_message_body : value :=
  VDict [("data", VNone); ("errors", VList [VDict [("message", VStr "")]])].

Definition unstructured_error_body : value :=
  VDict [("errors", VList [VStr "boom"; VDict [("message", VStr "later")]])].

Definition empty_errors_body : value :=
  VDict [("data", VDict [("viewer", VNone)]); ("errors", VList [])].

Definition null_state_nodes_body : value :=
  VDict [("data", VDict [("issue", VDict
    [("id", VStr "1"); ("identifier", VStr "ENG-1"); ("title", VStr "T");
     ("comments", VDict [("nodes", VList [])]);
     ("team", VDict [("states", VDict [("nodes", VNone)])])])])].

Definition null_comment_nodes_body : value :=
  VDict [("data", VDict [("issue", VDict
    [("id", VStr "1"); ("comments", VDict [("nodes", VNone)])])])].

Definition rejected_create_body : value :=
  VDict [("data", VDict [("issueCreate", VDict [("success", VBool false)])])].

Definition rejected_update_body : value :=
  VDict [("data", VDict [("issueUpdate", VDict [("success", VBool false)])])].

(** Section 8: the node list of the label example. *)
Definition example_label_nodes : list value :=
  [VDict [("name", VStr "b")]; VDict [("name", VStr "a")];
   VDict [("notname", VStr "x")]].

(** The node list under [raw[relation]["nodes"]], empty when a level is
    missing or wrongly shaped. *)
Definition relation_nodes (raw : dict) (relation : string) : list value :=
  match lookup raw relation with
  | Some (VDict r) =>
      match lookup r "nodes" with
      | Some (VList nodes) => nodes
      | _ => []
      end
  | _ => []
  end.

(** A mapping-shaped entry that carries a non-empty name. *)
Definition carries_name (node : value) : bool :=
  match node with
  | VDict d =>
      match lookup d "name" with
      | Some n => truthy n
      | None => false
      end
  | _ => false
  end.

(** The mutation payload is not a mapping, or declares [success] false. *)
Definition payload_rejected (payload : value) : bool :=
  match payload with
  | VDict p => negb (truthy (get p "success"))
  | _ => true
  end.

Definition is_none {A : Type} (o : option A) : bool :=
  match o with None => true | Some _ => false end.

(** Every optional argument of [linear_update_issue] is absent. *)
Definition no_update_fields
    (title description state_id assignee_id : option string)
    (priority : option Z) (label_ids : option (list string))
    (cycle_id project_id : option string) (estimate : option Z) : bool :=
  is_none title && is_none description && is_none state_id &&
  is_none assignee_id && is_none priority && is_none label_ids &&
  is_none cycle_id && is_none project_id && is_none estimate.




Section ParserVocabulary.
Context {T : PyText}.

(** The name of an entry, as text. *)
Definition name_field (node : value) : string :=
  match node with
  | VDict d =>
      match lookup d "name" with
      | Some n => py_str n
      | None => ""
      end
  | _ => ""
  end.

(** Section 4.3: filter the node list to the entries that carry a name and
    extract that field, in response order. *)
Definition flattened (nodes : list value) : list string :=
  map name_field (filter carries_name nodes).

(** A failure whose error text is empty was handed an empty message. *)
Definition empty_message_supplied (resp : DispatchResponse.t) : Prop :=
  (transport_failed resp /\
   exists e, DispatchResponse.error resp = Some e /\ DispatchError.message e = "") \/
  (exists b e rest m,
     delivered resp (VDict b) /\ get b "errors" = VList (VDict e :: rest) /\
     lookup e "message" = Some m /\ py_str m = "").
End ParserVocabulary.

(** ** Response ladders

    Every tool follows one of three ladders after its dispatch.  The
    tables below name, for a ladder, the keys descended and the diagnostic
    given when the value under a key is not a mapping. *)

Fixpoint descend (steps : list (string * string)) (d : dict) : dict + string :=
  match steps with
  | [] => inl d
  | (key, diagnostic) :: rest =>
      match lookup d key with
      | Some (VDict inner) => descend rest inner
      | _ => inr diagnostic
      end
  end.

(** One dispatch of [query] with [variables] and no TTL header, then
    [outcome] applied to what [graphql] returned. *)
Definition run_outcome {T : PyText} {A : Type} (query : string)
    (variables : option dict) (outcome : LinearResult.t -> result A)
    (w : World) : result A * World :=
  (outcome (graphql_result
              (transport w linear (graphql_request query variables None))),
   after_dispatch w (graphql_request query variables None)).

(** A tool that returns one entity. *)
Definition entity_outcome {A : Type} (parse : dict -> result A)
    (fallback : string) (steps : list (string * string))
    (res : LinearResult.t) : result (reply A) :=
  if LinearResult.success res then
    match LinearResult.data res with
    | VDict data =>
        match descend steps data with
        | inl entity => let* r := parse entity in Ok (Record_ r)
        | inr diagnostic => Ok (Text diagnostic)
        end
    | _ => Ok (Text "Unexpected response")
    end
  else Ok (Text (or_text (LinearResult.error res) fallback)).

(** A tool that returns the entities under [nodes] of a container. *)
Definition list_outcome {A : Type} (parse : dict -> result A)
    (fallback : string) (steps : list (string * string))
    (res : LinearResult.t) : result (reply (list A)) :=
  if LinearResult.success res then
    match LinearResult.data res with
    | VDict data =>
        match descend steps data with
        | inl container =>
            match lookup container "nodes" with
            | None => Ok (Record_ [])
            | Some (VList nodes) =>
                let* rs := parse_mappings parse nodes in Ok (Record_ rs)
            | Some _ => Ok (Text "Unexpected nodes format")
            end
        | inr diagnostic => Ok (Text diagnostic)
        end
    | _ => Ok (Text "Unexpected response")
    end
  else Ok (Text (or_text (LinearResult.error res) fallback)).

(** A tool that runs a mutation: the payload under [payload_key] must be a
    mapping with a truthy [success], and hold the entity under
    [entity_key]. *)
Definition mutation_outcome {A : Type} (parse : dict -> result A)
    (fallback payload_key rejected entity_key missing : string)
    (res : LinearResult.t) : result (reply A) :=
  if LinearResult.success res then
    match LinearResult.data res with
    | VDict data =>
        match lookup data payload_key with
        | Some (VDict payload) =>
            match lookup payload "success" with
            | Some flag =>
                if truthy flag then
                  match lookup payload entity_key with
                  | Some (VDict entity) => let* r := parse entity in Ok (Record_ r)
                  | _ => Ok (Text missing)
                  end
                else Ok (Text rejected)
            | None => Ok (Text rejected)
            end
        | _ => Ok (Text rejected)
        end
    | _ => Ok (Text "Unexpected response")
    end
  else Ok (Text (or_text (LinearResult.error res) fallback)).

(** ** What a caller observes of a tool *)

(** No diagnostic text is empty. *)
Definition diagnostics_nonempty {A : Type} (m : IO (reply A)) : Prop :=
  forall w text, fst (m w) = Ok (Text text) -> text <> "".

Definition never_raises {A : Type} (m : IO A) : Prop :=
  forall w, exists a, fst (m w) = Ok a.

Definition raises_only_overflow {A : Type} (m : IO A) : Prop :=
  forall w e, fst (m w) = Raise e -> e = OverflowError.

(** Exactly one request reaches the transport, built from [query] without
    TTL header; and when that dispatch fails with message [msg] the tool
    answers [msg], or [fallback] when [msg] is empty. *)
Definition dispatch_contract {T : PyText} {A : Type} (m : IO (reply A))
    (query fallback : string) : Prop :=
  forall w, exists variables,
    snd (m w) = after_dispatch w (graphql_request query variables None) /\
    forall msg,
      graphql_result (transport w linear (graphql_request query variables None))
        = failure msg ->
      fst (m w) = Ok (Text (if String.eqb msg "" then fallback else msg)).

(** The tool is one dispatch of [query] followed by [outcome]. *)
Definition tool_refines {T : PyText} {A : Type} (m : IO A) (query : string)
    (outcome : LinearResult.t -> result A) : Prop :=
  forall w, exists variables, m w = run_outcome query variables outcome w.

(** A delivered body without errors whose data is the mapping [data]. *)
Definition data_body (data : dict) : value := VDict [("data", VDict data)].

(** Of a list tool whose container is reached by [steps]: an absent
    [nodes] gives the empty list, a [nodes] that is not a list gives the
    fixed diagnostic, and neither raises. *)
Definition guards_nodes {A : Type} (m : IO (reply (list A)))
    (steps : list (string * string)) : Prop :=
  forall data container,
    descend steps data = inl container ->
    (lookup container "nodes" = None ->
       fst (m (answering (data_body data))) = Ok (Record_ [])) /\
    (forall v, lookup container "nodes" = Some v -> is_list v = false ->
       fst (m (answering (data_body data)))
         = Ok (Text "Unexpected nodes format")).

(** Of a mutation tool: when the dispatch it made succeeded with a mapping
    as data and the payload under [payload_key] is rejected, it answers
    [rejected]; when the payload is accepted but holds no mapping under
    [entity_key], it answers [missing]. *)
Definition declares_failure {T : PyText} {A : Type} (m : IO (reply A))
    (payload_key rejected entity_key missing : string) : Prop :=
  forall w, exists req,
    snd (m w) = after_dispatch w req /\
    forall data,
      graphql_result (transport w linear req)
        = LinearResult.mk true (VDict data) None ->
      (payload_rejected (get data payload_key) = true ->
         fst (m w) = Ok (Text rejected)) /\
      (forall payload,
         get data payload_key = VDict payload ->
         truthy (get payload "success") = true ->
         is_dict (get payload entity_key) = false ->
         fst (m w) = Ok (Text missing)).

(** ** Well-typed nodes

    The node a query selects for a record: texts as text, the priority as
    an int, a to-one relation as a mapping with a [name] (or null), the
    labels as a list of such mappings. *)

Definition named_value (o : option string) : value :=
  match o with
  | Some s => VDict [("name", VStr s)]
  | None => VNone
  end.

Definition issue_node (r : IssueInfo.t) : dict :=
  [("id", VStr (IssueInfo.id r));
   ("identifier", VStr (IssueInfo.identifier r));
   ("title", VStr (IssueInfo.title r));
   ("description", text_value (IssueInfo.description r));
   ("priority", VInt (IssueInfo.priority r));
   ("createdAt", text_value (IssueInfo.created_at r));
   ("updatedAt", text_value (IssueInfo.updated_at r));
   ("state", named_value (IssueInfo.state r));
   ("assignee", named_value (IssueInfo.assignee r));
   ("labels",
    VDict [("nodes",
            VList (map (fun l => VDict [("name", VStr l)]) (IssueInfo.labels r)))])].

Definition comment_node (c : CommentInfo.t) : dict :=
  [("id", VStr (CommentInfo.id c));
   ("body", VStr (CommentInfo.body c));
   ("createdAt", text_value (CommentInfo.created_at c));
   ("user", named_value (CommentInfo.user c))].

Definition state_node (s : WorkflowStateInfo.t) : dict :=
  [("id", VStr (WorkflowStateInfo.id s));
   ("name", VStr (WorkflowStateInfo.name s));
   ("type", VStr (WorkflowStateInfo.type s));
   ("color", text_value (WorkflowStateInfo.color s));
   ("position", VFloat (WorkflowStateInfo.position s))].

(** The comment and workflow-state branches of an issue node, and the
    response data of a full issue context. *)
Definition context_branches (r : IssueContextInfo.t) : dict :=
  [("comments",
    VDict [("nodes",
            VList (map (fun c => VDict (comment_node c))
                     (IssueContextInfo.comments r)))]);
   ("team",
    VDict [("states",
            VDict [("nodes",
                    VList (map (fun s => VDict (state_node s))
                             (IssueContextInfo.states r)))])])].

Definition context_data (r : IssueContextInfo.t) : dict :=
  [("issue",
    VDict (issue_node (IssueContextInfo.issue r) ++ context_branches r))].

Definition sample_issue : IssueInfo.t :=
  IssueInfo.mk "1" "ENG-1" "T" None (Some "Done") 2 None ["bug"; "api"]
    (Some "2026-01-01T00:00:00Z") None.

Definition without_description (r : IssueInfo.t) : IssueInfo.t :=
  IssueInfo.mk (IssueInfo.id r) (IssueInfo.identifier r) (IssueInfo.title r)
    None (IssueInfo.state r) (IssueInfo.priority r) (IssueInfo.assignee r)
    (IssueInfo.labels r) (IssueInfo.created_at r) (IssueInfo.updated_at r).

(* ================================================================== *)
(** * Properties *)
(* ================================================================== *)

Section DispatchFacts.
Context {T : PyText}.

Lemma graphql_run (query : string) (variables : option dict)
    (ttl : option Z) (w : World) :
  graphql query variables ttl w =
    (Ok (graphql_result (transport w linear (graphql_request query variables ttl))),
     after_dispatch w (graphql_request query variables ttl)).
Proof. reflexivity. Qed.

Lemma delivered_inj (resp : DispatchResponse.t) (b1 b2 : value) :
  delivered resp b1 -> delivered resp b2 -> b1 = b2.
Proof.
  intros [_ H1] [_ H2]. rewrite H1 in H2. now inversion H2.
Qed.

Lemma delivered_not_failed (resp : DispatchResponse.t) (b : value) :
  delivered resp b -> transport_failed resp -> False.
Proof.
  intros [Hs Hr] [Hf | Hf]; congruence.
Qed.

Lemma result_transport_failed (resp : DispatchResponse.t) :
  transport_failed resp ->
  graphql_result resp = failure (transport_message resp).
Proof.
  destruct resp as [s r e]. unfold transport_failed, graphql_result, transport_message.
  simpl. intros [H | H]; subst.
  - reflexivity.
  - now destruct s.
Qed.

Lemma result_protocol_failure (resp : DispatchResponse.t) (b : dict)
    (first : value) (rest : list value) :
  delivered resp (VDict b) -> get b "errors" = VList (first :: rest) ->
  graphql_result resp = failure (first_error_text first).
Proof.
  destruct resp as [s r e]. intros [Hs Hr] He. simpl in *. subst.
  unfold graphql_result. simpl. rewrite He. unfold failure. do 2 f_equal.
  destruct first; try reflexivity.
  simpl. unfold get_or. now destruct (lookup d "message").
Qed.

Lemma result_mapping_success (resp : DispatchResponse.t) (b : dict) :
  delivered resp (VDict b) ->
  (forall first rest, get b "errors" <> VList (first :: rest)) ->
  graphql_result resp = LinearResult.mk true (get b "data") None.
Proof.
  destruct resp as [s r e]. intros [Hs Hr] He. simpl in *. subst.
  unfold graphql_result. simpl.
  destruct (get b "errors") as [ | | | | | [ | first rest] | ]; try reflexivity.
  now contradiction (He first rest).
Qed.

Lemma result_raw_success (resp : DispatchResponse.t) (raw : value) :
  delivered resp raw -> is_dict raw = false ->
  graphql_result resp = LinearResult.mk true raw None.
Proof.
  destruct resp as [s r e]. intros [Hs Hr] Hd. simpl in *. subst.
  unfold graphql_result. simpl. now destruct raw.
Qed.

Lemma failed_or_delivered (resp : DispatchResponse.t) :
  transport_failed resp \/ exists raw, delivered resp raw.
Proof.
  destruct resp as [[ | ] [[raw] | ] e]; unfold transport_failed, delivered; simpl.
  - right. now exists raw.
  - left. now right.
  - left. now left.
  - left. now left.
Qed.

Lemma nonempty_list_dec (v : value) :
  (exists first rest, v = VList (first :: rest)) \/
  (forall first rest, v <> VList (first :: rest)).
Proof.
  destruct v as [ | | | | | [ | first rest] | ]; try (right; discriminate).
  left. now exists first, rest.
Qed.

Lemma result_in_some_class (resp : DispatchResponse.t) :
  exists c, in_class resp (graphql_result resp) c.
Proof.
  destruct (failed_or_delivered resp) as [Hf | [raw Hd]].
  - exists TransportFailure. split; [exact Hf | now apply result_transport_failed].
  - destruct (is_dict raw) eqn:Hraw.
    + destruct raw as [ | | | | | | b]; try discriminate.
      destruct (nonempty_list_dec (get b "errors")) as [(first & rest & He) | He].
      * exists ProtocolFailure, b, first, rest.
        repeat split; try apply Hd; try exact He.
        now apply result_protocol_failure with (b := b) (rest := rest).
      * exists MappingSuccess, b. split; [exact Hd | ].
        now apply result_mapping_success.
    + exists RawSuccess, raw. repeat split; try apply Hd; try exact Hraw.
      now apply result_raw_success.
Qed.

Lemma class_unique (resp : DispatchResponse.t) (res : LinearResult.t)
    (c1 c2 : dispatch_class) :
  in_class resp res c1 -> in_class resp res c2 -> c1 = c2.
Proof.
  destruct c1, c2; simpl; try reflexivity; intros H1 H2;
    repeat match goal with
           | H : exists _, _ |- _ => destruct H
           | H : _ /\ _ |- _ => destruct H
           end; exfalso;
    try (eapply delivered_not_failed; eassumption);
    try (subst res; discriminate);
    match goal with
    | Ha : delivered resp ?x, Hb : delivered resp ?y |- _ =>
        pose proof (delivered_inj _ _ _ Ha Hb) as E; subst; discriminate
    end.
Qed.
End DispatchFacts.

(** C1.  Dispatch outcome classification.  Whatever the collaborator
    answers, [graphql] returns (it never raises) after handing exactly the
    built request to the transport, and its result falls in exactly one of
    the four classes of section 4.2: (1) on a transport failure,
    [success=false] with the collaborator's message or "Request failed";
    (2) on a mapping body with a non-empty [errors] list, [success=false]
    with the first error's message (or "GraphQL error" when that entry is
    unstructured); (3) on a mapping body without an [errors] key,
    [success=true] with the body's [data] field; (4) on a non-mapping
    body, [success=true] with the raw body. *)
Theorem graphql_classification {T : PyText} (query : string)
    (variables : option dict) (ttl : option Z) (w : World) :
  exists res : LinearResult.t,
    graphql query variables ttl w =
      (Ok res, after_dispatch w (graphql_request query variables ttl)) /\
    (forall resp, resp = transport w linear (graphql_request query variables ttl) ->
      (transport_failed resp -> res = failure (transport_message resp)) /\
      (forall b first rest,
          delivered resp (VDict b) -> get b "errors" = VList (first :: rest) ->
          res = failure (first_error_text first)) /\
      (forall b,
          delivered resp (VDict b) -> lookup b "errors" = None ->
          res = LinearResult.mk true (get b "data") None) /\
      (forall raw,
          delivered resp raw -> is_dict raw = false ->
          res = LinearResult.mk true raw None) /\
      (exists c, in_class resp res c /\
                 forall c', in_class resp res c' -> c' = c)).
Proof.
  eexists. split; [apply graphql_run | ].
  intros resp ->.
  set (resp := transport w linear _).
  repeat split.
  - apply result_transport_failed.
  - intros b first rest Hd He. now apply result_protocol_failure with (b := b) (rest := rest).
  - intros b Hd Hk. apply result_mapping_success; [exact Hd | ].
    intros first rest. unfold get, get_or. rewrite Hk. discriminate.
  - apply result_raw_success.
  - destruct (result_in_some_class resp) as [c Hc].
    exists c. split; [exact Hc | ].
    intros c' Hc'. now apply class_unique with (resp := resp) (res := graphql_result resp).
Qed.

(** ** The result invariant *)

(** C2, as stated, fails: a GraphQL error entry whose message is the empty
    text gives [success=false] with an empty error text. *)
Lemma graphql_empty_error_text :
  ~ (forall (T : PyText) (query : string) (variables : option dict)
       (ttl : option Z) (w w' : World) (res : LinearResult.t),
        graphql query variables ttl w = (Ok res, w') -> claimed_invariant res).
Proof.
  intros H.
  destruct (H sample_text "query { viewer { id } }" None None
              (answering empty_message_body) _ _ eq_refl) as [Hfail _].
  destruct (Hfail eq_refl) as [_ (text & Htext & Hne)].
  apply Hne. simpl in Htext. now inversion Htext.
Qed.

(** C2, amended.  For every result [graphql] returns: on success the error
    is null; on failure the data is null and the error is a text, and that
    text is empty only when the collaborator's message, or the first error
    entry's message, is itself rendered as the empty text (the fallbacks
    "Request failed" and "GraphQL error" are not empty). *)
Theorem graphql_result_invariant {T : PyText} (query : string)
    (variables : option dict) (ttl : option Z) (w : World) :
  exists res : LinearResult.t,
    graphql query variables ttl w =
      (Ok res, after_dispatch w (graphql_request query variables ttl)) /\
    (LinearResult.success res = true -> LinearResult.error res = None) /\
    (LinearResult.success res = false ->
       LinearResult.data res = VNone /\
       exists text,
         LinearResult.error res = Some text /\
         (text = "" ->
          empty_message_supplied
            (transport w linear (graphql_request query variables ttl)))).
Proof.
  eexists. split; [apply graphql_run | ].
  set (resp := transport w linear _).
  destruct (result_in_some_class resp) as [c Hc].
  destruct c; simpl in Hc.
  - destruct Hc as [Hf ->]. split; [discriminate | ].
    intros _. split; [reflexivity | ].
    eexists. split; [reflexivity | ].
    intros Hempty. left. split; [exact Hf | ].
    unfold transport_message in Hempty.
    destruct (DispatchResponse.error resp) as [e | ]; [ | discriminate].
    now exists e.
  - destruct Hc as (b & first & rest & Hd & He & ->). split; [discriminate | ].
    intros _. split; [reflexivity | ].
    eexists. split; [reflexivity | ].
    intros Hempty. right.
    destruct first as [ | | | | | | e]; try discriminate.
    simpl in Hempty.
    destruct (lookup e "message") as [m | ] eqn:Hm; [ | discriminate].
    now exists b, e, rest, m.
  - destruct Hc as (b & Hd & ->). split; [reflexivity | discriminate].
  - destruct Hc as (raw & Hd & Hraw & ->). split; [reflexivity | discriminate].
Qed.

(** ** The coercion helpers *)

Section CoercionFacts.
Context {T : PyText}.

Lemma coercions_of_absent (text : string) (n : Z) (x : spec_float)
    (flag : bool) (key : string) :
  _str VNone text = text /\ _int VNone n = Ok n /\ _float VNone x = Ok x /\
  _opt_str VNone = None /\ _bool VNone flag = flag /\
  _nested_str VNone key = None.
Proof. repeat split. Qed.

Lemma int_coercion_of_text (s : string) (default : Z) :
  _int (VStr s) default =
    Ok (match int_of_text s with Some z => z | None => default end).
Proof. simpl. now destruct (int_of_text s). Qed.

Lemma float_coercion_of_text (s : string) (default : spec_float) :
  _float (VStr s) default =
    Ok (match float_of_text s with Some f => f | None => default end).
Proof. simpl. now destruct (float_of_text s). Qed.

Lemma int_coercion_raises_only_on_infinity (val : value) (default : Z) (e : exn) :
  _int val default = Raise e ->
  e = OverflowError /\ exists sign, val = VFloat (S754_infinity sign).
Proof.
  destruct val as [ | b | z | f | s | l | d]; simpl; try discriminate.
  - destruct f as [sg | sg | | sg m ex]; simpl; try discriminate.
    intros H. inversion H. split; [reflexivity | now exists sg].
  - destruct (int_of_text s); discriminate.
Qed.

Lemma float_coercion_raises_only_on_large_int (val : value)
    (default : spec_float) (e : exn) :
  _float val default = Raise e ->
  e = OverflowError /\ exists z, val = VInt z /\ float_of_int z = Raise OverflowError.
Proof.
  destruct val as [ | b | z | f | s | l | d]; simpl; try discriminate.
  - unfold float_of_int.
    destruct (binary_normalize prec emax z 0 false) eqn:E; simpl; try discriminate.
    intros H. inversion H. split; [reflexivity | ].
    exists z. split; [reflexivity | ]. unfold float_of_int. now rewrite E.
  - destruct (float_of_text s); discriminate.
Qed.
End CoercionFacts.

(** C3.  The coercion helpers are meant never to raise, and [_int] and
    [_float] do catch [TypeError] and [ValueError]; but [int] of a float
    infinity and [float] of an integer beyond the binary64 range raise
    [OverflowError], which neither handler lists, so it escapes. *)
Theorem coercion_overflow_escapes {T : PyText} :
  _int (VFloat float_inf) 0 = Raise OverflowError /\
  _float (VInt (10 ^ 400)) float_zero = Raise OverflowError.
Proof. split; [reflexivity | now vm_compute]. Qed.

(** ** Error text of a protocol failure *)

(** C4.  Error message fallback: when the body is a mapping whose [errors]
    is a non-empty list and the first entry is not a mapping, or is a
    mapping without a [message] key, the error text is exactly
    "GraphQL error". *)
Theorem error_message_fallback {T : PyText} (query : string)
    (variables : option dict) (ttl : option Z) (w : World)
    (b : dict) (first : value) (rest : list value) :
  delivered (transport w linear (graphql_request query variables ttl)) (VDict b) ->
  get b "errors" = VList (first :: rest) ->
  (is_dict first = false \/
   exists e, first = VDict e /\ lookup e "message" = None) ->
  graphql query variables ttl w =
    (Ok (failure "GraphQL error"),
     after_dispatch w (graphql_request query variables ttl)).
Proof.
  intros Hd He Hfirst. rewrite graphql_run. f_equal. f_equal.
  rewrite (result_protocol_failure _ b first rest Hd He).
  f_equal. destruct Hfirst as [Hn | (e & -> & Hm)].
  - now destruct first.
  - simpl. now rewrite Hm.
Qed.

Lemma error_message_fallback_witness :
  graphql (T := sample_text) "query { viewer { id } }" None None
      (answering unstructured_error_body) =
    (Ok (failure "GraphQL error"),
     after_dispatch (answering unstructured_error_body)
       (graphql_request (T := sample_text) "query { viewer { id } }" None None)).
Proof.
  apply (error_message_fallback (T := sample_text) "query { viewer { id } }"
           None None (answering unstructured_error_body)
           [("errors", VList [VStr "boom"; VDict [("message", VStr "later")]])]
           (VStr "boom") [VDict [("message", VStr "later")]]).
  - split; reflexivity.
  - reflexivity.
  - left. reflexivity.
Defined.

(** C9.  The [errors] key alone never causes failure: when the body is a
    mapping whose [errors] key is present but holds an empty list or a
    value that is not a list, the result is [success=true] with the
    body's [data] field. *)
Theorem errors_key_alone_is_not_failure {T : PyText} (query : string)
    (variables : option dict) (ttl : option Z) (w : World)
    (b : dict) (errs : value) :
  delivered (transport w linear (graphql_request query variables ttl)) (VDict b) ->
  lookup b "errors" = Some errs ->
  (errs = VList [] \/ is_list errs = false) ->
  graphql query variables ttl w =
    (Ok (LinearResult.mk true (get b "data") None),
     after_dispatch w (graphql_request query variables ttl)).
Proof.
  intros Hd Hk Herrs. rewrite graphql_run. f_equal. f_equal.
  apply result_mapping_success; [exact Hd | ].
  intros first rest. unfold get, get_or. rewrite Hk.
  destruct Herrs as [-> | Hl]; [discriminate | ].
  intros ->. discriminate.
Qed.

Lemma errors_key_alone_is_not_failure_witness :
  graphql (T := sample_text) "query { viewer { id } }" None None
      (answering empty_errors_body) =
    (Ok (LinearResult.mk true (VDict [("viewer", VNone)]) None),
     after_dispatch (answering empty_errors_body)
       (graphql_request (T := sample_text) "query { viewer { id } }" None None)).
Proof.
  apply (errors_key_alone_is_not_failure (T := sample_text)
           "query { viewer { id } }" None None (answering empty_errors_body)
           [("data", VDict [("viewer", VNone)]); ("errors", VList [])]
           (VList [])).
  - split; reflexivity.
  - reflexivity.
  - left. reflexivity.
Defined.

(** ** Node parsers *)

Section ParserFacts.
Context {T : PyText}.

Lemma truthy_not_absent (v : value) (default : string) :
  truthy v = true -> _str v default = py_str v.
Proof. now destruct v. Qed.

Lemma issues_label_names_flattened (nodes : list value) :
  Issues.label_names nodes = flattened nodes.
Proof.
  unfold flattened.
  induction nodes as [ | node rest IH]; [reflexivity | ].
  destruct node as [ | | | | | | d]; simpl; try exact IH.
  unfold get, get_or.
  destruct (lookup d "name") as [n | ] eqn:Hl; simpl; [ | exact IH].
  destruct (truthy n) eqn:Hn; simpl; [ | exact IH].
  rewrite Hl, IH. f_equal. now apply truthy_not_absent.
Qed.

Lemma compound_label_names_flattened (nodes : list value) :
  Compound.label_names nodes = flattened nodes.
Proof.
  unfold flattened.
  induction nodes as [ | node rest IH]; [reflexivity | ].
  destruct node as [ | | | | | | d]; simpl; try exact IH.
  unfold get, get_or.
  destruct (lookup d "name") as [n | ] eqn:Hl; simpl; [ | exact IH].
  destruct (truthy n) eqn:Hn; simpl; [ | exact IH].
  rewrite Hl, IH. f_equal. now apply truthy_not_absent.
Qed.

Lemma issues_parse_issue_labels (raw : dict) (priority : Z) :
  _int (get raw "priority") 0 = Ok priority ->
  exists r, Issues._parse_issue raw = Ok r /\
            IssueInfo.labels r = flattened (relation_nodes raw "labels").
Proof.
  intros Hp. unfold Issues._parse_issue. rewrite Hp. simpl.
  eexists. split; [reflexivity | ]. simpl.
  unfold relation_nodes, get_or.
  destruct (lookup raw "labels") as [[ | | | | | | ln] | ]; try reflexivity.
  destruct (lookup ln "nodes") as [[ | | | | | nodes | ] | ]; try reflexivity.
  apply issues_label_names_flattened.
Qed.

Lemma compound_parse_issue_labels (raw : dict) (priority : Z) :
  _int (get raw "priority") 0 = Ok priority ->
  exists r, Compound._parse_issue raw = Ok r /\
            IssueInfo.labels r = flattened (relation_nodes raw "labels").
Proof.
  intros Hp. unfold Compound._parse_issue. rewrite Hp. simpl.
  eexists. split; [reflexivity | ]. simpl.
  unfold relation_nodes, get_or.
  destruct (lookup raw "labels") as [[ | | | | | | ln] | ]; try reflexivity.
  destruct (lookup ln "nodes") as [[ | | | | | nodes | ] | ]; try reflexivity.
  apply compound_label_names_flattened.
Qed.

Lemma issues_parse_issue_priority (raw : dict) (r : IssueInfo.t) :
  Issues._parse_issue raw = Ok r ->
  _int (get raw "priority") 0 = Ok (IssueInfo.priority r).
Proof.
  unfold Issues._parse_issue.
  destruct (_int (get raw "priority") 0) as [p | e]; simpl; [ | discriminate].
  intros H. now inversion H.
Qed.

Lemma compound_parse_issue_priority (raw : dict) (r : IssueInfo.t) :
  Compound._parse_issue raw = Ok r ->
  _int (get raw "priority") 0 = Ok (IssueInfo.priority r).
Proof.
  unfold Compound._parse_issue.
  destruct (_int (get raw "priority") 0) as [p | e]; simpl; [ | discriminate].
  intros H. now inversion H.
Qed.

(** For names that are text, carrying a name is having a non-empty one. *)
Lemma carries_text_name (d : dict) (s : string) :
  lookup d "name" = Some (VStr s) ->
  carries_name (VDict d) = negb (String.eqb s "") /\ name_field (VDict d) = s.
Proof. intros H. simpl. now rewrite H. Qed.
End ParserFacts.

(** C5.  Label flattening.  For every raw issue node, in both modules
    that parse issues: the parse returns a record whenever the priority
    coerces, and the labels of any record it returns are exactly the name
    fields of the mapping-shaped entries of [labels.nodes] that carry a
    non-empty (truthy) name, in response order, malformed entries dropped,
    nothing sorted.  In particular the node list
    [[{"name":"b"},{"name":"a"},{"notname":"x"}]] gives [["b","a"]]. *)
Theorem label_flattening {T : PyText} (raw : dict) :
  (forall priority, _int (get raw "priority") 0 = Ok priority ->
     exists r, Issues._parse_issue raw = Ok r) /\
  (forall r, Issues._parse_issue raw = Ok r ->
     IssueInfo.labels r = flattened (relation_nodes raw "labels")) /\
  (forall priority, _int (get raw "priority") 0 = Ok priority ->
     exists r, Compound._parse_issue raw = Ok r) /\
  (forall r, Compound._parse_issue raw = Ok r ->
     IssueInfo.labels r = flattened (relation_nodes raw "labels")) /\
  flattened example_label_nodes = ["b"; "a"] /\
  (exists r,
     Issues._parse_issue [("labels", VDict [("nodes", VList example_label_nodes)])]
       = Ok r /\ IssueInfo.labels r = ["b"; "a"]) /\
  (exists r,
     Compound._parse_issue [("labels", VDict [("nodes", VList example_label_nodes)])]
       = Ok r /\ IssueInfo.labels r = ["b"; "a"]).
Proof.
  repeat split.
  - intros p Hp. destruct (issues_parse_issue_labels raw p Hp) as (r & Hr & _).
    now exists r.
  - intros r Hr.
    destruct (issues_parse_issue_labels raw _ (issues_parse_issue_priority raw r Hr))
      as (r' & Hr' & Hl).
    rewrite Hr in Hr'. inversion Hr'. now subst.
  - intros p Hp. destruct (compound_parse_issue_labels raw p Hp) as (r & Hr & _).
    now exists r.
  - intros r Hr.
    destruct (compound_parse_issue_labels raw _ (compound_parse_issue_priority raw r Hr))
      as (r' & Hr' & Hl).
    rewrite Hr in Hr'. inversion Hr'. now subst.
  - eexists. split; reflexivity.
  - eexists. split; reflexivity.
Qed.

(** C6.  Parser defaulting.  Parsing the empty mapping raises nothing and
    gives, for the issue, comment and workflow-state parsers, the record
    of defaults: required texts "", optional fields null, priority 0,
    position 0.0, labels []. *)
Theorem parsers_default_on_empty {T : PyText} :
  Compound._parse_issue [] =
    Ok (IssueInfo.mk "" "" "" None None 0 None [] None None) /\
  Issues._parse_issue [] =
    Ok (IssueInfo.mk "" "" "" None None 0 None [] None None) /\
  Compound._parse_comment [] = Ok (CommentInfo.mk "" "" None None) /\
  Compound._parse_state [] =
    Ok (WorkflowStateInfo.mk "" "" "" None (S754_zero false)).
Proof. repeat split. Qed.

(** ** The compound parse *)

Section CompoundFacts.
Context {T : PyText}.

Lemma parse_each_comment_returns (nodes : list value) :
  exists comments, Compound.parse_each Compound._parse_comment nodes = Ok comments.
Proof.
  induction nodes as [ | node rest [cs IH]]; [now exists [] | ].
  destruct node; simpl; try (now exists cs).
  rewrite IH. simpl. eexists. reflexivity.
Qed.

(** A [nodes] value a [for] cannot visit makes the comprehension raise. *)
Lemma parse_nodes_not_iterable {A : Type} (parse : dict -> result A) (nodes : value) :
  match nodes with
  | VNone | VBool _ | VInt _ | VFloat _ => True
  | _ => False
  end ->
  Compound.parse_nodes parse nodes = Raise TypeError.
Proof. destruct nodes; simpl; now intros. Qed.

(** The degradations that do hold: a team branch that is absent or not a
    mapping leaves [states] empty. *)
Lemma context_without_team (issue_data : dict) (r : IssueContextInfo.t) :
  (lookup issue_data "team" = None \/
   exists v, lookup issue_data "team" = Some v /\ is_dict v = false) ->
  Compound.parse_context issue_data = Ok r ->
  IssueContextInfo.states r = [].
Proof.
  intros Hteam. unfold Compound.parse_context.
  destruct (Compound._parse_issue issue_data) as [issue | e]; simpl; [ | discriminate].
  destruct (Compound.parse_nodes Compound._parse_comment _) as [cs | e]; simpl;
    [ | discriminate].
  unfold get_or at 1.
  destruct Hteam as [-> | (v & -> & Hv)].
  - simpl. intros H. now inversion H.
  - destruct v; try discriminate; simpl; intros H; now inversion H.
Qed.

(** Likewise for a [states] sub-branch that is absent or not a mapping. *)
Lemma context_without_states (issue_data team : dict) (r : IssueContextInfo.t) :
  lookup issue_data "team" = Some (VDict team) ->
  (lookup team "states" = None \/
   exists v, lookup team "states" = Some v /\ is_dict v = false) ->
  Compound.parse_context issue_data = Ok r ->
  IssueContextInfo.states r = [].
Proof.
  intros Ht Hstates. unfold Compound.parse_context.
  destruct (Compound._parse_issue issue_data) as [issue | e]; simpl; [ | discriminate].
  destruct (Compound.parse_nodes Compound._parse_comment _) as [cs | e]; simpl;
    [ | discriminate].
  unfold get_or at 1. rewrite Ht. unfold get_or at 1.
  destruct Hstates as [-> | (v & -> & Hv)].
  - simpl. intros H. now inversion H.
  - destruct v; try discriminate; simpl; intros H; now inversion H.
Qed.

(** And for a [comments] branch that is absent or not a mapping. *)
Lemma context_without_comments (issue_data : dict) (r : IssueContextInfo.t) :
  (lookup issue_data "comments" = None \/
   exists v, lookup issue_data "comments" = Some v /\ is_dict v = false) ->
  Compound.parse_context issue_data = Ok r ->
  IssueContextInfo.comments r = [].
Proof.
  intros Hc. unfold Compound.parse_context.
  destruct (Compound._parse_issue issue_data) as [issue | e]; simpl; [ | discriminate].
  unfold get_or at 1.
  destruct Hc as [-> | (v & -> & Hv)].
  - simpl. destruct (Compound.parse_nodes Compound._parse_state _); simpl;
      [ | discriminate]. intros H. now inversion H.
  - destruct v; try discriminate; simpl;
      (destruct (Compound.parse_nodes Compound._parse_state _); simpl;
       [ | discriminate]); intros H; now inversion H.
Qed.

(** With the [team] branch missing entirely the parse does return, the
    issue and the comments parsed as usual. *)
Lemma context_team_missing_returns (issue_data : dict) (issue : IssueInfo.t)
    (nodes : list value) :
  Compound._parse_issue issue_data = Ok issue ->
  lookup issue_data "team" = None ->
  lookup issue_data "comments" = Some (VDict [("nodes", VList nodes)]) ->
  exists comments,
    Compound.parse_each Compound._parse_comment nodes = Ok comments /\
    Compound.parse_context issue_data =
      Ok (IssueContextInfo.mk issue comments []).
Proof.
  intros Hi Ht Hc.
  destruct (parse_each_comment_returns nodes) as [cs Hcs].
  exists cs. split; [exact Hcs | ].
  unfold Compound.parse_context. rewrite Hi. simpl.
  unfold get_or at 3. rewrite Ht. simpl.
  unfold get_or at 1. rewrite Hc. simpl.
  unfold Compound.parse_nodes. simpl. rewrite Hcs. reflexivity.
Qed.
End CompoundFacts.

(** C7.  Compound partial degradation is meant to cover a wrongly shaped
    [nodes] sub-branch as well, and the label relation of the issue parser
    does check that [nodes] is a list; the comment and state relations do
    not, so a [nodes] that is null raises [TypeError] from the
    comprehension instead of degrading to the empty sequence. *)
Theorem issue_context_null_nodes_raises {T : PyText} :
  fst (Compound.linear_issue_context "ENG-1" (answering null_state_nodes_body))
    = Raise TypeError /\
  fst (Compound.linear_issue_context "ENG-1" (answering null_comment_nodes_body))
    = Raise TypeError.
Proof. split; reflexivity. Qed.

(** ** The mutation tools *)

Section MutationFacts.
Context {T : PyText}.

Lemma setitem_truthy (d : dict) (key : string) (v : value) :
  truthy (VDict (setitem d key v)) = true.
Proof.
  destruct d as [ | [k w] rest]; simpl; [reflexivity | ].
  now destruct (String.eqb k key).
Qed.

Lemma set_opt_truthy (d : dict) (key : string) (o : option value) :
  truthy (VDict (set_opt d key o)) = truthy (VDict d) || negb (is_none o).
Proof.
  destruct o as [v | ]; simpl set_opt.
  - rewrite setitem_truthy. cbn [is_none negb]. now rewrite orb_true_r.
  - cbn [is_none negb]. now rewrite orb_false_r.
Qed.

Lemma is_none_map {A B : Type} (f : A -> B) (o : option A) :
  is_none (option_map f o) = is_none o.
Proof. now destruct o. Qed.

(** What follows the dispatch in [linear_create_issue] never touches the
    world, and answers a rejected payload with the fixed diagnostic. *)
Lemma create_after_dispatch (res : LinearResult.t) (w : World) :
  exists out,
    (if negb (LinearResult.success res)
     then ret (Text (or_text (LinearResult.error res) "Failed to create issue"))
     else
       match LinearResult.data res with
       | VDict data =>
           match get data "issueCreate" with
           | VDict payload =>
               if negb (truthy (get payload "success"))
               then ret (Text "Issue creation failed")
               else
                 match get payload "issue" with
                 | VDict issue_data =>
                     result <- lift (Issues._parse_issue issue_data) ;;
                     ret (Record_ result)
                 | _ => ret (Text "No issue in response")
                 end
           | _ => ret (Text "Issue creation failed")
           end
       | _ => ret (Text "Unexpected response")
       end) w = (out, w) /\
    forall data,
      res = LinearResult.mk true (VDict data) None ->
      payload_rejected (get data "issueCreate") = true ->
      out = Ok (Text "Issue creation failed").
Proof.
  destruct res as [[ | ] d e]; simpl.
  - destruct d as [ | | | | | | data];
      try (eexists; split; [reflexivity | intros ? [=]]).
    destruct (get data "issueCreate") as [ | | | | | | payload] eqn:Hp;
      try (eexists; split; [reflexivity | reflexivity]).
    destruct (truthy (get payload "success")) eqn:Hs; simpl.
    + destruct (get payload "issue") as [ | | | | | | issue_data];
        try (eexists; split;
             [reflexivity
             | intros ? [= <-]; rewrite Hp; simpl; rewrite Hs; discriminate]).
      unfold bind, lift.
      destruct (Issues._parse_issue issue_data); (eexists; split;
        [reflexivity
        | intros ? [= <-]; rewrite Hp; simpl; rewrite Hs; discriminate]).
    + eexists; split; reflexivity.
  - eexists. split; [reflexivity | intros ? [=]].
Qed.

Lemma update_after_dispatch (res : LinearResult.t) (w : World) :
  exists out,
    (if negb (LinearResult.success res)
     then ret (Text (or_text (LinearResult.error res) "Failed to update issue"))
     else
       match LinearResult.data res with
       | VDict data =>
           match get data "issueUpdate" with
           | VDict payload =>
               if negb (truthy (get payload "success"))
               then ret (Text "Issue update failed")
               else
                 match get payload "issue" with
                 | VDict issue_data =>
                     result <- lift (Issues._parse_issue issue_data) ;;
                     ret (Record_ result)
                 | _ => ret (Text "No issue in response")
                 end
           | _ => ret (Text "Issue update failed")
           end
       | _ => ret (Text "Unexpected response")
       end) w = (out, w) /\
    forall data,
      res = LinearResult.mk true (VDict data) None ->
      payload_rejected (get data "issueUpdate") = true ->
      out = Ok (Text "Issue update failed").
Proof.
  destruct res as [[ | ] d e]; simpl.
  - destruct d as [ | | | | | | data];
      try (eexists; split; [reflexivity | intros ? [=]]).
    destruct (get data "issueUpdate") as [ | | | | | | payload] eqn:Hp;
      try (eexists; split; [reflexivity | reflexivity]).
    destruct (truthy (get payload "success")) eqn:Hs; simpl.
    + destruct (get payload "issue") as [ | | | | | | issue_data];
        try (eexists; split;
             [reflexivity
             | intros ? [= <-]; rewrite Hp; simpl; rewrite Hs; discriminate]).
      unfold bind, lift.
      destruct (Issues._parse_issue issue_data); (eexists; split;
        [reflexivity
        | intros ? [= <-]; rewrite Hp; simpl; rewrite Hs; discriminate]).
    + eexists; split; reflexivity.
  - eexists. split; [reflexivity | intros ? [=]].
Qed.

Lemma update_input_truthy
    (title description state_id assignee_id : option string)
    (priority : option Z) (label_ids : option (list string))
    (cycle_id project_id : option string) (estimate : option Z) :
  truthy (VDict
    (set_opt (set_opt (set_opt (set_opt (set_opt (set_opt (set_opt (set_opt
      (set_opt [] "title" (text_arg title))
        "description" (text_arg description))
        "stateId" (text_arg state_id))
        "assigneeId" (text_arg assignee_id))
        "priority" (int_arg priority))
        "labelIds" (texts_arg label_ids))
        "cycleId" (text_arg cycle_id))
        "projectId" (text_arg project_id))
        "estimate" (int_arg estimate)))
  = negb (no_update_fields title description state_id assignee_id priority
            label_ids cycle_id project_id estimate).
Proof.
  rewrite !set_opt_truthy. unfold text_arg, int_arg, texts_arg, no_update_fields.
  rewrite !is_none_map. simpl truthy.
  destruct (is_none title), (is_none description), (is_none state_id),
    (is_none assignee_id), (is_none priority), (is_none label_ids),
    (is_none cycle_id), (is_none project_id), (is_none estimate); reflexivity.
Qed.
Lemma bind_graphql {A : Type} (query : string) (variables : option dict)
    (ttl : option Z) (k : LinearResult.t -> IO A) (w : World) :
  bind (graphql query variables ttl) k w =
    k (graphql_result (transport w linear (graphql_request query variables ttl)))
      (after_dispatch w (graphql_request query variables ttl)).
Proof. reflexivity. Qed.

Lemma create_run (w : World) (team_id title : string)
    (description assignee_id state_id : option string)
    (priority : option Z) (label_ids : option (list string))
    (cycle_id project_id : option string) (estimate : option Z)
    (create_as_user display_icon_url : option string) :
  exists req out,
    Issues.linear_create_issue team_id title description assignee_id state_id
      priority label_ids cycle_id project_id estimate create_as_user
      display_icon_url w = (out, after_dispatch w req) /\
    forall data,
      graphql_result (transport w linear req)
        = LinearResult.mk true (VDict data) None ->
      payload_rejected (get data "issueCreate") = true ->
      out = Ok (Text "Issue creation failed").
Proof.
  unfold Issues.linear_create_issue. rewrite bind_graphql.
  match goal with
  | |- context [after_dispatch w ?r] =>
      exists r;
      destruct (create_after_dispatch (graphql_result (transport w linear r))
                  (after_dispatch w r)) as (out & Hrun & Hout)
  end.
  exists out. split; [exact Hrun | exact Hout].
Qed.

Lemma update_run (w : World) (issue_id : string)
    (title description state_id assignee_id : option string)
    (priority : option Z) (label_ids : option (list string))
    (cycle_id project_id : option string) (estimate : option Z) :
  no_update_fields title description state_id assignee_id priority label_ids
    cycle_id project_id estimate = false ->
  exists req out,
    Issues.linear_update_issue issue_id title description state_id assignee_id
      priority label_ids cycle_id project_id estimate w
      = (out, after_dispatch w req) /\
    forall data,
      graphql_result (transport w linear req)
        = LinearResult.mk true (VDict data) None ->
      payload_rejected (get data "issueUpdate") = true ->
      out = Ok (Text "Issue update failed").
Proof.
  intros Hfields. unfold Issues.linear_update_issue.
  rewrite update_input_truthy, Hfields. cbn [negb]. rewrite bind_graphql.
  match goal with
  | |- context [after_dispatch w ?r] =>
      exists r;
      destruct (update_after_dispatch (graphql_result (transport w linear r))
                  (after_dispatch w r)) as (out & Hrun & Hout)
  end.
  exists out. split; [exact Hrun | exact Hout].
Qed.
End MutationFacts.

Example create_rejected_run :
  fst (Issues.linear_create_issue (T := sample_text) "team-1" "Broken build"
         None None None (Some 2) (Some ["bug"]) None None None None None
         (answering rejected_create_body))
    = Ok (Text "Issue creation failed").
Proof. reflexivity. Qed.

Example update_rejected_run :
  fst (Issues.linear_update_issue (T := sample_text) "ENG-1" (Some "Renamed")
         None None None None None None None None
         (answering rejected_update_body))
    = Ok (Text "Issue update failed").
Proof. reflexivity. Qed.

Example create_transport_failure_run :
  fst (Issues.linear_create_issue (T := sample_text) "team-1" "Broken build"
         None None None None None None None None None None
         (failing ""))
    = Ok (Text "Failed to create issue").
Proof. reflexivity. Qed.

(** C10.  No-op update short-circuit: with every optional field absent,
    [linear_update_issue] returns exactly "No fields to update" and leaves
    the world as it was, so no request is handed to the transport. *)
Theorem update_without_fields {T : PyText} (issue_id : string) (w : World) :
  Issues.linear_update_issue issue_id None None None None None None None None
      None w = (Ok (Text "No fields to update"), w) /\
  sent (snd (Issues.linear_update_issue issue_id None None None None None None
               None None None w)) = sent w.
Proof. split; reflexivity. Qed.

(* ================================================================== *)
(** * Further properties of the code *)
(* ================================================================== *)

(** ** The request that is built *)

(** X1.  The request [graphql] builds is always a POST to [/graphql] whose
    body holds the query; the variables are included exactly when they
    are a non-empty mapping, so an empty mapping is sent like no
    variables at all; the only header ever set is the TTL one, holding
    the decimal text of the TTL. *)
Theorem graphql_request_shape {T : PyText} (query : string)
    (variables : option dict) (ttl : option Z) :
  method (graphql_request query variables ttl) = POST /\
  path (graphql_request query variables ttl) = "/graphql" /\
  body (graphql_request query variables ttl) =
    ("query", VStr query) ::
    match variables with
    | Some (entry :: rest) => [("variables", VDict (entry :: rest))]
    | _ => []
    end /\
  headers (graphql_request query variables ttl) =
    option_map (fun n => [("public-file-urls-expire-in", int_repr n)]) ttl /\
  graphql_request query (Some []) ttl = graphql_request query None ttl.
Proof.
  split; [reflexivity | split; [reflexivity | split; [ | split]]].
  - now destruct variables as [[ | entry rest] | ].
  - now destruct ttl.
  - reflexivity.
Qed.

(** ** The coercion helpers, continued *)

(** X2.  [_int] raises exactly on a float infinity and [_float] exactly on
    an int that [float] cannot represent, and what escapes is always
    [OverflowError]; every other input gives a value. *)
Theorem coercion_raises_exactly {T : PyText} (val : value) (e : exn)
    (n : Z) (x : spec_float) :
  (_int val n = Raise e <->
     e = OverflowError /\ exists sign, val = VFloat (S754_infinity sign)) /\
  (_float val x = Raise e <->
     e = OverflowError /\
     exists z, val = VInt z /\ float_of_int z = Raise OverflowError).
Proof.
  split; split.
  - apply int_coercion_raises_only_on_infinity.
  - intros [-> [sign ->]]. reflexivity.
  - apply float_coercion_raises_only_on_large_int.
  - intros [-> (z & -> & Hz)]. simpl. now rewrite Hz.
Qed.

(** X3.  On a finite non-zero float [_int] never falls back on the
    default: it returns the integer part, of the float's sign, truncated
    toward zero. *)
Theorem int_coercion_truncates {T : PyText} (sign : bool) (m : positive)
    (e default : Z) :
  exists z,
    _int (VFloat (S754_finite sign m e)) default = Ok z /\
    z = (if sign then - Z.abs z else Z.abs z) /\
    (0 <= e -> Z.abs z = Zpos m * 2 ^ e) /\
    (e < 0 -> Z.abs z * 2 ^ (- e) <= Zpos m < (Z.abs z + 1) * 2 ^ (- e)).
Proof.
  assert (Hnonneg : 0 <= Z.shiftl (Zpos m) e)
    by (apply Z.shiftl_nonneg; lia).
  exists (if sign then - Z.shiftl (Zpos m) e else Z.shiftl (Zpos m) e).
  assert (Habs : Z.abs (if sign then - Z.shiftl (Zpos m) e
                        else Z.shiftl (Zpos m) e) = Z.shiftl (Zpos m) e)
    by (destruct sign; lia).
  rewrite Habs. repeat split.
  - intros He. now apply Z.shiftl_mul_pow2.
  - rewrite Z.shiftl_div_pow2 by lia.
    rewrite Z.mul_comm. apply Z.mul_div_le. apply Z.pow_pos_nonneg; lia.
  - rewrite Z.shiftl_div_pow2 by lia.
    assert (Hpow : 0 < 2 ^ (- e)) by (apply Z.pow_pos_nonneg; lia).
    pose proof (Z.mul_succ_div_gt (Zpos m) (2 ^ (- e)) Hpow). lia.
Qed.

(** ** The node parsers, continued *)

Section MoreParserFacts.
Context {T : PyText}.

Lemma int_coercion_of_infinity (sign : bool) (default : Z) :
  _int (VFloat (S754_infinity sign)) default = Raise OverflowError.
Proof. reflexivity. Qed.

Lemma float_coercion_of_large_int (z : Z) (default : spec_float) :
  float_of_int z = Raise OverflowError ->
  _float (VInt z) default = Raise OverflowError.
Proof. intros H. simpl. now rewrite H. Qed.

Lemma label_names_of_named (labels : list string) :
  Forall (fun l => l <> "") labels ->
  Issues.label_names (map (fun l => VDict [("name", VStr l)]) labels) = labels.
Proof.
  induction 1 as [ | l rest Hl _ IH]; [reflexivity | ].
  simpl. unfold get, get_or. simpl.
  destruct (String.eqb l "") eqn:E.
  - apply String.eqb_eq in E. contradiction.
  - simpl. now rewrite IH.
Qed.

Lemma opt_str_of_text_value (o : option string) :
  _opt_str (text_value o) = o.
Proof. now destruct o. Qed.

Lemma nested_str_of_named_value (o : option string) :
  _nested_str (named_value o) "name" = o.
Proof. now destruct o. Qed.

Lemma parse_issue_of_node (r : IssueInfo.t) (extra : dict) :
  Forall (fun l => l <> "") (IssueInfo.labels r) ->
  Issues._parse_issue (issue_node r ++ extra)%list = Ok r.
Proof.
  intros Hl. destruct r as [i ident t d st p a ls ca ua]. simpl in Hl.
  unfold Issues._parse_issue, issue_node. simpl.
  unfold get, get_or. simpl.
  rewrite !opt_str_of_text_value, !nested_str_of_named_value.
  now rewrite (label_names_of_named ls Hl).
Qed.

Lemma parse_comment_of_node (c : CommentInfo.t) :
  Comments._parse_comment (comment_node c) = Ok c.
Proof.
  destruct c as [i b u ca]. unfold Comments._parse_comment, comment_node. simpl.
  unfold get, get_or. simpl.
  now rewrite opt_str_of_text_value, nested_str_of_named_value.
Qed.

Lemma parse_state_of_node (s : WorkflowStateInfo.t) :
  Teams._parse_state (state_node s) = Ok s.
Proof.
  destruct s as [i n ty c pos]. unfold Teams._parse_state, state_node. simpl.
  unfold get, get_or. simpl.
  now rewrite opt_str_of_text_value.
Qed.

Lemma parse_mappings_of_nodes {A : Type} (parse : dict -> result A)
    (node_of : A -> dict) (items : list A) :
  (forall a, parse (node_of a) = Ok a) ->
  parse_mappings parse (map (fun a => VDict (node_of a)) items) = Ok items.
Proof.
  intros Hparse. induction items as [ | a rest IH]; [reflexivity | ].
  simpl. rewrite Hparse. simpl. now rewrite IH.
Qed.

Lemma parse_each_is_parse_mappings {A : Type} (parse : dict -> result A)
    (nodes : list value) :
  Compound.parse_each parse nodes = parse_mappings parse nodes.
Proof. reflexivity. Qed.
End MoreParserFacts.

(** X4.  The parsers that are written out again in other modules agree
    with the originals on every node: the issue parser of [compound.py]
    with that of [issues.py], the comment and workflow-state parsers of
    [compound.py] with those of [comments.py] and [teams.py]; and the
    search parser is the issue parser with the description left out. *)
Theorem duplicated_parsers_agree {T : PyText} (raw : dict) :
  Compound._parse_issue raw = Issues._parse_issue raw /\
  Compound._parse_comment raw = Comments._parse_comment raw /\
  Compound._parse_state raw = Teams._parse_state raw /\
  Search._parse_search_issue raw =
    (let* r := Issues._parse_issue raw in Ok (without_description r)).
Proof.
  repeat split.
  unfold Search._parse_search_issue, Issues._parse_issue.
  now destruct (_int (get raw "priority") 0).
Qed.

(** X5.  A parser with a numeric field raises exactly when that field
    makes its coercion overflow, and then with [OverflowError]: the issue
    parser on an infinite [priority], the workflow-state and project
    parsers on a [position] / [progress] int beyond the float range, the
    cycle parser on either. *)
Theorem numeric_parsers_raise_exactly {T : PyText} (raw : dict) (e : exn) :
  (Issues._parse_issue raw = Raise e <->
     e = OverflowError /\
     exists sign, get raw "priority" = VFloat (S754_infinity sign)) /\
  (Teams._parse_state raw = Raise e <->
     e = OverflowError /\
     exists z, get raw "position" = VInt z /\
               float_of_int z = Raise OverflowError) /\
  (Projects._parse_project raw = Raise e <->
     e = OverflowError /\
     exists z, get raw "progress" = VInt z /\
               float_of_int z = Raise OverflowError) /\
  (Cycles._parse_cycle raw = Raise e <->
     e = OverflowError /\
     ((exists sign, get raw "number" = VFloat (S754_infinity sign)) \/
      (exists z, get raw "progress" = VInt z /\
                 float_of_int z = Raise OverflowError))).
Proof.
  split; [ | split; [ | split]].
  - unfold Issues._parse_issue. split.
    + destruct (_int (get raw "priority") 0) as [p | e'] eqn:E; simpl;
        [discriminate | ].
      intros [= <-]. now apply int_coercion_raises_only_on_infinity in E.
    + intros [-> [sign ->]]. reflexivity.
  - unfold Teams._parse_state. split.
    + destruct (_float (get raw "position") float_zero) as [p | e'] eqn:E; simpl;
        [discriminate | ].
      intros [= <-]. now apply float_coercion_raises_only_on_large_int in E.
    + intros [-> (z & -> & Hz)].
      now rewrite (float_coercion_of_large_int z float_zero Hz).
  - unfold Projects._parse_project. split.
    + destruct (_float (get raw "progress") float_zero) as [p | e'] eqn:E; simpl;
        [discriminate | ].
      intros [= <-]. now apply float_coercion_raises_only_on_large_int in E.
    + intros [-> (z & -> & Hz)].
      now rewrite (float_coercion_of_large_int z float_zero Hz).
  - unfold Cycles._parse_cycle. split.
    + destruct (_int (get raw "number") 0) as [n | e'] eqn:En; simpl.
      * destruct (_float (get raw "progress") float_zero) as [p | e'] eqn:Ep;
          simpl; [discriminate | ].
        intros [= <-].
        apply float_coercion_raises_only_on_large_int in Ep.
        destruct Ep as [-> Hz]. split; [reflexivity | now right].
      * intros [= <-].
        apply int_coercion_raises_only_on_infinity in En.
        destruct En as [-> Hs]. split; [reflexivity | now left].
    + intros [-> [[sign Hn] | (z & Hp & Hz)]].
      * now rewrite Hn.
      * rewrite Hp, (float_coercion_of_large_int z float_zero Hz).
        destruct (_int (get raw "number") 0) as [n | e'] eqn:En; simpl;
          [reflexivity | ].
        apply int_coercion_raises_only_on_infinity in En.
        now destruct En as [-> _].
Qed.

(** X6.  A well-typed node parses back to exactly the record it encodes:
    texts are copied verbatim, the priority and position unchanged, a
    to-one relation gives its name, the label nodes give the labels.  For
    an issue this needs every label to be non-empty, since a label node
    with an empty name is dropped. *)
Theorem well_typed_nodes_round_trip {T : PyText} (r : IssueInfo.t)
    (c : CommentInfo.t) (s : WorkflowStateInfo.t) :
  Forall (fun l => l <> "") (IssueInfo.labels r) ->
  Issues._parse_issue (issue_node r) = Ok r /\
  Search._parse_search_issue (issue_node r) = Ok (without_description r) /\
  Comments._parse_comment (comment_node c) = Ok c /\
  Teams._parse_state (state_node s) = Ok s.
Proof.
  intros Hl.
  assert (Hr : Issues._parse_issue (issue_node r) = Ok r).
  { rewrite <- (app_nil_r (issue_node r)). now apply parse_issue_of_node. }
  repeat split.
  - exact Hr.
  - assert (Hs : Search._parse_search_issue (issue_node r) =
                 (let* r' := Issues._parse_issue (issue_node r) in
                  Ok (without_description r'))).
    { unfold Search._parse_search_issue, Issues._parse_issue.
      now destruct (_int (get (issue_node r) "priority") 0). }
    rewrite Hs, Hr. reflexivity.
  - apply parse_comment_of_node.
  - apply parse_state_of_node.
Qed.

Lemma well_typed_nodes_round_trip_witness :
  Forall (fun l => l <> "") (IssueInfo.labels sample_issue) /\
  Issues._parse_issue (T := sample_text) (issue_node sample_issue)
    = Ok sample_issue.
Proof.
  assert (H : Forall (fun l => l <> "") (IssueInfo.labels sample_issue))
    by (repeat constructor; discriminate).
  split; [exact H | ].
  exact (proj1 (well_typed_nodes_round_trip (T := sample_text) sample_issue
                  (CommentInfo.mk "c1" "Looks good" (Some "Ann") None)
                  (WorkflowStateInfo.mk "s1" "Done" "completed" None float_one)
                  H)).
Defined.

Lemma parse_mappings_returns {A : Type} (parse : dict -> result A)
    (nodes : list value) (rs : list A) :
  parse_mappings parse nodes = Ok rs <->
  Forall2 (fun node r => exists d, node = VDict d /\ parse d = Ok r)
    (filter is_dict nodes) rs.
Proof.
  revert rs. induction nodes as [ | node rest IH]; intros rs.
  - simpl. split.
    + intros [= <-]. constructor.
    + intros H. now inversion H.
  - destruct node as [ | | | | | | d]; simpl; try apply IH.
    split.
    + destruct (parse d) as [x | e] eqn:Hx; simpl; [ | discriminate].
      destruct (parse_mappings parse rest) as [xs | e] eqn:Hxs; simpl;
        [ | discriminate].
      intros [= <-]. constructor; [now exists d | now apply IH].
    + intros H. inversion H as [ | node r ns rs' Hex Hrest]; subst.
      destruct Hex as (d' & Heq & Hd). inversion Heq; subst d'.
      rewrite Hd. simpl. apply IH in Hrest. now rewrite Hrest.
Qed.

Lemma parse_mappings_raises {A : Type} (parse : dict -> result A)
    (nodes : list value) (e : exn) :
  parse_mappings parse nodes = Raise e ->
  exists d, In (VDict d) nodes /\ parse d = Raise e.
Proof.
  induction nodes as [ | node rest IH]; [discriminate | ].
  destruct node as [ | | | | | | d]; simpl;
    try (intros H; destruct (IH H) as (d' & Hin & Hd'); exists d';
         split; [now right | exact Hd']).
  destruct (parse d) as [x | e'] eqn:Hx; simpl.
  - destruct (parse_mappings parse rest) as [xs | e'] eqn:Hxs; simpl;
      [discriminate | ].
    intros [= <-]. destruct (IH eq_refl) as (d' & Hin & Hd').
    exists d'. split; [now right | exact Hd'].
  - intros [= <-]. exists d. split; [now left | exact Hx].
Qed.

(** X7.  The list comprehension every list tool ends with: it returns
    exactly the parses of the mapping-shaped nodes, in response order,
    other nodes being skipped; and it raises only what the parse of one
    of those nodes raises. *)
Theorem comprehension_keeps_mappings_in_order {A : Type}
    (parse : dict -> result A) (nodes : list value) :
  (forall rs,
     parse_mappings parse nodes = Ok rs <->
     Forall2 (fun node r => exists d, node = VDict d /\ parse d = Ok r)
       (filter is_dict nodes) rs) /\
  (forall e,
     parse_mappings parse nodes = Raise e ->
     exists d, In (VDict d) nodes /\ parse d = Raise e) /\
  Compound.parse_each parse nodes = parse_mappings parse nodes.
Proof.
  split; [ | split; [ | reflexivity]].
  - intros rs. apply parse_mappings_returns.
  - intros e. apply parse_mappings_raises.
Qed.

(** ** Tools as response ladders *)

Lemma bind_lift {A B : Type} (r : result A) (k : A -> IO B) (w : World) :
  bind (lift r) k w =
    match r with
    | Ok a => k a w
    | Raise e => (Raise e, w)
    end.
Proof. unfold bind, lift. now destruct r. Qed.

(** Past the dispatch: name what [graphql] returned and the world left. *)
Ltac after_graphql :=
  rewrite bind_graphql;
  match goal with
  | |- context [graphql_request ?q ?v None] => exists v
  end;
  unfold run_outcome;
  match goal with
  | |- context [graphql_result ?x] => generalize (graphql_result x)
  end;
  match goal with
  | |- context [after_dispatch ?w ?r] => generalize (after_dispatch w r)
  end;
  intros w' res.

(** Walk the ladder of the tool and of its table side by side. *)
Ltac ladder :=
  unfold entity_outcome, list_outcome, mutation_outcome, get, get_or;
  repeat first
    [ progress cbn [fst snd negb descend rbind ret parse_mappings
                    LinearResult.success LinearResult.data LinearResult.error
                    truthy]
    | rewrite bind_lift
    | rewrite parse_each_is_parse_mappings
    | match goal with
      | |- context [match lookup ?d ?k with _ => _ end] =>
          destruct (lookup d k) as [? | ]
      | |- context [truthy ?v] => is_var v; destruct (truthy v)
      | |- context [match ?v with _ => _ end] =>
          is_var v;
          match type of v with
          | value => destruct v
          end
      | |- context [match ?p ?d with Ok _ => _ | Raise _ => _ end] =>
          destruct (p d)
      end ];
  try reflexivity.

Ltac tool_ladder :=
  after_graphql;
  match goal with
  | res : LinearResult.t |- _ =>
      destruct res as [[ | ] [ | | | | | | ?] ?]; ladder
  end.

(** The world a tool leaves is the one its dispatch left. *)
Ltac world_after_graphql :=
  rewrite bind_graphql;
  match goal with
  | |- context [graphql_result ?x] => generalize (graphql_result x)
  end;
  let res := fresh "res" in
  intros res; destruct res as [[ | ] [ | | | | | | ?] ?];
  unfold get, get_or;
  repeat first
    [ progress cbn [fst snd negb ret parse_mappings
                    LinearResult.success LinearResult.data LinearResult.error
                    truthy]
    | rewrite bind_lift
    | match goal with
      | |- context [match lookup ?d ?k with _ => _ end] =>
          destruct (lookup d k) as [? | ]
      | |- context [truthy ?v] => is_var v; destruct (truthy v)
      | |- context [match ?v with _ => _ end] =>
          is_var v;
          match type of v with
          | value => destruct v
          end
      | |- context [match ?p ?d with Ok _ => _ | Raise _ => _ end] =>
          destruct (p d)
      end ];
  try reflexivity.

Section ToolOutcomes.
Context {T : PyText}.

Lemma linear_get_issue_outcome (issue_id : string) :
  tool_refines (Issues.linear_get_issue issue_id) Issues.get_issue_query
    (entity_outcome Issues._parse_issue "Failed to fetch issue"
       [("issue", "Issue not found")]).
Proof. intros w. unfold Issues.linear_get_issue. tool_ladder. Qed.

Lemma linear_issue_context_outcome (issue_id : string) :
  tool_refines (Compound.linear_issue_context issue_id) Compound.context_query
    (entity_outcome Compound.parse_context "Failed to fetch issue context"
       [("issue", "Issue not found")]).
Proof. intros w. unfold Compound.linear_issue_context. tool_ladder. Qed.

Lemma linear_get_team_outcome (team_id : string) :
  tool_refines (Teams.linear_get_team team_id) Teams.get_team_query
    (entity_outcome Teams._parse_team "Failed to fetch team"
       [("team", "Team not found")]).
Proof. intros w. unfold Teams.linear_get_team. tool_ladder. Qed.

Lemma linear_whoami_outcome :
  tool_refines (Users.linear_whoami) Users.whoami_query
    (entity_outcome Users._parse_user "Failed to fetch viewer"
       [("viewer", "Viewer not found")]).
Proof. intros w. unfold Users.linear_whoami. tool_ladder. Qed.

Lemma linear_get_cycle_outcome (cycle_id : string) :
  tool_refines (Cycles.linear_get_cycle cycle_id) Cycles.get_cycle_query
    (entity_outcome Cycles._parse_cycle "Failed to fetch cycle"
       [("cycle", "Cycle not found")]).
Proof. intros w. unfold Cycles.linear_get_cycle. tool_ladder. Qed.

Lemma linear_active_cycle_outcome (team_id : string) :
  tool_refines (Cycles.linear_active_cycle team_id) Cycles.active_cycle_query
    (entity_outcome Cycles._parse_cycle "Failed to fetch active cycle"
       [("team", "Team not found"); ("activeCycle", "No active cycle")]).
Proof. intros w. unfold Cycles.linear_active_cycle. tool_ladder. Qed.

Lemma linear_get_project_outcome (project_id : string) :
  tool_refines (Projects.linear_get_project project_id)
      Projects.get_project_query
    (entity_outcome Projects._parse_project "Failed to fetch project"
       [("project", "Project not found")]).
Proof. intros w. unfold Projects.linear_get_project. tool_ladder. Qed.

Lemma linear_get_attachment_outcome (attachment_id : string) :
  tool_refines (Attachments.linear_get_attachment attachment_id)
      Attachments.get_attachment_query
    (entity_outcome Attachments._parse_attachment "Failed to fetch attachment"
       [("attachment", "Attachment not found")]).
Proof. intros w. unfold Attachments.linear_get_attachment. tool_ladder. Qed.

Lemma linear_list_issues_outcome (filter : option dict) (first : Z) (after :
    option string)
    (order_by : string) (include_archived : bool) :
  tool_refines (Issues.linear_list_issues filter first after order_by
      include_archived) Issues.list_issues_query
    (list_outcome Issues._parse_issue "Failed to list issues"
       [("issues", "No issues data")]).
Proof. intros w. unfold Issues.linear_list_issues. tool_ladder. Qed.

Lemma linear_my_issues_outcome (first : Z) (after : option string)
    (include_archived : bool) :
  tool_refines (Compound.linear_my_issues first after include_archived)
      Compound.my_issues_query
    (list_outcome Compound._parse_issue "Failed to fetch assigned issues"
       [("viewer", "Viewer not found"); ("assignedIssues",
           "No assigned issues data")]).
Proof. intros w. unfold Compound.linear_my_issues. tool_ladder. Qed.

Lemma linear_search_issues_outcome (query : string) (first : Z) (after :
    option string)
    (include_archived : bool) :
  tool_refines (Search.linear_search_issues query first after
      include_archived) Search.search_issues_query
    (list_outcome Search._parse_search_issue "Failed to search issues"
       [("issueSearch", "No search results")]).
Proof. intros w. unfold Search.linear_search_issues. tool_ladder. Qed.

Lemma linear_list_comments_outcome (issue_id : string) (first : Z) (after :
    option string) :
  tool_refines (Comments.linear_list_comments issue_id first after)
      Comments.list_comments_query
    (list_outcome Comments._parse_comment "Failed to list comments"
       [("issue", "Issue not found"); ("comments", "No comments data")]).
Proof. intros w. unfold Comments.linear_list_comments. tool_ladder. Qed.

Lemma linear_list_teams_outcome (first : Z) (after : option string) :
  tool_refines (Teams.linear_list_teams first after) Teams.list_teams_query
    (list_outcome Teams._parse_team "Failed to list teams"
       [("teams", "No teams data")]).
Proof. intros w. unfold Teams.linear_list_teams. tool_ladder. Qed.

Lemma linear_list_team_states_outcome (team_id : string) :
  tool_refines (Teams.linear_list_team_states team_id)
      Teams.list_team_states_query
    (list_outcome Teams._parse_state "Failed to fetch team states"
       [("team", "Team not found"); ("states", "No states data")]).
Proof. intros w. unfold Teams.linear_list_team_states. tool_ladder. Qed.

Lemma linear_list_users_outcome (first : Z) (after : option string)
    (include_archived : bool) :
  tool_refines (Users.linear_list_users first after include_archived)
      Users.list_users_query
    (list_outcome Users._parse_user "Failed to list users"
       [("users", "No users data")]).
Proof. intros w. unfold Users.linear_list_users. tool_ladder. Qed.

Lemma linear_list_cycles_outcome (team_id : string) (first : Z) (after :
    option string)
    (include_archived : bool) :
  tool_refines (Cycles.linear_list_cycles team_id first after
      include_archived) Cycles.list_cycles_query
    (list_outcome Cycles._parse_cycle "Failed to list cycles"
       [("team", "Team not found"); ("cycles", "No cycles data")]).
Proof. intros w. unfold Cycles.linear_list_cycles. tool_ladder. Qed.

Lemma linear_list_projects_outcome (filter : option dict) (first : Z) (after :
    option string)
    (include_archived : bool) :
  tool_refines (Projects.linear_list_projects filter first after
      include_archived) Projects.list_projects_query
    (list_outcome Projects._parse_project "Failed to list projects"
       [("projects", "No projects data")]).
Proof. intros w. unfold Projects.linear_list_projects. tool_ladder. Qed.

Lemma linear_get_attachment_by_url_outcome (url : string) :
  tool_refines (Attachments.linear_get_attachment_by_url url)
      Attachments.get_attachment_by_url_query
    (list_outcome Attachments._parse_attachment "Failed to fetch attachments"
       [("attachmentsForURL", "No attachment data")]).
Proof. intros w. unfold Attachments.linear_get_attachment_by_url. tool_ladder.
    Qed.

Lemma linear_create_issue_outcome (team_id title : string)
    (description assignee_id state_id : option string) (priority : option Z)
    (label_ids : option (list string)) (cycle_id project_id : option string)
    (estimate : option Z) (create_as_user display_icon_url : option string) :
  tool_refines (Issues.linear_create_issue team_id title description
      assignee_id state_id priority label_ids
      cycle_id project_id estimate create_as_user display_icon_url)
          Issues.create_query
    (mutation_outcome Issues._parse_issue "Failed to create issue"
       "issueCreate" "Issue creation failed" "issue" "No issue in response").
Proof. intros w. unfold Issues.linear_create_issue. tool_ladder. Qed.

Lemma linear_create_comment_outcome (issue_id body : string)
    (create_as_user display_icon_url : option string) :
  tool_refines (Comments.linear_create_comment issue_id body create_as_user
      display_icon_url) Comments.create_comment_query
    (mutation_outcome Comments._parse_comment "Failed to create comment"
       "commentCreate" "Comment creation failed" "comment"
           "No comment in response").
Proof. intros w. unfold Comments.linear_create_comment. tool_ladder. Qed.

Lemma linear_create_label_outcome (name : string) (team_id color : option
    string) :
  tool_refines (Labels.linear_create_label name team_id color)
      Labels.create_label_query
    (mutation_outcome Labels._parse_label "Failed to create label"
       "issueLabelCreate" "Label creation failed" "issueLabel"
           "No label in response").
Proof. intros w. unfold Labels.linear_create_label. tool_ladder. Qed.

Lemma linear_create_project_outcome (name : string) (team_ids : option (list
    string))
    (description state target_date : option string) :
  tool_refines (Projects.linear_create_project name team_ids description state
      target_date) Projects.create_project_query
    (mutation_outcome Projects._parse_project "Failed to create project"
       "projectCreate" "Project creation failed" "project"
           "No project in response").
Proof. intros w. unfold Projects.linear_create_project. tool_ladder. Qed.

Lemma linear_create_attachment_outcome (issue_id url : string) (title subtitle
    icon_url : option string)
    (metadata : option dict) (create_as_user display_icon_url : option string) :
  tool_refines (Attachments.linear_create_attachment issue_id url title
      subtitle icon_url metadata create_as_user
      display_icon_url) Attachments.create_attachment_query
    (mutation_outcome Attachments._parse_attachment
        "Failed to create attachment"
       "attachmentCreate" "Attachment creation failed" "attachment"
           "No attachment in response").
Proof. intros w. unfold Attachments.linear_create_attachment. tool_ladder. Qed.

Lemma linear_update_attachment_outcome (attachment_id : string) (title
    subtitle : option string)
    (metadata : option dict) :
  tool_refines (Attachments.linear_update_attachment attachment_id title
      subtitle metadata) Attachments.update_attachment_query
    (mutation_outcome Attachments._parse_attachment
        "Failed to update attachment"
       "attachmentUpdate" "Attachment update failed" "attachment"
           "No attachment in response").
Proof. intros w. unfold Attachments.linear_update_attachment. tool_ladder. Qed.

Lemma linear_list_labels_outcome (team_id : option string) (first : Z)
    (after : option string) :
  tool_refines (Labels.linear_list_labels team_id first after)
    (if truthy (text_value team_id)
     then Labels.team_labels_query else Labels.labels_query)
    (list_outcome Labels._parse_label "Failed to list labels"
       (if truthy (text_value team_id)
        then [("team", "Team not found"); ("labels", "No labels data")]
        else [("issueLabels", "No labels data")])).
Proof.
  intros w. unfold Labels.linear_list_labels.
  destruct (truthy (text_value team_id)); unfold Labels.labels_of; tool_ladder.
Qed.

Lemma update_project_input_truthy
    (name description state target_date : option string) :
  truthy (VDict
    (set_opt (set_opt (set_opt (set_opt [] "name" (text_arg name))
        "description" (text_arg description))
        "state" (text_arg state))
        "targetDate" (text_arg target_date)))
  = negb (is_none name && is_none description && is_none state &&
          is_none target_date).
Proof.
  rewrite !set_opt_truthy. unfold text_arg. rewrite !is_none_map. simpl truthy.
  destruct (is_none name), (is_none description), (is_none state),
    (is_none target_date); reflexivity.
Qed.

Lemma linear_update_issue_outcome (issue_id : string)
    (title description state_id assignee_id : option string)
    (priority : option Z) (label_ids : option (list string))
    (cycle_id project_id : option string) (estimate : option Z) :
  no_update_fields title description state_id assignee_id priority label_ids
    cycle_id project_id estimate = false ->
  tool_refines (Issues.linear_update_issue issue_id title description state_id
      assignee_id priority label_ids
      cycle_id project_id estimate) Issues.update_query
    (mutation_outcome Issues._parse_issue "Failed to update issue"
       "issueUpdate" "Issue update failed" "issue" "No issue in response").
Proof.
  intros Hfields w. unfold Issues.linear_update_issue.
  rewrite update_input_truthy, Hfields. cbn [negb]. tool_ladder.
Qed.

Lemma linear_update_project_outcome (project_id : string)
    (name description state target_date : option string) :
  is_none name && is_none description && is_none state &&
    is_none target_date = false ->
  tool_refines (Projects.linear_update_project project_id name description
      state target_date) Projects.update_project_query
    (mutation_outcome Projects._parse_project "Failed to update project"
       "projectUpdate" "Project update failed" "project"
           "No project in response").
Proof.
  intros Hfields w. unfold Projects.linear_update_project.
  rewrite update_project_input_truthy, Hfields. cbn [negb]. tool_ladder.
Qed.
End ToolOutcomes.

(** ** What every ladder guarantees *)

Section OutcomeFacts.
Context {T : PyText}.

Lemma or_text_nonempty (o : option string) (fallback : string) :
  fallback <> "" -> or_text o fallback <> "".
Proof.
  intros Hf. destruct o as [s | ]; simpl; [ | exact Hf].
  destruct (String.eqb s "") eqn:E; [exact Hf | ].
  now apply String.eqb_neq.
Qed.

Lemma or_text_of_message (msg fallback : string) :
  or_text (Some msg) fallback = if String.eqb msg "" then fallback else msg.
Proof. reflexivity. Qed.

Lemma descend_diagnostic (steps : list (string * string)) (d : dict)
    (diagnostic : string) :
  Forall (fun step => snd step <> "") steps ->
  descend steps d = inr diagnostic -> diagnostic <> "".
Proof.
  intros Hsteps. revert d.
  induction Hsteps as [ | [key diag] rest Hd _ IH]; intros d; [discriminate | ].
  simpl. destruct (lookup d key) as [[ | | | | | | inner] | ];
    try (intros [= <-]; exact Hd).
  apply IH.
Qed.

Lemma entity_outcome_text {A : Type} (parse : dict -> result A)
    (fallback : string) (steps : list (string * string))
    (res : LinearResult.t) (text : string) :
  fallback <> "" -> Forall (fun step => snd step <> "") steps ->
  entity_outcome parse fallback steps res = Ok (Text text) -> text <> "".
Proof.
  intros Hf Hsteps. unfold entity_outcome.
  destruct (LinearResult.success res).
  - destruct (LinearResult.data res); try (intros [= <-]; discriminate).
    destruct (descend steps d) as [entity | diagnostic] eqn:Hd.
    + destruct (parse entity); simpl; discriminate.
    + intros [= <-]. now apply (descend_diagnostic steps d).
  - intros [= <-]. now apply or_text_nonempty.
Qed.

Lemma list_outcome_text {A : Type} (parse : dict -> result A)
    (fallback : string) (steps : list (string * string))
    (res : LinearResult.t) (text : string) :
  fallback <> "" -> Forall (fun step => snd step <> "") steps ->
  list_outcome parse fallback steps res = Ok (Text text) -> text <> "".
Proof.
  intros Hf Hsteps. unfold list_outcome.
  destruct (LinearResult.success res).
  - destruct (LinearResult.data res); try (intros [= <-]; discriminate).
    destruct (descend steps d) as [container | diagnostic] eqn:Hd.
    + destruct (lookup container "nodes") as [[ | | | | | nodes | ] | ];
        try (intros [= <-]; discriminate); try discriminate.
      destruct (parse_mappings parse nodes); simpl; discriminate.
    + intros [= <-]. now apply (descend_diagnostic steps d).
  - intros [= <-]. now apply or_text_nonempty.
Qed.

Lemma mutation_outcome_text {A : Type} (parse : dict -> result A)
    (fallback payload_key rejected entity_key missing : string)
    (res : LinearResult.t) (text : string) :
  fallback <> "" -> rejected <> "" -> missing <> "" ->
  mutation_outcome parse fallback payload_key rejected entity_key missing res
    = Ok (Text text) ->
  text <> "".
Proof.
  intros Hf Hr Hm. unfold mutation_outcome.
  destruct (LinearResult.success res).
  - destruct (LinearResult.data res); try (intros [= <-]; discriminate).
    destruct (lookup d payload_key) as [[ | | | | | | payload] | ];
      try (intros [= <-]; exact Hr).
    destruct (lookup payload "success") as [flag | ];
      [ | intros [= <-]; exact Hr].
    destruct (truthy flag); [ | intros [= <-]; exact Hr].
    destruct (lookup payload entity_key) as [[ | | | | | | entity] | ];
      try (intros [= <-]; exact Hm).
    destruct (parse entity); simpl; discriminate.
  - intros [= <-]. now apply or_text_nonempty.
Qed.

Lemma refines_diagnostics {A : Type} (m : IO (reply A)) (query : string)
    (outcome : LinearResult.t -> result (reply A)) :
  tool_refines m query outcome ->
  (forall res text, outcome res = Ok (Text text) -> text <> "") ->
  diagnostics_nonempty m.
Proof.
  intros Hm Hout w text. destruct (Hm w) as [variables ->].
  unfold run_outcome. simpl. apply Hout.
Qed.

Lemma refines_contract {A : Type} (m : IO (reply A)) (query fallback : string)
    (outcome : LinearResult.t -> result (reply A)) :
  tool_refines m query outcome ->
  (forall msg,
     outcome (failure msg) =
       Ok (Text (if String.eqb msg "" then fallback else msg))) ->
  dispatch_contract m query fallback.
Proof.
  intros Hm Hout w. destruct (Hm w) as [variables ->].
  exists variables. unfold run_outcome. simpl.
  split; [reflexivity | ]. intros msg ->. apply Hout.
Qed.

Lemma refines_never_raises {A : Type} (m : IO A) (query : string)
    (outcome : LinearResult.t -> result A) :
  tool_refines m query outcome ->
  (forall res, exists a, outcome res = Ok a) ->
  never_raises m.
Proof.
  intros Hm Hout w. destruct (Hm w) as [variables ->].
  unfold run_outcome. simpl. apply Hout.
Qed.

Lemma refines_raises_only_overflow {A : Type} (m : IO A) (query : string)
    (outcome : LinearResult.t -> result A) :
  tool_refines m query outcome ->
  (forall res e, outcome res = Raise e -> e = OverflowError) ->
  raises_only_overflow m.
Proof.
  intros Hm Hout w e. destruct (Hm w) as [variables ->].
  unfold run_outcome. simpl. apply Hout.
Qed.

Lemma parse_mappings_total {A : Type} (parse : dict -> result A)
    (nodes : list value) :
  (forall d, exists r, parse d = Ok r) ->
  exists rs, parse_mappings parse nodes = Ok rs.
Proof.
  intros Hp. induction nodes as [ | node rest [rs IH]]; [now exists [] | ].
  destruct node as [ | | | | | | d]; simpl; try (now exists rs).
  destruct (Hp d) as [r ->]. rewrite IH. simpl. eexists. reflexivity.
Qed.

Lemma entity_outcome_total {A : Type} (parse : dict -> result A)
    (fallback : string) (steps : list (string * string)) (res :
        LinearResult.t) :
  (forall d, exists r, parse d = Ok r) ->
  exists a, entity_outcome parse fallback steps res = Ok a.
Proof.
  intros Hp. unfold entity_outcome.
  destruct (LinearResult.success res); [ | eexists; reflexivity].
  destruct (LinearResult.data res); try (eexists; reflexivity).
  destruct (descend steps d) as [entity | diagnostic]; [ | eexists;
      reflexivity].
  destruct (Hp entity) as [r ->]. eexists. reflexivity.
Qed.

Lemma list_outcome_total {A : Type} (parse : dict -> result A)
    (fallback : string) (steps : list (string * string)) (res :
        LinearResult.t) :
  (forall d, exists r, parse d = Ok r) ->
  exists a, list_outcome parse fallback steps res = Ok a.
Proof.
  intros Hp. unfold list_outcome.
  destruct (LinearResult.success res); [ | eexists; reflexivity].
  destruct (LinearResult.data res); try (eexists; reflexivity).
  destruct (descend steps d) as [container | diagnostic]; [ | eexists;
      reflexivity].
  destruct (lookup container "nodes") as [[ | | | | | nodes | ] | ];
    try (eexists; reflexivity).
  destruct (parse_mappings_total parse nodes Hp) as [rs ->]. eexists.
      reflexivity.
Qed.

Lemma mutation_outcome_total {A : Type} (parse : dict -> result A)
    (fallback payload_key rejected entity_key missing : string)
    (res : LinearResult.t) :
  (forall d, exists r, parse d = Ok r) ->
  exists a,
    mutation_outcome parse fallback payload_key rejected entity_key missing res
      = Ok a.
Proof.
  intros Hp. unfold mutation_outcome.
  destruct (LinearResult.success res); [ | eexists; reflexivity].
  destruct (LinearResult.data res); try (eexists; reflexivity).
  destruct (lookup d payload_key) as [[ | | | | | | payload] | ];
    try (eexists; reflexivity).
  destruct (lookup payload "success") as [flag | ]; [ | eexists; reflexivity].
  destruct (truthy flag); [ | eexists; reflexivity].
  destruct (lookup payload entity_key) as [[ | | | | | | entity] | ];
    try (eexists; reflexivity).
  destruct (Hp entity) as [r ->]. eexists. reflexivity.
Qed.

Lemma entity_outcome_raises {A : Type} (parse : dict -> result A)
    (fallback : string) (steps : list (string * string))
    (res : LinearResult.t) (e : exn) :
  (forall d e', parse d = Raise e' -> e' = OverflowError) ->
  entity_outcome parse fallback steps res = Raise e -> e = OverflowError.
Proof.
  intros Hp. unfold entity_outcome.
  destruct (LinearResult.success res); [ | discriminate].
  destruct (LinearResult.data res); try discriminate.
  destruct (descend steps d) as [entity | diagnostic]; [ | discriminate].
  destruct (parse entity) as [r | e'] eqn:E; simpl; [discriminate | ].
  intros [= <-]. now apply (Hp entity).
Qed.

Lemma list_outcome_raises {A : Type} (parse : dict -> result A)
    (fallback : string) (steps : list (string * string))
    (res : LinearResult.t) (e : exn) :
  (forall d e', parse d = Raise e' -> e' = OverflowError) ->
  list_outcome parse fallback steps res = Raise e -> e = OverflowError.
Proof.
  intros Hp. unfold list_outcome.
  destruct (LinearResult.success res); [ | discriminate].
  destruct (LinearResult.data res); try discriminate.
  destruct (descend steps d) as [container | diagnostic]; [ | discriminate].
  destruct (lookup container "nodes") as [[ | | | | | nodes | ] | ];
    try discriminate.
  destruct (parse_mappings parse nodes) as [rs | e'] eqn:E; simpl;
    [discriminate | ].
  intros [= <-]. destruct (parse_mappings_raises parse nodes e' E) as (d' & _
      & Hd').
  now apply (Hp d').
Qed.

Lemma mutation_outcome_raises {A : Type} (parse : dict -> result A)
    (fallback payload_key rejected entity_key missing : string)
    (res : LinearResult.t) (e : exn) :
  (forall d e', parse d = Raise e' -> e' = OverflowError) ->
  mutation_outcome parse fallback payload_key rejected entity_key missing res
    = Raise e ->
  e = OverflowError.
Proof.
  intros Hp. unfold mutation_outcome.
  destruct (LinearResult.success res); [ | discriminate].
  destruct (LinearResult.data res); try discriminate.
  destruct (lookup d payload_key) as [[ | | | | | | payload] | ];
    try discriminate.
  destruct (lookup payload "success") as [flag | ]; [ | discriminate].
  destruct (truthy flag); [ | discriminate].
  destruct (lookup payload entity_key) as [[ | | | | | | entity] | ];
    try discriminate.
  destruct (parse entity) as [r | e'] eqn:E; simpl; [discriminate | ].
  intros [= <-]. now apply (Hp entity).
Qed.

Lemma issues_parse_issue_raises (raw : dict) (e : exn) :
  Issues._parse_issue raw = Raise e -> e = OverflowError.
Proof.
  unfold Issues._parse_issue.
  destruct (_int (get raw "priority") 0) as [p | e'] eqn:E; simpl;
    [discriminate | ].
  intros [= <-]. now apply int_coercion_raises_only_on_infinity in E.
Qed.

Lemma compound_parse_issue_raises (raw : dict) (e : exn) :
  Compound._parse_issue raw = Raise e -> e = OverflowError.
Proof. apply issues_parse_issue_raises. Qed.

Lemma search_parse_issue_raises (raw : dict) (e : exn) :
  Search._parse_search_issue raw = Raise e -> e = OverflowError.
Proof.
  unfold Search._parse_search_issue.
  destruct (_int (get raw "priority") 0) as [p | e'] eqn:E; simpl;
    [discriminate | ].
  intros [= <-]. now apply int_coercion_raises_only_on_infinity in E.
Qed.

Lemma teams_parse_state_raises (raw : dict) (e : exn) :
  Teams._parse_state raw = Raise e -> e = OverflowError.
Proof.
  unfold Teams._parse_state.
  destruct (_float (get raw "position") float_zero) as [p | e'] eqn:E; simpl;
    [discriminate | ].
  intros [= <-]. now apply float_coercion_raises_only_on_large_int in E.
Qed.

Lemma projects_parse_project_raises (raw : dict) (e : exn) :
  Projects._parse_project raw = Raise e -> e = OverflowError.
Proof.
  unfold Projects._parse_project.
  destruct (_float (get raw "progress") float_zero) as [p | e'] eqn:E; simpl;
    [discriminate | ].
  intros [= <-]. now apply float_coercion_raises_only_on_large_int in E.
Qed.

Lemma cycles_parse_cycle_raises (raw : dict) (e : exn) :
  Cycles._parse_cycle raw = Raise e -> e = OverflowError.
Proof.
  unfold Cycles._parse_cycle.
  destruct (_int (get raw "number") 0) as [n | e'] eqn:En; simpl.
  - destruct (_float (get raw "progress") float_zero) as [p | e'] eqn:Ep;
      simpl; [discriminate | ].
    intros [= <-]. now apply float_coercion_raises_only_on_large_int in Ep.
  - intros [= <-]. now apply int_coercion_raises_only_on_infinity in En.
Qed.

Lemma refines_guards_nodes {A : Type} (m : IO (reply (list A)))
    (query fallback : string) (parse : dict -> result A)
    (steps : list (string * string)) :
  tool_refines m query (list_outcome parse fallback steps) ->
  guards_nodes m steps.
Proof.
  intros Hm data container Hd.
  destruct (Hm (answering (data_body data))) as [variables ->].
  unfold run_outcome, list_outcome. cbn [fst].
  change (graphql_result _) with (LinearResult.mk true (VDict data) None).
  cbn [LinearResult.success LinearResult.data]. rewrite Hd. split.
  - now intros ->.
  - intros v -> Hv. now destruct v.
Qed.

Lemma refines_declares_failure {A : Type} (m : IO (reply A))
    (query fallback payload_key rejected entity_key missing : string)
    (parse : dict -> result A) :
  tool_refines m query
    (mutation_outcome parse fallback payload_key rejected entity_key missing) ->
  declares_failure m payload_key rejected entity_key missing.
Proof.
  intros Hm w. destruct (Hm w) as [variables ->].
  eexists. split; [reflexivity | ].
  unfold run_outcome. cbn [fst]. intros data ->.
  unfold mutation_outcome, get, get_or.
  cbn [LinearResult.success LinearResult.data]. split.
  - intros Hrej.
    destruct (lookup data payload_key) as [[ | | | | | | payload] | ];
      try reflexivity.
    simpl in Hrej. unfold get, get_or in Hrej.
    destruct (lookup payload "success") as [flag | ]; [ | reflexivity].
    destruct (truthy flag); [discriminate | reflexivity].
  - intros payload Hp Hs He.
    destruct (lookup data payload_key) as [v | ]; [ | discriminate].
    subst v. destruct (lookup payload "success") as [flag | ];
      [ | discriminate].
    rewrite Hs.
    destruct (lookup payload entity_key) as [[ | | | | | | entity] | ];
      try reflexivity.
    discriminate.
Qed.
End OutcomeFacts.

(** ** Every tool against its ladder *)

Section GuardedUpdates.
Context {T : PyText}.

Lemma linear_update_issue_no_fields (issue_id : string)
    (title description state_id assignee_id : option string)
    (priority : option Z) (label_ids : option (list string))
    (cycle_id project_id : option string) (estimate : option Z) (w : World) :
  no_update_fields title description state_id assignee_id priority label_ids
    cycle_id project_id estimate = true ->
  Issues.linear_update_issue issue_id title description state_id assignee_id
    priority label_ids cycle_id project_id estimate w
    = (Ok (Text "No fields to update"), w).
Proof.
  intros H. unfold Issues.linear_update_issue.
  now rewrite update_input_truthy, H.
Qed.

Lemma linear_update_project_no_fields (project_id : string)
    (name description state target_date : option string) (w : World) :
  is_none name && is_none description && is_none state &&
    is_none target_date = true ->
  Projects.linear_update_project project_id name description state
    target_date w = (Ok (Text "No fields to update"), w).
Proof.
  intros H. unfold Projects.linear_update_project.
  now rewrite update_project_input_truthy, H.
Qed.
End GuardedUpdates.

Ltac literal_steps :=
  repeat (apply Forall_cons; [simpl; discriminate | ]); apply Forall_nil.

(** X8.  Each tool that fetches one entity makes exactly one dispatch of
    its own query and then follows the single-entity ladder with its own
    table: a failed dispatch gives the error text or the tool's fallback,
    data that is not a mapping gives "Unexpected response", a step whose
    value is not a mapping gives that step's diagnostic, and otherwise the
    entity is parsed. *)
Theorem entity_tools_follow_ladder {T : PyText} :
  (forall (issue_id : string),
     tool_refines (Issues.linear_get_issue issue_id) Issues.get_issue_query
       (entity_outcome Issues._parse_issue "Failed to fetch issue"
          [("issue", "Issue not found")])) /\
  (forall (issue_id : string),
     tool_refines (Compound.linear_issue_context issue_id)
         Compound.context_query
       (entity_outcome Compound.parse_context "Failed to fetch issue context"
          [("issue", "Issue not found")])) /\
  (forall (team_id : string),
     tool_refines (Teams.linear_get_team team_id) Teams.get_team_query
       (entity_outcome Teams._parse_team "Failed to fetch team"
          [("team", "Team not found")])) /\
  (tool_refines (Users.linear_whoami) Users.whoami_query
       (entity_outcome Users._parse_user "Failed to fetch viewer"
          [("viewer", "Viewer not found")])) /\
  (forall (cycle_id : string),
     tool_refines (Cycles.linear_get_cycle cycle_id) Cycles.get_cycle_query
       (entity_outcome Cycles._parse_cycle "Failed to fetch cycle"
          [("cycle", "Cycle not found")])) /\
  (forall (team_id : string),
     tool_refines (Cycles.linear_active_cycle team_id) Cycles.active_cycle_query
       (entity_outcome Cycles._parse_cycle "Failed to fetch active cycle"
          [("team", "Team not found"); ("activeCycle", "No active cycle")])) /\
  (forall (project_id : string),
     tool_refines (Projects.linear_get_project project_id)
         Projects.get_project_query
       (entity_outcome Projects._parse_project "Failed to fetch project"
          [("project", "Project not found")])) /\
  (forall (attachment_id : string),
     tool_refines (Attachments.linear_get_attachment attachment_id)
         Attachments.get_attachment_query
       (entity_outcome Attachments._parse_attachment
           "Failed to fetch attachment"
          [("attachment", "Attachment not found")])).
Proof.
  split.
  { intros issue_id. apply linear_get_issue_outcome. }
  split.
  { intros issue_id. apply linear_issue_context_outcome. }
  split.
  { intros team_id. apply linear_get_team_outcome. }
  split.
  { apply linear_whoami_outcome. }
  split.
  { intros cycle_id. apply linear_get_cycle_outcome. }
  split.
  { intros team_id. apply linear_active_cycle_outcome. }
  split.
  { intros project_id. apply linear_get_project_outcome. }
  { intros attachment_id. apply linear_get_attachment_outcome. }
Qed.

(** X9.  Each list tool makes exactly one dispatch of its own query and
    then follows the list ladder with its own table: after the steps to
    the container, an absent [nodes] gives the empty list, a [nodes] that
    is not a list gives "Unexpected nodes format", and a list gives the
    parses of its mapping-shaped nodes.  [linear_list_labels] picks the
    team query and table when its team id is a non-empty text, the
    workspace ones otherwise. *)
Theorem list_tools_follow_ladder {T : PyText} :
  (forall (filter : option dict) (first : Z) (after : option string)
       (order_by : string) (include_archived : bool),
     tool_refines (Issues.linear_list_issues filter first after order_by
         include_archived) Issues.list_issues_query
       (list_outcome Issues._parse_issue "Failed to list issues"
          [("issues", "No issues data")])) /\
  (forall (first : Z) (after : option string) (include_archived : bool),
     tool_refines (Compound.linear_my_issues first after include_archived)
         Compound.my_issues_query
       (list_outcome Compound._parse_issue "Failed to fetch assigned issues"
          [("viewer", "Viewer not found"); ("assignedIssues",
              "No assigned issues data")])) /\
  (forall (query : string) (first : Z) (after : option string)
       (include_archived : bool),
     tool_refines (Search.linear_search_issues query first after
         include_archived) Search.search_issues_query
       (list_outcome Search._parse_search_issue "Failed to search issues"
          [("issueSearch", "No search results")])) /\
  (forall (issue_id : string) (first : Z) (after : option string),
     tool_refines (Comments.linear_list_comments issue_id first after)
         Comments.list_comments_query
       (list_outcome Comments._parse_comment "Failed to list comments"
          [("issue", "Issue not found"); ("comments", "No comments data")])) /\
  (forall (first : Z) (after : option string),
     tool_refines (Teams.linear_list_teams first after) Teams.list_teams_query
       (list_outcome Teams._parse_team "Failed to list teams"
          [("teams", "No teams data")])) /\
  (forall (team_id : string),
     tool_refines (Teams.linear_list_team_states team_id)
         Teams.list_team_states_query
       (list_outcome Teams._parse_state "Failed to fetch team states"
          [("team", "Team not found"); ("states", "No states data")])) /\
  (forall (first : Z) (after : option string) (include_archived : bool),
     tool_refines (Users.linear_list_users first after include_archived)
         Users.list_users_query
       (list_outcome Users._parse_user "Failed to list users"
          [("users", "No users data")])) /\
  (forall (team_id : string) (first : Z) (after : option string)
       (include_archived : bool),
     tool_refines (Cycles.linear_list_cycles team_id first after
         include_archived) Cycles.list_cycles_query
       (list_outcome Cycles._parse_cycle "Failed to list cycles"
          [("team", "Team not found"); ("cycles", "No cycles data")])) /\
  (forall (filter : option dict) (first : Z) (after : option string)
       (include_archived : bool),
     tool_refines (Projects.linear_list_projects filter first after
         include_archived) Projects.list_projects_query
       (list_outcome Projects._parse_project "Failed to list projects"
          [("projects", "No projects data")])) /\
  (forall (url : string),
     tool_refines (Attachments.linear_get_attachment_by_url url)
         Attachments.get_attachment_by_url_query
       (list_outcome Attachments._parse_attachment "Failed to fetch attachments"
          [("attachmentsForURL", "No attachment data")])) /\
  (forall (team_id : option string) (first : Z) (after : option string),
     tool_refines (Labels.linear_list_labels team_id first after)
       (if truthy (text_value team_id)
        then Labels.team_labels_query else Labels.labels_query)
       (list_outcome Labels._parse_label "Failed to list labels"
          (if truthy (text_value team_id)
           then [("team", "Team not found"); ("labels", "No labels data")]
           else [("issueLabels", "No labels data")]))).
Proof.
  split.
  { intros filter first after order_by include_archived. apply
      linear_list_issues_outcome. }
  split.
  { intros first after include_archived. apply linear_my_issues_outcome. }
  split.
  { intros query first after include_archived. apply
      linear_search_issues_outcome. }
  split.
  { intros issue_id first after. apply linear_list_comments_outcome. }
  split.
  { intros first after. apply linear_list_teams_outcome. }
  split.
  { intros team_id. apply linear_list_team_states_outcome. }
  split.
  { intros first after include_archived. apply linear_list_users_outcome. }
  split.
  { intros team_id first after include_archived. apply
      linear_list_cycles_outcome. }
  split.
  { intros filter first after include_archived. apply
      linear_list_projects_outcome. }
  split.
  { intros url. apply linear_get_attachment_by_url_outcome. }
  { intros team_id first after. apply linear_list_labels_outcome. }
Qed.

(** X10.  Each mutation tool makes exactly one dispatch of its own
    mutation and then follows the mutation ladder with its own table: the
    payload must be a mapping whose [success] is truthy, else the
    tool's "... failed" text; the entity in it must be a mapping, else
    "No ... in response"; otherwise the entity is parsed.  The two
    guarded updates do so whenever at least one field is given. *)
Theorem mutation_tools_follow_ladder {T : PyText} :
  (forall (team_id title : string)
       (description assignee_id state_id : option string) (priority : option Z)
       (label_ids : option (list string)) (cycle_id project_id : option string)
       (estimate : option Z) (create_as_user display_icon_url : option string),
     tool_refines (Issues.linear_create_issue team_id title description
         assignee_id state_id priority label_ids
      cycle_id project_id estimate create_as_user display_icon_url)
          Issues.create_query
       (mutation_outcome Issues._parse_issue "Failed to create issue"
          "issueCreate" "Issue creation failed" "issue"
              "No issue in response")) /\
  (forall (issue_id body : string)
       (create_as_user display_icon_url : option string),
     tool_refines (Comments.linear_create_comment issue_id body create_as_user
         display_icon_url) Comments.create_comment_query
       (mutation_outcome Comments._parse_comment "Failed to create comment"
          "commentCreate" "Comment creation failed" "comment"
              "No comment in response")) /\
  (forall (name : string) (team_id color : option string),
     tool_refines (Labels.linear_create_label name team_id color)
         Labels.create_label_query
       (mutation_outcome Labels._parse_label "Failed to create label"
          "issueLabelCreate" "Label creation failed" "issueLabel"
              "No label in response")) /\
  (forall (name : string) (team_ids : option (list string))
       (description state target_date : option string),
     tool_refines (Projects.linear_create_project name team_ids description
         state target_date) Projects.create_project_query
       (mutation_outcome Projects._parse_project "Failed to create project"
          "projectCreate" "Project creation failed" "project"
              "No project in response")) /\
  (forall (issue_id url : string) (title subtitle icon_url : option string)
       (metadata : option dict) (create_as_user display_icon_url : option
           string),
     tool_refines (Attachments.linear_create_attachment issue_id url title
         subtitle icon_url metadata create_as_user
      display_icon_url) Attachments.create_attachment_query
       (mutation_outcome Attachments._parse_attachment
           "Failed to create attachment"
          "attachmentCreate" "Attachment creation failed" "attachment"
              "No attachment in response")) /\
  (forall (attachment_id : string) (title subtitle : option string)
       (metadata : option dict),
     tool_refines (Attachments.linear_update_attachment attachment_id title
         subtitle metadata) Attachments.update_attachment_query
       (mutation_outcome Attachments._parse_attachment
           "Failed to update attachment"
          "attachmentUpdate" "Attachment update failed" "attachment"
              "No attachment in response")) /\
  (forall (issue_id : string)
       (title description state_id assignee_id : option string)
       (priority : option Z) (label_ids : option (list string))
       (cycle_id project_id : option string) (estimate : option Z),
     no_update_fields title description state_id assignee_id priority label_ids
       cycle_id project_id estimate = false ->
     tool_refines (Issues.linear_update_issue issue_id title description
         state_id assignee_id priority label_ids
      cycle_id project_id estimate) Issues.update_query
       (mutation_outcome Issues._parse_issue "Failed to update issue"
          "issueUpdate" "Issue update failed" "issue" "No issue in response"))
              /\
  (forall (project_id : string)
       (name description state target_date : option string),
     is_none name && is_none description && is_none state &&
       is_none target_date = false ->
     tool_refines (Projects.linear_update_project project_id name description
         state target_date) Projects.update_project_query
       (mutation_outcome Projects._parse_project "Failed to update project"
          "projectUpdate" "Project update failed" "project"
              "No project in response")).
Proof.
  split.
  { intros team_id title description assignee_id state_id priority label_ids
      cycle_id project_id estimate create_as_user display_icon_url. apply
      linear_create_issue_outcome. }
  split.
  { intros issue_id body create_as_user display_icon_url. apply
      linear_create_comment_outcome. }
  split.
  { intros name team_id color. apply linear_create_label_outcome. }
  split.
  { intros name team_ids description state target_date. apply
      linear_create_project_outcome. }
  split.
  { intros issue_id url title subtitle icon_url metadata create_as_user
      display_icon_url. apply linear_create_attachment_outcome. }
  split.
  { intros attachment_id title subtitle metadata. apply
      linear_update_attachment_outcome. }
  split.
  { intros issue_id title description state_id assignee_id priority label_ids
      cycle_id project_id estimate H. now apply linear_update_issue_outcome. }
  { intros project_id name description state target_date H. now apply
      linear_update_project_outcome. }
Qed.

(** X11.  No tool ever answers with an empty diagnostic: although
    [graphql] can return an empty error text, every tool replaces it by
    its own fallback, and every fixed diagnostic is a non-empty text. *)
Theorem tools_never_answer_empty_text {T : PyText} :
  (forall (issue_id : string),
     diagnostics_nonempty (Issues.linear_get_issue issue_id)) /\
  (forall (issue_id : string),
     diagnostics_nonempty (Compound.linear_issue_context issue_id)) /\
  (forall (team_id : string),
     diagnostics_nonempty (Teams.linear_get_team team_id)) /\
  (diagnostics_nonempty (Users.linear_whoami)) /\
  (forall (cycle_id : string),
     diagnostics_nonempty (Cycles.linear_get_cycle cycle_id)) /\
  (forall (team_id : string),
     diagnostics_nonempty (Cycles.linear_active_cycle team_id)) /\
  (forall (project_id : string),
     diagnostics_nonempty (Projects.linear_get_project project_id)) /\
  (forall (attachment_id : string),
     diagnostics_nonempty (Attachments.linear_get_attachment attachment_id)) /\
  (forall (filter : option dict) (first : Z) (after : option string)
       (order_by : string) (include_archived : bool),
     diagnostics_nonempty (Issues.linear_list_issues filter first after
         order_by include_archived)) /\
  (forall (first : Z) (after : option string) (include_archived : bool),
     diagnostics_nonempty (Compound.linear_my_issues first after
         include_archived)) /\
  (forall (query : string) (first : Z) (after : option string)
       (include_archived : bool),
     diagnostics_nonempty (Search.linear_search_issues query first after
         include_archived)) /\
  (forall (issue_id : string) (first : Z) (after : option string),
     diagnostics_nonempty (Comments.linear_list_comments issue_id first
         after)) /\
  (forall (first : Z) (after : option string),
     diagnostics_nonempty (Teams.linear_list_teams first after)) /\
  (forall (team_id : string),
     diagnostics_nonempty (Teams.linear_list_team_states team_id)) /\
  (forall (first : Z) (after : option string) (include_archived : bool),
     diagnostics_nonempty (Users.linear_list_users first after
         include_archived)) /\
  (forall (team_id : string) (first : Z) (after : option string)
       (include_archived : bool),
     diagnostics_nonempty (Cycles.linear_list_cycles team_id first after
         include_archived)) /\
  (forall (filter : option dict) (first : Z) (after : option string)
       (include_archived : bool),
     diagnostics_nonempty (Projects.linear_list_projects filter first after
         include_archived)) /\
  (forall (url : string),
     diagnostics_nonempty (Attachments.linear_get_attachment_by_url url)) /\
  (forall (team_id title : string)
       (description assignee_id state_id : option string) (priority : option Z)
       (label_ids : option (list string)) (cycle_id project_id : option string)
       (estimate : option Z) (create_as_user display_icon_url : option string),
     diagnostics_nonempty (Issues.linear_create_issue team_id title
         description assignee_id state_id priority label_ids
      cycle_id project_id estimate create_as_user display_icon_url)) /\
  (forall (issue_id body : string)
       (create_as_user display_icon_url : option string),
     diagnostics_nonempty (Comments.linear_create_comment issue_id body
         create_as_user display_icon_url)) /\
  (forall (name : string) (team_id color : option string),
     diagnostics_nonempty (Labels.linear_create_label name team_id color)) /\
  (forall (name : string) (team_ids : option (list string))
       (description state target_date : option string),
     diagnostics_nonempty (Projects.linear_create_project name team_ids
         description state target_date)) /\
  (forall (issue_id url : string) (title subtitle icon_url : option string)
       (metadata : option dict) (create_as_user display_icon_url : option
           string),
     diagnostics_nonempty (Attachments.linear_create_attachment issue_id url
         title subtitle icon_url metadata create_as_user
      display_icon_url)) /\
  (forall (attachment_id : string) (title subtitle : option string)
       (metadata : option dict),
     diagnostics_nonempty (Attachments.linear_update_attachment attachment_id
         title subtitle metadata)) /\
  (forall (team_id : option string) (first : Z) (after : option string),
     diagnostics_nonempty (Labels.linear_list_labels team_id first after)) /\
  (forall (issue_id : string)
       (title description state_id assignee_id : option string)
       (priority : option Z) (label_ids : option (list string))
       (cycle_id project_id : option string) (estimate : option Z),
     diagnostics_nonempty (Issues.linear_update_issue issue_id title
         description state_id assignee_id priority label_ids
      cycle_id project_id estimate)) /\
  (forall (project_id : string)
       (name description state target_date : option string),
     diagnostics_nonempty (Projects.linear_update_project project_id name
         description state target_date)).
Proof.
  split.
  { intros issue_id. eapply refines_diagnostics; [apply
      linear_get_issue_outcome | intros res text; apply entity_outcome_text;
      [discriminate | literal_steps]]. }
  split.
  { intros issue_id. eapply refines_diagnostics; [apply
      linear_issue_context_outcome | intros res text; apply
      entity_outcome_text; [discriminate | literal_steps]]. }
  split.
  { intros team_id. eapply refines_diagnostics; [apply linear_get_team_outcome
      | intros res text; apply entity_outcome_text; [discriminate |
      literal_steps]]. }
  split.
  { eapply refines_diagnostics; [apply linear_whoami_outcome | intros res
      text; apply entity_outcome_text; [discriminate | literal_steps]]. }
  split.
  { intros cycle_id. eapply refines_diagnostics; [apply
      linear_get_cycle_outcome | intros res text; apply entity_outcome_text;
      [discriminate | literal_steps]]. }
  split.
  { intros team_id. eapply refines_diagnostics; [apply
      linear_active_cycle_outcome | intros res text; apply
      entity_outcome_text; [discriminate | literal_steps]]. }
  split.
  { intros project_id. eapply refines_diagnostics; [apply
      linear_get_project_outcome | intros res text; apply entity_outcome_text;
      [discriminate | literal_steps]]. }
  split.
  { intros attachment_id. eapply refines_diagnostics; [apply
      linear_get_attachment_outcome | intros res text; apply
      entity_outcome_text; [discriminate | literal_steps]]. }
  split.
  { intros filter first after order_by include_archived. eapply
      refines_diagnostics; [apply linear_list_issues_outcome | intros res
      text; apply list_outcome_text; [discriminate | literal_steps]]. }
  split.
  { intros first after include_archived. eapply refines_diagnostics; [apply
      linear_my_issues_outcome | intros res text; apply list_outcome_text;
      [discriminate | literal_steps]]. }
  split.
  { intros query first after include_archived. eapply refines_diagnostics;
      [apply linear_search_issues_outcome | intros res text; apply
      list_outcome_text; [discriminate | literal_steps]]. }
  split.
  { intros issue_id first after. eapply refines_diagnostics; [apply
      linear_list_comments_outcome | intros res text; apply list_outcome_text;
      [discriminate | literal_steps]]. }
  split.
  { intros first after. eapply refines_diagnostics; [apply
      linear_list_teams_outcome | intros res text; apply list_outcome_text;
      [discriminate | literal_steps]]. }
  split.
  { intros team_id. eapply refines_diagnostics; [apply
      linear_list_team_states_outcome | intros res text; apply
      list_outcome_text; [discriminate | literal_steps]]. }
  split.
  { intros first after include_archived. eapply refines_diagnostics; [apply
      linear_list_users_outcome | intros res text; apply list_outcome_text;
      [discriminate | literal_steps]]. }
  split.
  { intros team_id first after include_archived. eapply refines_diagnostics;
      [apply linear_list_cycles_outcome | intros res text; apply
      list_outcome_text; [discriminate | literal_steps]]. }
  split.
  { intros filter first after include_archived. eapply refines_diagnostics;
      [apply linear_list_projects_outcome | intros res text; apply
      list_outcome_text; [discriminate | literal_steps]]. }
  split.
  { intros url. eapply refines_diagnostics; [apply
      linear_get_attachment_by_url_outcome | intros res text; apply
      list_outcome_text; [discriminate | literal_steps]]. }
  split.
  { intros team_id title description assignee_id state_id priority label_ids
      cycle_id project_id estimate create_as_user display_icon_url. eapply
      refines_diagnostics; [apply linear_create_issue_outcome | intros res
      text; apply mutation_outcome_text; discriminate]. }
  split.
  { intros issue_id body create_as_user display_icon_url. eapply
      refines_diagnostics; [apply linear_create_comment_outcome | intros res
      text; apply mutation_outcome_text; discriminate]. }
  split.
  { intros name team_id color. eapply refines_diagnostics; [apply
      linear_create_label_outcome | intros res text; apply
      mutation_outcome_text; discriminate]. }
  split.
  { intros name team_ids description state target_date. eapply
      refines_diagnostics; [apply linear_create_project_outcome | intros res
      text; apply mutation_outcome_text; discriminate]. }
  split.
  { intros issue_id url title subtitle icon_url metadata create_as_user
      display_icon_url. eapply refines_diagnostics; [apply
      linear_create_attachment_outcome | intros res text; apply
      mutation_outcome_text; discriminate]. }
  split.
  { intros attachment_id title subtitle metadata. eapply refines_diagnostics;
      [apply linear_update_attachment_outcome | intros res text; apply
      mutation_outcome_text; discriminate]. }
  split.
  { intros team_id first after.
    pose proof (linear_list_labels_outcome team_id first after) as H.
    destruct (truthy (text_value team_id));
      (eapply refines_diagnostics; [exact H | intros res text;
         apply list_outcome_text; [discriminate | literal_steps]]). }
  split.
  { intros issue_id title description state_id assignee_id priority label_ids
      cycle_id project_id estimate.
    destruct (no_update_fields title description state_id assignee_id priority
        label_ids cycle_id project_id estimate) eqn:H.
    - intros w text. rewrite linear_update_issue_no_fields by exact H. simpl.
      intros [= <-]. discriminate.
    - eapply refines_diagnostics; [now apply linear_update_issue_outcome |
        intros res text;
        apply mutation_outcome_text; discriminate]. }
  { intros project_id name description state target_date.
    destruct (is_none name && is_none description && is_none state && is_none
        target_date) eqn:H.
    - intros w text. rewrite linear_update_project_no_fields by exact H. simpl.
      intros [= <-]. discriminate.
    - eapply refines_diagnostics; [now apply linear_update_project_outcome |
        intros res text;
        apply mutation_outcome_text; discriminate]. }
Qed.

(** X12.  Every tool hands exactly one request to the transport, built
    from its own query and without TTL header (the guarded updates: when
    a field is given); and when that dispatch fails, the tool answers the
    error text verbatim, or its own fallback when the text is empty. *)
Theorem tools_dispatch_once_and_relay_failure {T : PyText} :
  (forall (issue_id : string),
     dispatch_contract (Issues.linear_get_issue issue_id)
       Issues.get_issue_query "Failed to fetch issue") /\
  (forall (issue_id : string),
     dispatch_contract (Compound.linear_issue_context issue_id)
       Compound.context_query "Failed to fetch issue context") /\
  (forall (team_id : string),
     dispatch_contract (Teams.linear_get_team team_id)
       Teams.get_team_query "Failed to fetch team") /\
  (dispatch_contract (Users.linear_whoami)
       Users.whoami_query "Failed to fetch viewer") /\
  (forall (cycle_id : string),
     dispatch_contract (Cycles.linear_get_cycle cycle_id)
       Cycles.get_cycle_query "Failed to fetch cycle") /\
  (forall (team_id : string),
     dispatch_contract (Cycles.linear_active_cycle team_id)
       Cycles.active_cycle_query "Failed to fetch active cycle") /\
  (forall (project_id : string),
     dispatch_contract (Projects.linear_get_project project_id)
       Projects.get_project_query "Failed to fetch project") /\
  (forall (attachment_id : string),
     dispatch_contract (Attachments.linear_get_attachment attachment_id)
       Attachments.get_attachment_query "Failed to fetch attachment") /\
  (forall (filter : option dict) (first : Z) (after : option string)
       (order_by : string) (include_archived : bool),
     dispatch_contract (Issues.linear_list_issues filter first after order_by
         include_archived)
       Issues.list_issues_query "Failed to list issues") /\
  (forall (first : Z) (after : option string) (include_archived : bool),
     dispatch_contract (Compound.linear_my_issues first after include_archived)
       Compound.my_issues_query "Failed to fetch assigned issues") /\
  (forall (query : string) (first : Z) (after : option string)
       (include_archived : bool),
     dispatch_contract (Search.linear_search_issues query first after
         include_archived)
       Search.search_issues_query "Failed to search issues") /\
  (forall (issue_id : string) (first : Z) (after : option string),
     dispatch_contract (Comments.linear_list_comments issue_id first after)
       Comments.list_comments_query "Failed to list comments") /\
  (forall (first : Z) (after : option string),
     dispatch_contract (Teams.linear_list_teams first after)
       Teams.list_teams_query "Failed to list teams") /\
  (forall (team_id : string),
     dispatch_contract (Teams.linear_list_team_states team_id)
       Teams.list_team_states_query "Failed to fetch team states") /\
  (forall (first : Z) (after : option string) (include_archived : bool),
     dispatch_contract (Users.linear_list_users first after include_archived)
       Users.list_users_query "Failed to list users") /\
  (forall (team_id : string) (first : Z) (after : option string)
       (include_archived : bool),
     dispatch_contract (Cycles.linear_list_cycles team_id first after
         include_archived)
       Cycles.list_cycles_query "Failed to list cycles") /\
  (forall (filter : option dict) (first : Z) (after : option string)
       (include_archived : bool),
     dispatch_contract (Projects.linear_list_projects filter first after
         include_archived)
       Projects.list_projects_query "Failed to list projects") /\
  (forall (url : string),
     dispatch_contract (Attachments.linear_get_attachment_by_url url)
       Attachments.get_attachment_by_url_query "Failed to fetch attachments") /\
  (forall (team_id title : string)
       (description assignee_id state_id : option string) (priority : option Z)
       (label_ids : option (list string)) (cycle_id project_id : option string)
       (estimate : option Z) (create_as_user display_icon_url : option string),
     dispatch_contract (Issues.linear_create_issue team_id title description
         assignee_id state_id priority label_ids
      cycle_id project_id estimate create_as_user display_icon_url)
       Issues.create_query "Failed to create issue") /\
  (forall (issue_id body : string)
       (create_as_user display_icon_url : option string),
     dispatch_contract (Comments.linear_create_comment issue_id body
         create_as_user display_icon_url)
       Comments.create_comment_query "Failed to create comment") /\
  (forall (name : string) (team_id color : option string),
     dispatch_contract (Labels.linear_create_label name team_id color)
       Labels.create_label_query "Failed to create label") /\
  (forall (name : string) (team_ids : option (list string))
       (description state target_date : option string),
     dispatch_contract (Projects.linear_create_project name team_ids
         description state target_date)
       Projects.create_project_query "Failed to create project") /\
  (forall (issue_id url : string) (title subtitle icon_url : option string)
       (metadata : option dict) (create_as_user display_icon_url : option
           string),
     dispatch_contract (Attachments.linear_create_attachment issue_id url
         title subtitle icon_url metadata create_as_user
      display_icon_url)
       Attachments.create_attachment_query "Failed to create attachment") /\
  (forall (attachment_id : string) (title subtitle : option string)
       (metadata : option dict),
     dispatch_contract (Attachments.linear_update_attachment attachment_id
         title subtitle metadata)
       Attachments.update_attachment_query "Failed to update attachment") /\
  (forall (team_id : option string) (first : Z) (after : option string),
     dispatch_contract (Labels.linear_list_labels team_id first after)
       (if truthy (text_value team_id)
        then Labels.team_labels_query else Labels.labels_query)
       "Failed to list labels") /\
  (forall (issue_id : string)
       (title description state_id assignee_id : option string)
       (priority : option Z) (label_ids : option (list string))
       (cycle_id project_id : option string) (estimate : option Z),
     no_update_fields title description state_id assignee_id priority label_ids
       cycle_id project_id estimate = false ->
     dispatch_contract (Issues.linear_update_issue issue_id title description
         state_id assignee_id priority label_ids
      cycle_id project_id estimate)
       Issues.update_query "Failed to update issue") /\
  (forall (project_id : string)
       (name description state target_date : option string),
     is_none name && is_none description && is_none state &&
       is_none target_date = false ->
     dispatch_contract (Projects.linear_update_project project_id name
         description state target_date)
       Projects.update_project_query "Failed to update project").
Proof.
  split.
  { intros issue_id. eapply refines_contract; [apply linear_get_issue_outcome
      | intros msg; reflexivity]. }
  split.
  { intros issue_id. eapply refines_contract; [apply
      linear_issue_context_outcome | intros msg; reflexivity]. }
  split.
  { intros team_id. eapply refines_contract; [apply linear_get_team_outcome |
      intros msg; reflexivity]. }
  split.
  { eapply refines_contract; [apply linear_whoami_outcome | intros msg;
      reflexivity]. }
  split.
  { intros cycle_id. eapply refines_contract; [apply linear_get_cycle_outcome
      | intros msg; reflexivity]. }
  split.
  { intros team_id. eapply refines_contract; [apply
      linear_active_cycle_outcome | intros msg; reflexivity]. }
  split.
  { intros project_id. eapply refines_contract; [apply
      linear_get_project_outcome | intros msg; reflexivity]. }
  split.
  { intros attachment_id. eapply refines_contract; [apply
      linear_get_attachment_outcome | intros msg; reflexivity]. }
  split.
  { intros filter first after order_by include_archived. eapply
      refines_contract; [apply linear_list_issues_outcome | intros msg;
      reflexivity]. }
  split.
  { intros first after include_archived. eapply refines_contract; [apply
      linear_my_issues_outcome | intros msg; reflexivity]. }
  split.
  { intros query first after include_archived. eapply refines_contract; [apply
      linear_search_issues_outcome | intros msg; reflexivity]. }
  split.
  { intros issue_id first after. eapply refines_contract; [apply
      linear_list_comments_outcome | intros msg; reflexivity]. }
  split.
  { intros first after. eapply refines_contract; [apply
      linear_list_teams_outcome | intros msg; reflexivity]. }
  split.
  { intros team_id. eapply refines_contract; [apply
      linear_list_team_states_outcome | intros msg; reflexivity]. }
  split.
  { intros first after include_archived. eapply refines_contract; [apply
      linear_list_users_outcome | intros msg; reflexivity]. }
  split.
  { intros team_id first after include_archived. eapply refines_contract;
      [apply linear_list_cycles_outcome | intros msg; reflexivity]. }
  split.
  { intros filter first after include_archived. eapply refines_contract;
      [apply linear_list_projects_outcome | intros msg; reflexivity]. }
  split.
  { intros url. eapply refines_contract; [apply
      linear_get_attachment_by_url_outcome | intros msg; reflexivity]. }
  split.
  { intros team_id title description assignee_id state_id priority label_ids
      cycle_id project_id estimate create_as_user display_icon_url. eapply
      refines_contract; [apply linear_create_issue_outcome | intros msg;
      reflexivity]. }
  split.
  { intros issue_id body create_as_user display_icon_url. eapply
      refines_contract; [apply linear_create_comment_outcome | intros msg;
      reflexivity]. }
  split.
  { intros name team_id color. eapply refines_contract; [apply
      linear_create_label_outcome | intros msg; reflexivity]. }
  split.
  { intros name team_ids description state target_date. eapply
      refines_contract; [apply linear_create_project_outcome | intros msg;
      reflexivity]. }
  split.
  { intros issue_id url title subtitle icon_url metadata create_as_user
      display_icon_url. eapply refines_contract; [apply
      linear_create_attachment_outcome | intros msg; reflexivity]. }
  split.
  { intros attachment_id title subtitle metadata. eapply refines_contract;
      [apply linear_update_attachment_outcome | intros msg; reflexivity]. }
  split.
  { intros team_id first after.
    eapply refines_contract; [apply linear_list_labels_outcome | intros msg;
        reflexivity]. }
  split.
  { intros issue_id title description state_id assignee_id priority label_ids
      cycle_id project_id estimate H.
    eapply refines_contract; [now apply linear_update_issue_outcome | intros
        msg; reflexivity]. }
  { intros project_id name description state target_date H.
    eapply refines_contract; [now apply linear_update_project_outcome | intros
        msg; reflexivity]. }
Qed.

(** X13.  Every list tool checks that [nodes] is a list before iterating:
    on a successful response whose container is reached, an absent
    [nodes] gives the empty list and a [nodes] of any other shape (null,
    a number, a text, a mapping) gives "Unexpected nodes format"; none of
    them raises. *)
Theorem list_tools_guard_nodes {T : PyText} :
  (forall (filter : option dict) (first : Z) (after : option string)
       (order_by : string) (include_archived : bool),
     guards_nodes (Issues.linear_list_issues filter first after order_by
         include_archived)
       [("issues", "No issues data")]) /\
  (forall (first : Z) (after : option string) (include_archived : bool),
     guards_nodes (Compound.linear_my_issues first after include_archived)
       [("viewer", "Viewer not found"); ("assignedIssues",
           "No assigned issues data")]) /\
  (forall (query : string) (first : Z) (after : option string)
       (include_archived : bool),
     guards_nodes (Search.linear_search_issues query first after
         include_archived)
       [("issueSearch", "No search results")]) /\
  (forall (issue_id : string) (first : Z) (after : option string),
     guards_nodes (Comments.linear_list_comments issue_id first after)
       [("issue", "Issue not found"); ("comments", "No comments data")]) /\
  (forall (first : Z) (after : option string),
     guards_nodes (Teams.linear_list_teams first after)
       [("teams", "No teams data")]) /\
  (forall (team_id : string),
     guards_nodes (Teams.linear_list_team_states team_id)
       [("team", "Team not found"); ("states", "No states data")]) /\
  (forall (first : Z) (after : option string) (include_archived : bool),
     guards_nodes (Users.linear_list_users first after include_archived)
       [("users", "No users data")]) /\
  (forall (team_id : string) (first : Z) (after : option string)
       (include_archived : bool),
     guards_nodes (Cycles.linear_list_cycles team_id first after
         include_archived)
       [("team", "Team not found"); ("cycles", "No cycles data")]) /\
  (forall (filter : option dict) (first : Z) (after : option string)
       (include_archived : bool),
     guards_nodes (Projects.linear_list_projects filter first after
         include_archived)
       [("projects", "No projects data")]) /\
  (forall (url : string),
     guards_nodes (Attachments.linear_get_attachment_by_url url)
       [("attachmentsForURL", "No attachment data")]) /\
  (forall (team_id : option string) (first : Z) (after : option string),
     guards_nodes (Labels.linear_list_labels team_id first after)
       (if truthy (text_value team_id)
        then [("team", "Team not found"); ("labels", "No labels data")]
        else [("issueLabels", "No labels data")])).
Proof.
  split.
  { intros filter first after order_by include_archived. eapply
      refines_guards_nodes; apply linear_list_issues_outcome. }
  split.
  { intros first after include_archived. eapply refines_guards_nodes; apply
      linear_my_issues_outcome. }
  split.
  { intros query first after include_archived. eapply refines_guards_nodes;
      apply linear_search_issues_outcome. }
  split.
  { intros issue_id first after. eapply refines_guards_nodes; apply
      linear_list_comments_outcome. }
  split.
  { intros first after. eapply refines_guards_nodes; apply
      linear_list_teams_outcome. }
  split.
  { intros team_id. eapply refines_guards_nodes; apply
      linear_list_team_states_outcome. }
  split.
  { intros first after include_archived. eapply refines_guards_nodes; apply
      linear_list_users_outcome. }
  split.
  { intros team_id first after include_archived. eapply refines_guards_nodes;
      apply linear_list_cycles_outcome. }
  split.
  { intros filter first after include_archived. eapply refines_guards_nodes;
      apply linear_list_projects_outcome. }
  split.
  { intros url. eapply refines_guards_nodes; apply
      linear_get_attachment_by_url_outcome. }
  { intros team_id first after.
    eapply refines_guards_nodes; apply linear_list_labels_outcome. }
Qed.

(** X14.  Apart from [linear_issue_context], no tool ever raises
    [TypeError] or [ValueError]: the tools whose records hold only text
    (comments, teams, users, labels, attachments) never raise at all, and
    the tools whose records hold a number raise nothing but the
    [OverflowError] of a numeric coercion. *)
Theorem tools_raise_at_most_overflow {T : PyText} :
  (forall (issue_id : string),
     raises_only_overflow (Issues.linear_get_issue issue_id)) /\
  (forall (team_id : string),
     never_raises (Teams.linear_get_team team_id)) /\
  (never_raises (Users.linear_whoami)) /\
  (forall (cycle_id : string),
     raises_only_overflow (Cycles.linear_get_cycle cycle_id)) /\
  (forall (team_id : string),
     raises_only_overflow (Cycles.linear_active_cycle team_id)) /\
  (forall (project_id : string),
     raises_only_overflow (Projects.linear_get_project project_id)) /\
  (forall (attachment_id : string),
     never_raises (Attachments.linear_get_attachment attachment_id)) /\
  (forall (filter : option dict) (first : Z) (after : option string)
       (order_by : string) (include_archived : bool),
     raises_only_overflow (Issues.linear_list_issues filter first after
         order_by include_archived)) /\
  (forall (first : Z) (after : option string) (include_archived : bool),
     raises_only_overflow (Compound.linear_my_issues first after
         include_archived)) /\
  (forall (query : string) (first : Z) (after : option string)
       (include_archived : bool),
     raises_only_overflow (Search.linear_search_issues query first after
         include_archived)) /\
  (forall (issue_id : string) (first : Z) (after : option string),
     never_raises (Comments.linear_list_comments issue_id first after)) /\
  (forall (first : Z) (after : option string),
     never_raises (Teams.linear_list_teams first after)) /\
  (forall (team_id : string),
     raises_only_overflow (Teams.linear_list_team_states team_id)) /\
  (forall (first : Z) (after : option string) (include_archived : bool),
     never_raises (Users.linear_list_users first after include_archived)) /\
  (forall (team_id : string) (first : Z) (after : option string)
       (include_archived : bool),
     raises_only_overflow (Cycles.linear_list_cycles team_id first after
         include_archived)) /\
  (forall (filter : option dict) (first : Z) (after : option string)
       (include_archived : bool),
     raises_only_overflow (Projects.linear_list_projects filter first after
         include_archived)) /\
  (forall (url : string),
     never_raises (Attachments.linear_get_attachment_by_url url)) /\
  (forall (team_id title : string)
       (description assignee_id state_id : option string) (priority : option Z)
       (label_ids : option (list string)) (cycle_id project_id : option string)
       (estimate : option Z) (create_as_user display_icon_url : option string),
     raises_only_overflow (Issues.linear_create_issue team_id title
         description assignee_id state_id priority label_ids
      cycle_id project_id estimate create_as_user display_icon_url)) /\
  (forall (issue_id body : string)
       (create_as_user display_icon_url : option string),
     never_raises (Comments.linear_create_comment issue_id body create_as_user
         display_icon_url)) /\
  (forall (name : string) (team_id color : option string),
     never_raises (Labels.linear_create_label name team_id color)) /\
  (forall (name : string) (team_ids : option (list string))
       (description state target_date : option string),
     raises_only_overflow (Projects.linear_create_project name team_ids
         description state target_date)) /\
  (forall (issue_id url : string) (title subtitle icon_url : option string)
       (metadata : option dict) (create_as_user display_icon_url : option
           string),
     never_raises (Attachments.linear_create_attachment issue_id url title
         subtitle icon_url metadata create_as_user
      display_icon_url)) /\
  (forall (attachment_id : string) (title subtitle : option string)
       (metadata : option dict),
     never_raises (Attachments.linear_update_attachment attachment_id title
         subtitle metadata)) /\
  (forall (team_id : option string) (first : Z) (after : option string),
     never_raises (Labels.linear_list_labels team_id first after)) /\
  (forall (issue_id : string)
       (title description state_id assignee_id : option string)
       (priority : option Z) (label_ids : option (list string))
       (cycle_id project_id : option string) (estimate : option Z),
     raises_only_overflow (Issues.linear_update_issue issue_id title
         description state_id assignee_id priority label_ids
      cycle_id project_id estimate)) /\
  (forall (project_id : string)
       (name description state target_date : option string),
     raises_only_overflow (Projects.linear_update_project project_id name
         description state target_date)).
Proof.
  split.
  { intros issue_id. eapply refines_raises_only_overflow; [apply
      linear_get_issue_outcome | intros res e;
      apply entity_outcome_raises; apply issues_parse_issue_raises]. }
  split.
  { intros team_id. eapply refines_never_raises; [apply
      linear_get_team_outcome | intros res;
      apply entity_outcome_total; intros d; eexists; reflexivity]. }
  split.
  { eapply refines_never_raises; [apply linear_whoami_outcome | intros res;
      apply entity_outcome_total; intros d; eexists; reflexivity]. }
  split.
  { intros cycle_id. eapply refines_raises_only_overflow; [apply
      linear_get_cycle_outcome | intros res e;
      apply entity_outcome_raises; apply cycles_parse_cycle_raises]. }
  split.
  { intros team_id. eapply refines_raises_only_overflow; [apply
      linear_active_cycle_outcome | intros res e;
      apply entity_outcome_raises; apply cycles_parse_cycle_raises]. }
  split.
  { intros project_id. eapply refines_raises_only_overflow; [apply
      linear_get_project_outcome | intros res e;
      apply entity_outcome_raises; apply projects_parse_project_raises]. }
  split.
  { intros attachment_id. eapply refines_never_raises; [apply
      linear_get_attachment_outcome | intros res;
      apply entity_outcome_total; intros d; eexists; reflexivity]. }
  split.
  { intros filter first after order_by include_archived. eapply
      refines_raises_only_overflow; [apply linear_list_issues_outcome | intros
      res e;
      apply list_outcome_raises; apply issues_parse_issue_raises]. }
  split.
  { intros first after include_archived. eapply refines_raises_only_overflow;
      [apply linear_my_issues_outcome | intros res e;
      apply list_outcome_raises; apply compound_parse_issue_raises]. }
  split.
  { intros query first after include_archived. eapply
      refines_raises_only_overflow; [apply linear_search_issues_outcome |
      intros res e;
      apply list_outcome_raises; apply search_parse_issue_raises]. }
  split.
  { intros issue_id first after. eapply refines_never_raises; [apply
      linear_list_comments_outcome | intros res;
      apply list_outcome_total; intros d; eexists; reflexivity]. }
  split.
  { intros first after. eapply refines_never_raises; [apply
      linear_list_teams_outcome | intros res;
      apply list_outcome_total; intros d; eexists; reflexivity]. }
  split.
  { intros team_id. eapply refines_raises_only_overflow; [apply
      linear_list_team_states_outcome | intros res e;
      apply list_outcome_raises; apply teams_parse_state_raises]. }
  split.
  { intros first after include_archived. eapply refines_never_raises; [apply
      linear_list_users_outcome | intros res;
      apply list_outcome_total; intros d; eexists; reflexivity]. }
  split.
  { intros team_id first after include_archived. eapply
      refines_raises_only_overflow; [apply linear_list_cycles_outcome | intros
      res e;
      apply list_outcome_raises; apply cycles_parse_cycle_raises]. }
  split.
  { intros filter first after include_archived. eapply
      refines_raises_only_overflow; [apply linear_list_projects_outcome |
      intros res e;
      apply list_outcome_raises; apply projects_parse_project_raises]. }
  split.
  { intros url. eapply refines_never_raises; [apply
      linear_get_attachment_by_url_outcome | intros res;
      apply list_outcome_total; intros d; eexists; reflexivity]. }
  split.
  { intros team_id title description assignee_id state_id priority label_ids
      cycle_id project_id estimate create_as_user display_icon_url. eapply
      refines_raises_only_overflow; [apply linear_create_issue_outcome |
      intros res e;
      apply mutation_outcome_raises; apply issues_parse_issue_raises]. }
  split.
  { intros issue_id body create_as_user display_icon_url. eapply
      refines_never_raises; [apply linear_create_comment_outcome | intros res;
      apply mutation_outcome_total; intros d; eexists; reflexivity]. }
  split.
  { intros name team_id color. eapply refines_never_raises; [apply
      linear_create_label_outcome | intros res;
      apply mutation_outcome_total; intros d; eexists; reflexivity]. }
  split.
  { intros name team_ids description state target_date. eapply
      refines_raises_only_overflow; [apply linear_create_project_outcome |
      intros res e;
      apply mutation_outcome_raises; apply projects_parse_project_raises]. }
  split.
  { intros issue_id url title subtitle icon_url metadata create_as_user
      display_icon_url. eapply refines_never_raises; [apply
      linear_create_attachment_outcome | intros res;
      apply mutation_outcome_total; intros d; eexists; reflexivity]. }
  split.
  { intros attachment_id title subtitle metadata. eapply refines_never_raises;
      [apply linear_update_attachment_outcome | intros res;
      apply mutation_outcome_total; intros d; eexists; reflexivity]. }
  split.
  { intros team_id first after.
    eapply refines_never_raises; [apply linear_list_labels_outcome | intros res;
      apply list_outcome_total; intros d; eexists; reflexivity]. }
  split.
  { intros issue_id title description state_id assignee_id priority label_ids
      cycle_id project_id estimate.
    destruct (no_update_fields title description state_id assignee_id priority
        label_ids cycle_id project_id estimate) eqn:H.
    - intros w e. rewrite linear_update_issue_no_fields by exact H.
        discriminate.
    - eapply refines_raises_only_overflow; [now apply
        linear_update_issue_outcome | intros res e;
        apply mutation_outcome_raises; apply issues_parse_issue_raises]. }
  { intros project_id name description state target_date.
    destruct (is_none name && is_none description && is_none state && is_none
        target_date) eqn:H.
    - intros w e. rewrite linear_update_project_no_fields by exact H.
        discriminate.
    - eapply refines_raises_only_overflow; [now apply
        linear_update_project_outcome | intros res e;
        apply mutation_outcome_raises; apply projects_parse_project_raises]. }
Qed.

(** X15.  Every mutation tool maps a failure the remote mutation declares
    to its own fixed text: after a successful dispatch whose data is a
    mapping, a payload that is not a mapping or whose [success] is not
    truthy gives the tool's "... failed" text, and an accepted payload
    without a mapping-shaped entity gives its "No ... in response"
    text. *)
Theorem mutation_tools_declare_failure {T : PyText} :
  (forall (team_id title : string)
       (description assignee_id state_id : option string) (priority : option Z)
       (label_ids : option (list string)) (cycle_id project_id : option string)
       (estimate : option Z) (create_as_user display_icon_url : option string),
     declares_failure (Issues.linear_create_issue team_id title description
         assignee_id state_id priority label_ids
      cycle_id project_id estimate create_as_user display_icon_url)
       "issueCreate" "Issue creation failed" "issue" "No issue in response") /\
  (forall (issue_id body : string)
       (create_as_user display_icon_url : option string),
     declares_failure (Comments.linear_create_comment issue_id body
         create_as_user display_icon_url)
       "commentCreate" "Comment creation failed" "comment"
           "No comment in response") /\
  (forall (name : string) (team_id color : option string),
     declares_failure (Labels.linear_create_label name team_id color)
       "issueLabelCreate" "Label creation failed" "issueLabel"
           "No label in response") /\
  (forall (name : string) (team_ids : option (list string))
       (description state target_date : option string),
     declares_failure (Projects.linear_create_project name team_ids
         description state target_date)
       "projectCreate" "Project creation failed" "project"
           "No project in response") /\
  (forall (issue_id url : string) (title subtitle icon_url : option string)
       (metadata : option dict) (create_as_user display_icon_url : option
           string),
     declares_failure (Attachments.linear_create_attachment issue_id url title
         subtitle icon_url metadata create_as_user
      display_icon_url)
       "attachmentCreate" "Attachment creation failed" "attachment"
           "No attachment in response") /\
  (forall (attachment_id : string) (title subtitle : option string)
       (metadata : option dict),
     declares_failure (Attachments.linear_update_attachment attachment_id
         title subtitle metadata)
       "attachmentUpdate" "Attachment update failed" "attachment"
           "No attachment in response") /\
  (forall (issue_id : string)
       (title description state_id assignee_id : option string)
       (priority : option Z) (label_ids : option (list string))
       (cycle_id project_id : option string) (estimate : option Z),
     no_update_fields title description state_id assignee_id priority label_ids
       cycle_id project_id estimate = false ->
     declares_failure (Issues.linear_update_issue issue_id title description
         state_id assignee_id priority label_ids
      cycle_id project_id estimate)
       "issueUpdate" "Issue update failed" "issue" "No issue in response") /\
  (forall (project_id : string)
       (name description state target_date : option string),
     is_none name && is_none description && is_none state &&
       is_none target_date = false ->
     declares_failure (Projects.linear_update_project project_id name
         description state target_date)
       "projectUpdate" "Project update failed" "project"
           "No project in response").
Proof.
  split.
  { intros team_id title description assignee_id state_id priority label_ids
      cycle_id project_id estimate create_as_user display_icon_url. eapply
      refines_declares_failure; apply linear_create_issue_outcome. }
  split.
  { intros issue_id body create_as_user display_icon_url. eapply
      refines_declares_failure; apply linear_create_comment_outcome. }
  split.
  { intros name team_id color. eapply refines_declares_failure; apply
      linear_create_label_outcome. }
  split.
  { intros name team_ids description state target_date. eapply
      refines_declares_failure; apply linear_create_project_outcome. }
  split.
  { intros issue_id url title subtitle icon_url metadata create_as_user
      display_icon_url. eapply refines_declares_failure; apply
      linear_create_attachment_outcome. }
  split.
  { intros attachment_id title subtitle metadata. eapply
      refines_declares_failure; apply linear_update_attachment_outcome. }
  split.
  { intros issue_id title description state_id assignee_id priority label_ids
      cycle_id project_id estimate H.
    eapply refines_declares_failure; now apply linear_update_issue_outcome. }
  { intros project_id name description state target_date H.
    eapply refines_declares_failure; now apply linear_update_project_outcome. }
Qed.

(** ** What a mutation request carries *)

Section RequestFields.
Context {T : PyText}.

Lemma lookup_setitem (d : dict) (key : string) (v : value) (key' : string) :
  lookup (setitem d key v) key' =
    if String.eqb key key' then Some v else lookup d key'.
Proof.
  induction d as [ | [k w] rest IH]; simpl; [reflexivity | ].
  destruct (String.eqb k key) eqn:E; simpl.
  - apply String.eqb_eq in E. subst k. now destruct (String.eqb key key').
  - rewrite IH. destruct (String.eqb key key') eqn:E1; [ | reflexivity].
    apply String.eqb_eq in E1. subst key'. now rewrite E.
Qed.

Lemma lookup_set_opt (d : dict) (key : string) (o : option value)
    (key' : string) :
  lookup (set_opt d key o) key' =
    match (if String.eqb key key' then o else None) with
    | Some v => Some v
    | None => lookup d key'
    end.
Proof.
  destruct o as [v | ]; simpl.
  - rewrite lookup_setitem. now destruct (String.eqb key key').
  - now destruct (String.eqb key key').
Qed.

Lemma lookup_app (d extra : dict) (key : string) :
  lookup (d ++ extra)%list key =
    match lookup d key with
    | Some v => Some v
    | None => lookup extra key
    end.
Proof.
  induction d as [ | [k w] rest IH]; simpl; [reflexivity | ].
  now destruct (String.eqb k key).
Qed.
End RequestFields.

Ltac given_field :=
  rewrite !lookup_set_opt; cbn [String.eqb Ascii.eqb Bool.eqb lookup];
  match goal with
  | |- match ?o with Some _ => _ | None => _ end = _ => now destruct o
  | |- _ => reflexivity
  end.

Ltac only_listed_keys :=
  let key := fresh "key" in
  let H := fresh "H" in
  intros key H; rewrite !lookup_set_opt in H;
  repeat match type of H with
         | context [String.eqb ?k key] =>
             let E := fresh "E" in
             destruct (String.eqb k key) eqn:E;
             [ apply String.eqb_eq in E; subst key; simpl; tauto | ]
         end;
  now contradiction H.

(** X16.  [linear_update_issue], given at least one field, sends one
    mutation whose variables are the issue id and an [input] holding,
    under its API key, each field that was given and nothing else: an
    omitted field is absent from the request, not sent as null. *)
Theorem update_issue_sends_given_fields {T : PyText} (issue_id : string)
    (title description state_id assignee_id : option string)
    (priority : option Z) (label_ids : option (list string))
    (cycle_id project_id : option string) (estimate : option Z) (w : World) :
  no_update_fields title description state_id assignee_id priority label_ids
    cycle_id project_id estimate = false ->
  exists input,
    snd (Issues.linear_update_issue issue_id title description state_id
           assignee_id priority label_ids cycle_id project_id estimate w)
      = after_dispatch w
          (graphql_request Issues.update_query
             (Some [("id", VStr issue_id); ("input", VDict input)]) None) /\
    lookup input "title" = text_arg title /\
    lookup input "description" = text_arg description /\
    lookup input "stateId" = text_arg state_id /\
    lookup input "assigneeId" = text_arg assignee_id /\
    lookup input "priority" = int_arg priority /\
    lookup input "labelIds" = texts_arg label_ids /\
    lookup input "cycleId" = text_arg cycle_id /\
    lookup input "projectId" = text_arg project_id /\
    lookup input "estimate" = int_arg estimate /\
    (forall key, lookup input key <> None ->
       In key ["title"; "description"; "stateId"; "assigneeId"; "priority";
               "labelIds"; "cycleId"; "projectId"; "estimate"]).
Proof.
  intros Hfields. unfold Issues.linear_update_issue.
  rewrite update_input_truthy, Hfields. cbn [negb].
  eexists. split.
  { world_after_graphql. }
  repeat (split; [given_field | ]).
  only_listed_keys.
Qed.

Lemma update_issue_sends_given_fields_witness :
  no_update_fields (Some "Renamed") None None None (Some 2) None None None None
    = false /\
  exists input,
    snd (Issues.linear_update_issue (T := sample_text) "ENG-1" (Some "Renamed")
           None None None (Some 2) None None None None
           (answering rejected_update_body))
      = after_dispatch (answering rejected_update_body)
          (graphql_request (T := sample_text) Issues.update_query
             (Some [("id", VStr "ENG-1"); ("input", VDict input)]) None) /\
    lookup input "title" = Some (VStr "Renamed") /\
    lookup input "priority" = Some (VInt 2) /\
    lookup input "description" = None.
Proof.
  split; [reflexivity | ].
  destruct (update_issue_sends_given_fields (T := sample_text) "ENG-1"
              (Some "Renamed") None None None (Some 2) None None None None
              (answering rejected_update_body) eq_refl)
    as (input & Hsent & Htitle & Hdesc & _ & _ & Hprio & _).
  exists input. repeat split; assumption.
Defined.

(** X17.  [linear_create_issue] always sends one mutation whose [input]
    holds the team id and the title, and besides them exactly the
    optional fields that were given, each under its API key. *)
Theorem create_issue_sends_given_fields {T : PyText} (team_id title : string)
    (description assignee_id state_id : option string)
    (priority : option Z) (label_ids : option (list string))
    (cycle_id project_id : option string) (estimate : option Z)
    (create_as_user display_icon_url : option string) (w : World) :
  exists input,
    snd (Issues.linear_create_issue team_id title description assignee_id
           state_id priority label_ids cycle_id project_id estimate
           create_as_user display_icon_url w)
      = after_dispatch w
          (graphql_request Issues.create_query
             (Some [("input", VDict input)]) None) /\
    lookup input "teamId" = Some (VStr team_id) /\
    lookup input "title" = Some (VStr title) /\
    lookup input "description" = text_arg description /\
    lookup input "assigneeId" = text_arg assignee_id /\
    lookup input "stateId" = text_arg state_id /\
    lookup input "priority" = int_arg priority /\
    lookup input "labelIds" = texts_arg label_ids /\
    lookup input "cycleId" = text_arg cycle_id /\
    lookup input "projectId" = text_arg project_id /\
    lookup input "estimate" = int_arg estimate /\
    lookup input "createAsUser" = text_arg create_as_user /\
    lookup input "displayIconUrl" = text_arg display_icon_url /\
    (forall key, lookup input key <> None ->
       In key ["displayIconUrl"; "createAsUser"; "estimate"; "projectId";
               "cycleId"; "labelIds"; "priority"; "stateId"; "assigneeId";
               "description"; "teamId"; "title"]).
Proof.
  unfold Issues.linear_create_issue.
  eexists. split.
  { world_after_graphql. }
  repeat (split; [given_field | ]).
  intros key H. rewrite !lookup_set_opt in H.
  repeat match type of H with
         | context [String.eqb ?k key] =>
             let E := fresh "E" in
             destruct (String.eqb k key) eqn:E;
             [ apply String.eqb_eq in E; subst key; simpl; tauto | ]
         end.
  cbn [lookup] in H.
  repeat match type of H with
         | context [String.eqb ?k key] =>
             let E := fresh "E" in
             destruct (String.eqb k key) eqn:E;
             [ apply String.eqb_eq in E; subst key; simpl; tauto | ]
         end.
  now contradiction H.
Qed.

(** X18.  [linear_list_labels] treats an empty team id like no team id:
    both list the workspace labels, with only the paging variables; a
    non-empty team id lists that team's labels, passing it as [id]. *)
Theorem list_labels_scope {T : PyText} (first : Z) (after : option string)
    (w : World) :
  Labels.linear_list_labels (Some "") first after w
    = Labels.linear_list_labels None first after w /\
  snd (Labels.linear_list_labels None first after w)
    = after_dispatch w
        (graphql_request Labels.labels_query
           (Some [("first", VInt first); ("after", text_value after)]) None) /\
  (forall team_id, team_id <> "" ->
     snd (Labels.linear_list_labels (Some team_id) first after w)
       = after_dispatch w
           (graphql_request Labels.team_labels_query
              (Some [("id", VStr team_id); ("first", VInt first);
                     ("after", text_value after)]) None)).
Proof.
  split; [reflexivity | split].
  - unfold Labels.linear_list_labels. cbn [text_value truthy].
    unfold Labels.labels_of. world_after_graphql.
  - intros team_id Hteam. unfold Labels.linear_list_labels.
    cbn [text_value truthy].
    destruct (String.eqb team_id "") eqn:E;
      [apply String.eqb_eq in E; contradiction | ].
    cbn [negb]. unfold Labels.labels_of. world_after_graphql.
Qed.

(** X19.  The update tools differ on an update without fields:
    [linear_update_project] answers "No fields to update" and sends
    nothing, as [linear_update_issue] does, whereas
    [linear_update_attachment] has no such guard and sends its mutation
    with an empty [input]. *)
Theorem update_without_fields_guard {T : PyText} (project_id attachment_id :
    string)
    (w : World) :
  Projects.linear_update_project project_id None None None None w
    = (Ok (Text "No fields to update"), w) /\
  snd (Attachments.linear_update_attachment attachment_id None None None w)
    = after_dispatch w
        (graphql_request Attachments.update_attachment_query
           (Some [("id", VStr attachment_id); ("input", VDict [])]) None).
Proof.
  split; [reflexivity | ].
  unfold Attachments.linear_update_attachment.
  cbn [set_opt text_arg dict_arg option_map]. world_after_graphql.
Qed.

(** ** Well-formed responses, end to end *)

Section EndToEnd.
Context {T : PyText}.

Lemma issue_node_has_no_branches (r : IssueInfo.t) :
  lookup (issue_node r) "comments" = None /\
  lookup (issue_node r) "team" = None.
Proof. split; reflexivity. Qed.

Lemma parse_context_of_data (r : IssueContextInfo.t) :
  Forall (fun l => l <> "") (IssueInfo.labels (IssueContextInfo.issue r)) ->
  Compound.parse_context
    (issue_node (IssueContextInfo.issue r) ++ context_branches r)%list = Ok r.
Proof.
  intros Hl. destruct r as [issue comments states].
  cbn [IssueContextInfo.issue] in *.
  unfold Compound.parse_context.
  change (Compound._parse_issue) with (Issues._parse_issue).
  rewrite (parse_issue_of_node issue _ Hl). cbn [rbind].
  unfold get_or. rewrite !lookup_app.
  destruct (issue_node_has_no_branches issue) as [-> ->].
  unfold context_branches.
  cbn [lookup String.eqb Ascii.eqb Bool.eqb IssueContextInfo.comments
       IssueContextInfo.states].
  unfold Compound.parse_nodes. cbn [py_iter rbind].
  rewrite !parse_each_is_parse_mappings.
  change (Compound._parse_comment) with (Comments._parse_comment).
  change (Compound._parse_state) with (Teams._parse_state).
  rewrite (parse_mappings_of_nodes Comments._parse_comment comment_node
             comments parse_comment_of_node).
  cbn [rbind].
  rewrite (parse_mappings_of_nodes Teams._parse_state state_node
             states parse_state_of_node).
  reflexivity.
Qed.
End EndToEnd.

(** X20.  A well-formed response gives back exactly what it encodes, end
    to end: when the transport delivers a body without errors whose data
    holds a well-typed issue node, [linear_get_issue] returns that issue;
    when the issue node also holds its comment and workflow-state nodes,
    [linear_issue_context] returns the issue with all its comments and
    states, in response order.  Labels must be non-empty, since a label
    node with an empty name is dropped. *)
Theorem well_formed_responses_round_trip {T : PyText} (r : IssueContextInfo.t)
    (issue_id : string) :
  Forall (fun l => l <> "") (IssueInfo.labels (IssueContextInfo.issue r)) ->
  fst (Issues.linear_get_issue issue_id
         (answering
            (data_body [("issue", VDict (issue_node (IssueContextInfo.issue
                r)))])))
    = Ok (Record_ (IssueContextInfo.issue r)) /\
  fst (Compound.linear_issue_context issue_id (answering (data_body
      (context_data r))))
    = Ok (Record_ r).
Proof.
  intros Hl. split.
  - destruct (linear_get_issue_outcome issue_id
                (answering
                   (data_body
                      [("issue", VDict (issue_node (IssueContextInfo.issue
                          r)))])))
      as [variables ->].
    unfold run_outcome. cbn [fst].
    change (graphql_result _) with
      (LinearResult.mk true
         (VDict [("issue", VDict (issue_node (IssueContextInfo.issue r)))])
             None).
    unfold entity_outcome.
    cbn [LinearResult.success LinearResult.data descend lookup String.eqb
         Ascii.eqb Bool.eqb].
    rewrite <- (app_nil_r (issue_node (IssueContextInfo.issue r))).
    now rewrite (parse_issue_of_node _ [] Hl).
  - destruct (linear_issue_context_outcome issue_id
                (answering (data_body (context_data r)))) as [variables ->].
    unfold run_outcome. cbn [fst].
    change (graphql_result _) with
      (LinearResult.mk true (VDict (context_data r)) None).
    unfold entity_outcome.
    cbn [LinearResult.success LinearResult.data descend].
    unfold context_data. cbn [lookup String.eqb Ascii.eqb Bool.eqb].
    now rewrite (parse_context_of_data r Hl).
Qed.

Lemma well_formed_responses_round_trip_witness :
  Forall (fun l => l <> "") (IssueInfo.labels sample_issue) /\
  fst (Compound.linear_issue_context (T := sample_text) "ENG-1"
         (answering
            (data_body
               (context_data
                  (IssueContextInfo.mk sample_issue
                     [CommentInfo.mk "c1" "Looks good" (Some "Ann") None]
                     [WorkflowStateInfo.mk "s1" "Done" "completed" None
                        float_one])))))
    = Ok (Record_
            (IssueContextInfo.mk sample_issue
               [CommentInfo.mk "c1" "Looks good" (Some "Ann") None]
               [WorkflowStateInfo.mk "s1" "Done" "completed" None float_one])).
Proof.
  assert (H : Forall (fun l => l <> "") (IssueInfo.labels sample_issue))
    by (repeat constructor; discriminate).
  split; [exact H | ].
  exact (proj2 (well_formed_responses_round_trip (T := sample_text)
                  (IssueContextInfo.mk sample_issue
                     [CommentInfo.mk "c1" "Looks good" (Some "Ann") None]
                     [WorkflowStateInfo.mk "s1" "Done" "completed" None
                        float_one])
                  "ENG-1" H)).
Defined.

(** ** The text of a declared failure *)

Section DeclaredFailure.
Context {T : PyText}.



End DeclaredFailure.



